(** * A shallow embedding of the social-platform backend and browser client

    The server (an Express application over a hosted relational store) is
    embedded as pure functions from an environment, a request and a store to
    a response and a new store.  The browser-side post formatters are
    embedded as functions on strings, and the rest of the client (stored
    session, form handlers, feed and profile pages) as functions on an
    explicit state that call the embedded server.

    Conventions.
    - A JavaScript string is a [string]; each [ascii] stands for one UTF-16
      code unit below 256 (Basic Latin and Latin-1 Supplement), the range on
      which [toLowerCase], [trim], [\s] and [\w] are written out exactly.
    - A JavaScript object used as a record (a request body, a table row, a
      token payload) is a [gmap string scalar]; an absent key is [undefined].
    - Everything the server obtains from outside its own source (clock,
      randomness, signing secret, password hashing, the e-mail syntax check,
      the store's pattern match) is a field of [Env]. *)

From Stdlib Require Import Ascii.
From stdpp Require Import gmap strings list fin_maps pretty.

#[local] Open Scope string_scope.
#[local] Open Scope Z_scope.

(** ** JavaScript strings *)

Module Js.

Definition code (c : ascii) : N := N_of_ascii c.

Definition between (lo hi : N) (c : ascii) : bool :=
  ((lo <=? code c) && (code c <=? hi))%N.

(** [\s] and the characters removed by [trim]: TAB, LF, VT, FF, CR, space
    and no-break space. *)
Definition is_space (c : ascii) : bool :=
  between 9 13 c || (code c =? 32)%N || (code c =? 160)%N.

Definition is_digit (c : ascii) : bool := between 48 57 c.

(** [\w] is [A-Za-z0-9_]. *)
Definition is_word (c : ascii) : bool :=
  is_digit c || between 65 90 c || between 97 122 c || (code c =? 95)%N.

Definition lower (c : ascii) : ascii :=
  if between 65 90 c || (between 192 222 c && negb (code c =? 215)%N)
  then ascii_of_N (code c + 32)
  else c.

Fixpoint toLowerCase (s : string) : string :=
  match s with
  | EmptyString => EmptyString
  | String c s' => String (lower c) (toLowerCase s')
  end.

Fixpoint trimStart (s : string) : string :=
  match s with
  | EmptyString => EmptyString
  | String c s' => if is_space c then trimStart s' else s
  end.

Fixpoint trimEnd (s : string) : string :=
  match s with
  | EmptyString => EmptyString
  | String c s' =>
      match trimEnd s' with
      | EmptyString => if is_space c then EmptyString else String c EmptyString
      | t => String c t
      end
  end.

Definition trim (s : string) : string := trimEnd (trimStart s).

Fixpoint all_chars (p : ascii -> bool) (s : string) : bool :=
  match s with
  | EmptyString => true
  | String c s' => p c && all_chars p s'
  end.

Fixpoint has_char (c : ascii) (s : string) : bool :=
  match s with
  | EmptyString => false
  | String d s' => bool_decide (d = c) || has_char c s'
  end.

(** [s.replace(/c/g, r)] for a one-character pattern. *)
Fixpoint replace_char (c : ascii) (r : string) (s : string) : string :=
  match s with
  | EmptyString => EmptyString
  | String d s' =>
      if bool_decide (d = c) then r +:+ replace_char c r s'
      else String d (replace_char c r s')
  end.

Definition head_is (p : ascii -> bool) (s : string) : bool :=
  match s with
  | EmptyString => false
  | String c _ => p c
  end.

(** Does [s] begin with [p]; the remainder when it does. *)
Fixpoint strip_prefix (p s : string) : option string :=
  match p, s with
  | EmptyString, _ => Some s
  | String a p', String b s' =>
      if bool_decide (a = b) then strip_prefix p' s' else None
  | String _ _, EmptyString => None
  end.

(** Does a match of [https?:\/\/[^\s]+] start at the head of [s]?  The
    optional [s] is tried first and abandoned when the rest does not follow,
    as the backtracking matcher does. *)
Definition url_tail (s : string) : bool :=
  match strip_prefix "://" s with
  | Some r => head_is (fun c => negb (is_space c)) r
  | None => false
  end.

Definition starts_url (s : string) : bool :=
  match strip_prefix "http" s with
  | Some r =>
      match strip_prefix "s" r with
      | Some r' => url_tail r' || url_tail r
      | None => url_tail r
      end
  | None => false
  end.

(** [s.replace(/(https?:\/\/[^\s]+)/g, f("$1"))]: every character of a
    match is a non-space character and the last group is greedy, so a match
    is the whole run of non-space characters from its first [h].  [run] is
    the match collected so far. *)
Fixpoint replace_urls (f : string -> string) (run : option string)
    (s : string) : string :=
  match s with
  | EmptyString =>
      match run with Some m => f m | None => EmptyString end
  | String c s' =>
      match run with
      | Some m =>
          if is_space c then f m +:+ String c (replace_urls f None s')
          else replace_urls f (Some (m +:+ String c EmptyString)) s'
      | None =>
          if starts_url s
          then replace_urls f (Some (String c EmptyString)) s'
          else String c (replace_urls f None s')
      end
  end.

(** [s.replace(/X(\w+)/g, opening + "X$1" + closing)] for a one-character
    sigil [X] that is not a word character.  [inside] holds while the
    scanner is within the word of a match. *)
Fixpoint replace_tagged (sigil : ascii) (opening closing : string)
    (inside : bool) (s : string) : string :=
  match s with
  | EmptyString => if inside then closing else EmptyString
  | String c s' =>
      if inside && is_word c
      then String c (replace_tagged sigil opening closing true s')
      else
        (if inside then closing else EmptyString) +:+
        (if bool_decide (c = sigil) && head_is is_word s'
         then opening +:+ String c (replace_tagged sigil opening closing true s')
         else String c (replace_tagged sigil opening closing false s'))
  end.

Fixpoint digits_value (acc : Z) (s : string) : option Z :=
  match s with
  | EmptyString => Some acc
  | String c r =>
      if is_digit c
      then digits_value (acc * 10 + (Z.of_N (code c) - 48)) r
      else None
  end.

Definition parse_digits (s : string) : option Z :=
  if bool_decide (s = "") then None else digits_value 0 s.

(** The number read from a text of the form [[-+]?[0-9]+]; [None] for any
    other text. *)
Definition parse_int (s : string) : option Z :=
  match s with
  | String "+" r => parse_digits r
  | String "-" r => Z.opp <$> parse_digits r
  | _ => parse_digits s
  end.

End Js.

(** ** Browser client: the two post formatters (js/feed.js, profile script) *)

Module Html.

Definition dq : string := String "034"%char EmptyString.
Definition sq : string := String "039"%char EmptyString.

Definition anchor (m : string) : string :=
  "<a href=" +:+ dq +:+ m +:+ dq +:+ " target=" +:+ dq +:+ "_blank" +:+ dq
    +:+ " rel=" +:+ dq +:+ "noopener" +:+ dq +:+ ">" +:+ m +:+ "</a>".

Definition span_open (class : string) : string :=
  "<span class=" +:+ dq +:+ class +:+ dq +:+ ">".

Definition span_close : string := "</span>".

(** The three rewriting steps shared by both formatters: URLs to links,
    then hashtags, then mentions. *)
Definition linkify (formatted : string) : string :=
  let formatted := Js.replace_urls anchor None formatted in
  let formatted :=
    Js.replace_tagged "#" (span_open "hashtag") span_close false formatted in
  Js.replace_tagged "@" (span_open "mention") span_close false formatted.

End Html.

Module FeedManager.

Definition escapeHtml (unsafe : string) : string :=
  Js.replace_char "039" "&#039;"
    (Js.replace_char "034" "&quot;"
      (Js.replace_char ">" "&gt;"
        (Js.replace_char "<" "&lt;"
          (Js.replace_char "&" "&amp;" unsafe)))).

Definition formatPostContent (content : string) : string :=
  if bool_decide (content = EmptyString) then EmptyString
  else Html.linkify (escapeHtml content).

End FeedManager.

Module ProfileManager.

Definition formatPostContent (content : string) : string :=
  if bool_decide (content = EmptyString) then EmptyString
  else
    Html.linkify
      (Js.replace_char ">" "&gt;"
        (Js.replace_char "<" "&lt;"
          (Js.replace_char "&" "&amp;" content))).

End ProfileManager.

(** ** Values, rows and timestamps *)

(** A JSON scalar.  Request bodies, token payloads and table rows are flat
    objects of scalars; nested values occur only in responses ([json]). *)
Inductive scalar : Type :=
  | SNull
  | SBool (b : bool)
  | SNum (n : Z)
  | SStr (s : string).

#[global] Instance scalar_eq_dec : EqDecision scalar.
Proof. solve_decision. Defined.

Abbreviation row := (gmap string scalar).

(** JavaScript truthiness of a property read ([None] is [undefined]). *)
Definition truthy (v : option scalar) : bool :=
  match v with
  | None | Some SNull | Some (SBool false) | Some (SNum 0) | Some (SStr "") => false
  | Some _ => true
  end.

(** The text a validator sees: express-validator turns the field into a
    string first, [undefined] and [null] becoming the empty string. *)
Definition to_text (v : option scalar) : string :=
  match v with
  | None | Some SNull => ""
  | Some (SBool true) => "true"
  | Some (SBool false) => "false"
  | Some (SNum n) => pretty n
  | Some (SStr s) => s
  end.

(** An object literal in which a property whose value is [undefined] is
    dropped, as JSON serialisation does. *)
Fixpoint object (fields : list (string * option scalar)) : row :=
  match fields with
  | [] => ∅
  | (k, Some v) :: rest => <[k := v]> (object rest)
  | (_, None) :: rest => object rest
  end.

Module Date.

(** Largest magnitude of a time value, in milliseconds. *)
Definition max_time : Z := 8640000000000000.

Fixpoint pad (width : nat) (n : Z) : string :=
  match width with
  | O => ""
  | S w => pad w (n / 10) +:+ pretty (n mod 10)
  end.

(** Proleptic Gregorian (year, month, day) of a day count from the epoch. *)
Definition civil (days : Z) : Z * Z * Z :=
  let z := days + 719468 in
  let era := z / 146097 in
  let doe := z - era * 146097 in
  let yoe := (doe - doe / 1460 + doe / 36524 - doe / 146096) / 365 in
  let doy := doe - (365 * yoe + yoe / 4 - yoe / 100) in
  let mp := (5 * doy + 2) / 153 in
  let d := doy - (153 * mp + 2) / 5 + 1 in
  let m := if mp <? 10 then mp + 3 else mp - 9 in
  let y := yoe + era * 400 + (if m <=? 2 then 1 else 0) in
  (y, m, d).

Definition year_text (y : Z) : string :=
  if (0 <=? y) && (y <=? 9999) then pad 4 y
  else (if y <? 0 then "-" else "+") +:+ pad 6 (Z.abs y).

(** [new Date(t).toISOString()]; [None] is the RangeError for a time
    value outside the representable range. *)
Definition toISOString (t : Z) : option string :=
  if (- max_time <=? t) && (t <=? max_time) then
    let '(y, m, d) := civil (t / 86400000) in
    let ms := t mod 86400000 in
    Some (year_text y +:+ "-" +:+ pad 2 m +:+ "-" +:+ pad 2 d +:+ "T"
          +:+ pad 2 (ms / 3600000) +:+ ":" +:+ pad 2 (ms / 60000 mod 60)
          +:+ ":" +:+ pad 2 (ms / 1000 mod 60) +:+ "." +:+ pad 3 (ms mod 1000)
          +:+ "Z")
  else None.

End Date.

(** ** Bearer tokens

    A token is kept in decoded form: [Signed key payload iat exp] is the
    token obtained by signing [payload] with [key]; [Opaque text] is any
    other text (a malformed token, the word [Bearer], the empty string).
    Times are in seconds, as in the token's [iat] and [exp] claims. *)
Inductive jwt : Type :=
  | Opaque (text : string)
  | Signed (key : string) (payload : row) (iat exp : Z).

#[global] Instance jwt_eq_dec : EqDecision jwt.
Proof. solve_decision. Defined.

Module Jwt.

Definition seven_days : Z := 7 * 24 * 60 * 60.

(** [jwt.sign(payload, secret, { expiresIn: '7d' })] *)
Definition sign (payload : row) (secret : string) (now_ms : Z) : jwt :=
  let iat := now_ms / 1000 in
  Signed secret payload iat (iat + seven_days).

(** [jwt.verify(token, secret, callback)]: [None] is the [err] branch
    (malformed token, wrong signature, or expired), [Some user] the decoded
    payload passed to the callback. *)
Definition verify (token : jwt) (secret : string) (now_ms : Z) : option row :=
  match token with
  | Opaque _ => None
  | Signed key payload iat exp =>
      if bool_decide (key = secret) && (now_ms / 1000 <? exp)
      then Some (<["iat" := SNum iat]> (<["exp" := SNum exp]> payload))
      else None
  end.

(** [!token] on the text of the header word. *)
Definition falsy (token : jwt) : bool :=
  match token with
  | Opaque "" => true
  | _ => false
  end.

End Jwt.

(** ** Responses *)

#[local] Set Warnings "-register-all".
Inductive json : Type :=
  | JVal (v : scalar)
  | JTok (t : jwt)
  | JArr (items : list json)
  | JObj (fields : gmap string json).
#[local] Set Warnings "register-all".

Definition of_row (r : row) : json := JObj (JVal <$> r).

Definition jobject (fields : list (string * json)) : json :=
  JObj (list_to_map fields).

(** Does the name [k] occur as a property anywhere inside the value? *)
Fixpoint has_key (k : string) (j : json) : bool :=
  match j with
  | JVal _ | JTok _ => false
  | JArr items => existsb (has_key k) items
  | JObj fields =>
      bool_decide (is_Some (fields !! k))
      || map_fold (fun _ v found => has_key k v || found) false fields
  end.

Definition property (k : string) (j : json) : option json :=
  match j with
  | JObj fields => fields !! k
  | _ => None
  end.

Record Response : Type := mkResponse {
  status : Z;
  sent : json
}.

(** [res.json(j)] and [res.status(code).json(j)] *)
Definition res_json (j : json) : Response := mkResponse 200 j.
Definition res_status_json (code : Z) (j : json) : Response := mkResponse code j.

Definition error_body (message : string) : json :=
  jobject [("error", JVal (SStr message))].
Definition message_body (message : string) : json :=
  jobject [("message", JVal (SStr message))].

(** ** The environment of one request *)

Record Env : Type := mkEnv {
  JWT_SECRET : string;                      (* process.env.JWT_SECRET *)
  Date_now : Z;                             (* Date.now(), milliseconds *)
  Math_random_100 : Z;                      (* Math.floor(Math.random() * 100) *)
  bcrypt_hash : string -> Z -> string;      (* bcrypt.hash(password, rounds) *)
  bcrypt_compare : string -> string -> bool;(* bcrypt.compare(password, hash) *)
  isEmail : string -> bool;                 (* the validator's e-mail syntax check *)
  ilike : string -> string -> bool          (* the store's ILIKE: pattern, text *)
}.

(** ** Requests *)

Record Request : Type := mkRequest {
  authorization : option (list jwt);  (* the Authorization header, split at spaces *)
  params : row;                       (* route parameters *)
  query : gmap string string;         (* query string *)
  body : row                          (* parsed JSON body *)
}.

(** ** The persistence service

    A table is the list of its rows, oldest first.  A column that a row does
    not carry is NULL.  The service stamps every inserted row with a fresh
    [id] and the insertion time as [created_at].  Whether the [users] table
    has unique constraints on [username] and [email] is a property of the
    deployed schema, recorded in [unique_users]. *)

Record Store : Type := mkStore {
  tables : gmap string (list row);
  next_id : Z;
  unique_users : bool
}.

Module Db.

Definition from (t : string) (db : Store) : list row :=
  default [] (tables db !! t).

(** [.eq(col, v)] *)
Definition eq (col : string) (v : option scalar) (r : row) : bool :=
  match v with
  | Some x => bool_decide (r !! col = Some x)
  | None => false
  end.

(** [col.eq.text] inside an [.or(...)] filter string *)
Definition eq_text (col : string) (text : string) (r : row) : bool :=
  bool_decide (r !! col = Some (SStr text)).

(** [col.ilike.pattern] inside an [.or(...)] filter string *)
Definition ilike_text (env : Env) (col : string) (pattern : string) (r : row) : bool :=
  match r !! col with
  | Some (SStr text) => ilike env pattern text
  | _ => false
  end.

(** [.select('a, b, c')]: the listed columns of a row *)
Definition columns (cols : list string) (r : row) : row :=
  object ((fun c => (c, r !! c)) <$> cols).

Definition same_non_null (col : string) (r1 r2 : row) : bool :=
  match r1 !! col with
  | Some SNull | None => false
  | Some v => bool_decide (r2 !! col = Some v)
  end.

Definition violates_unique (t : string) (r : row) (db : Store) : bool :=
  unique_users db && bool_decide (t = "users")
  && existsb (fun r' => same_non_null "username" r r' || same_non_null "email" r r')
       (from t db).

Definition duplicate_key : string :=
  "duplicate key value violates unique constraint".

(** [.insert([values]).select().single()]: the stored row, or the error
    message of the service. *)
Definition insert (now_ms : Z) (t : string) (values : row) (db : Store)
    : (string + row) * Store :=
  if violates_unique t values db then (inl duplicate_key, db)
  else
    let stamp := match Date.toISOString now_ms with
                 | Some iso => SStr iso
                 | None => SNull
                 end in
    let r := <["id" := SNum (next_id db)]> (<["created_at" := stamp]> values) in
    (inr r,
     {| tables := <[t := (from t db ++ [r])%list]> (tables db);
        next_id := next_id db + 1;
        unique_users := unique_users db |}).

(** [.update(values)] followed by a row filter *)
Definition update (t : string) (values : row) (p : row -> bool) (db : Store) : Store :=
  {| tables := alter (fmap (fun r => if p r then values ∪ r else r)) t (tables db);
     next_id := next_id db;
     unique_users := unique_users db |}.

(** [.delete()] followed by a row filter *)
Definition delete (t : string) (p : row -> bool) (db : Store) : Store :=
  {| tables := alter (List.filter (fun r => negb (p r))) t (tables db);
     next_id := next_id db;
     unique_users := unique_users db |}.

(** [.range(from, to)] on an ordered result: rows [from] to [to],
    both included. *)
Definition range (lo hi : Z) (rows : list row) : list row :=
  take (Z.to_nat (hi - lo + 1)) (drop (Z.to_nat lo) rows).

End Db.

(** ** Request validation (express-validator) *)

Module Validator.

(** [isLength({ min, max })] *)
Definition isLength (min : nat) (max : option nat) (s : string) : bool :=
  let n := String.length s in
  (min <=? n)%nat && match max with Some m => (n <=? m)%nat | None => true end.

(** [matches(/^[a-zA-Z0-9_]+$/)] *)
Definition matches_word (s : string) : bool :=
  negb (bool_decide (s = "")) && Js.all_chars Js.is_word s.

(** [notEmpty()] *)
Definition notEmpty (s : string) : bool := negb (bool_decide (s = "")).

(** [isInt({ min })] *)
Definition isInt (min : Z) (s : string) : bool :=
  match Js.parse_int s with
  | Some n => min <=? n
  | None => false
  end.

(** [isIn(values)] *)
Definition isIn (values : list string) (s : string) : bool :=
  bool_decide (s ∈ values).

(** One validator of a chain [body(field)...]. *)
Record check : Type := mkCheck {
  field : string;
  test : string -> bool
}.

Definition error_of (b : row) (c : check) : json :=
  let described :=
    [("type", JVal (SStr "field")); ("msg", JVal (SStr "Invalid value"));
     ("path", JVal (SStr (field c))); ("location", JVal (SStr "body"))] in
  match b !! field c with
  | Some v => jobject (("value", JVal v) :: described)
  | None => jobject described
  end.

(** [validationResult(req).array()] *)
Definition validationResult (checks : list check) (b : row) : list json :=
  error_of b <$> List.filter (fun c => negb (test c (to_text (b !! field c)))) checks.

End Validator.

(** ** The server *)

Module Server.

Import Validator.

Definition Handler : Type := Store -> Response * Store.

(** A middleware that either answers or lets the request through with a
    value. *)
Definition gate {A : Type} (m : Response + A) (k : A -> Handler) : Handler :=
  fun db => match m with inl res => (res, db) | inr a => k a db end.

Definition unless (m : option Response) (k : Handler) : Handler :=
  fun db => match m with Some res => (res, db) | None => k db end.

(** The [catch] block of every handler. *)
Definition caught (message : string) (db : Store) : Response * Store :=
  (res_status_json 500 (error_body message), db).

Definition typeof (v : option scalar) : string :=
  match v with
  | None => "undefined"
  | Some SNull => "object"
  | Some (SBool _) => "boolean"
  | Some (SNum _) => "number"
  | Some (SStr _) => "string"
  end.

(** Message of the TypeError raised by [name.method()] on a value that is
    not a string. *)
Definition no_method (name method : string) (v : option scalar) : string :=
  match v with
  | None => "Cannot read properties of undefined (reading '" +:+ method +:+ "')"
  | Some SNull => "Cannot read properties of null (reading '" +:+ method +:+ "')"
  | Some _ => name +:+ "." +:+ method +:+ " is not a function"
  end.

Definition illegal_arguments (a b : string) : string :=
  "Illegal arguments: " +:+ a +:+ ", " +:+ b.

(** *** Middleware *)

Definition authenticateToken (env : Env) (req : Request) : Response + row :=
  let token :=
    match authorization req with
    | Some authHeader => authHeader !! 1%nat
    | None => None
    end in
  match token with
  | None => inl (res_status_json 401 (error_body "Access token required"))
  | Some token =>
      if Jwt.falsy token
      then inl (res_status_json 401 (error_body "Access token required"))
      else
        match Jwt.verify token (JWT_SECRET env) (Date_now env) with
        | None => inl (res_status_json 403 (error_body "Invalid token"))
        | Some user => inr user
        end
  end.

Definition requireAdmin (user : option row) : option Response :=
  match user with
  | Some u =>
      if truthy (u !! "is_admin") then None
      else Some (res_status_json 403 (error_body "Admin access required"))
  | None => Some (res_status_json 403 (error_body "Admin access required"))
  end.

Definition requireModerator (user : option row) : option Response :=
  match user with
  | Some u =>
      if truthy (u !! "is_admin") || truthy (u !! "is_moderator") then None
      else Some (res_status_json 403 (error_body "Moderator access required"))
  | None => Some (res_status_json 403 (error_body "Moderator access required"))
  end.

Definition handleValidationErrors (checks : list check) (req : Request)
    : option Response :=
  match validationResult checks (body req) with
  | [] => None
  | errors => Some (res_status_json 400 (jobject [("errors", JArr errors)]))
  end.

(** The claims put into a token at registration and login. *)
Definition token_for (env : Env) (user : row) : jwt :=
  Jwt.sign
    (object [("id", user !! "id"); ("username", user !! "username");
             ("is_admin", user !! "is_admin");
             ("is_moderator", user !! "is_moderator")])
    (JWT_SECRET env) (Date_now env).

(** *** POST /api/auth/register *)

Definition register_checks (env : Env) : list check :=
  [ mkCheck "displayName" (isLength 1 (Some 50%nat));
    mkCheck "username" (isLength 3 (Some 30%nat));
    mkCheck "username" matches_word;
    mkCheck "email" (isEmail env);
    mkCheck "password" (isLength 6 None) ].

Definition register (env : Env) (req : Request) : Handler :=
  unless (handleValidationErrors (register_checks env) req) (fun db =>
    let displayName := body req !! "displayName" in
    let username := body req !! "username" in
    let email := body req !! "email" in
    let password := body req !! "password" in
    (* Check if user exists *)
    let existingUser :=
      Db.columns ["id"; "username"; "email"] <$>
        List.filter
          (fun r => Db.eq_text "username" (to_text username) r
                    || Db.eq_text "email" (to_text email) r)
          (Db.from "users" db) in
    if existsb (fun u => bool_decide (u !! "username" = username)) existingUser
    then (res_status_json 400 (error_body "Username already exists"), db)
    else if existsb (fun u => bool_decide (u !! "email" = email)) existingUser
    then (res_status_json 400 (error_body "Email already exists"), db)
    else
      (* Hash password *)
      match password with
      | Some (SStr pw) =>
          let passwordHash := bcrypt_hash env pw 12 in
          (* Create user *)
          match username, email with
          | Some (SStr u), Some (SStr e) =>
              match
                Db.insert (Date_now env) "users"
                  (object
                     [("display_name", displayName);
                      ("username", Some (SStr (Js.toLowerCase u)));
                      ("email", Some (SStr (Js.toLowerCase e)));
                      ("password_hash", Some (SStr passwordHash));
                      ("is_admin", Some (SBool false));
                      ("is_moderator", Some (SBool false));
                      ("is_verified", Some (SBool false));
                      ("is_premium", Some (SBool false))])
                  db
              with
              | (inl message, db') => caught message db'
              | (inr user, db') =>
                  (* Remove password from response *)
                  let userWithoutPassword := delete "password_hash" user in
                  (res_json
                     (jobject
                        [("user", of_row userWithoutPassword);
                         ("token", JTok (token_for env user));
                         ("message", JVal (SStr "User created successfully"))]),
                   db')
              end
          | Some (SStr _), _ => caught (no_method "email" "toLowerCase" email) db
          | _, _ => caught (no_method "username" "toLowerCase" username) db
          end
      | _ => caught (illegal_arguments (typeof password) "number") db
      end).

(** *** POST /api/auth/login *)

Definition login_checks : list check :=
  [ mkCheck "identifier" notEmpty; mkCheck "password" notEmpty ].

Definition login (env : Env) (req : Request) : Handler :=
  unless (handleValidationErrors login_checks req) (fun db =>
    let identifier := body req !! "identifier" in
    let password := body req !! "password" in
    (* Find user by username or email; [.single()] fails unless exactly
       one row matches *)
    match
      List.filter
        (fun r => Db.eq_text "username" (to_text identifier) r
                  || Db.eq_text "email" (to_text identifier) r)
        (Db.from "users" db)
    with
    | [user] =>
        (* Check password *)
        match password, user !! "password_hash" with
        | Some (SStr pw), Some (SStr h) =>
            if bcrypt_compare env pw h then
              let userWithoutPassword := delete "password_hash" user in
              (res_json
                 (jobject
                    [("user", of_row userWithoutPassword);
                     ("token", JTok (token_for env user));
                     ("message", JVal (SStr "Login successful"))]),
               db)
            else (res_status_json 401 (error_body "Invalid credentials"), db)
        | _, _ =>
            caught (illegal_arguments (typeof password)
                      (typeof (user !! "password_hash"))) db
        end
    | _ => (res_status_json 401 (error_body "Invalid credentials"), db)
    end).

(** *** GET /api/posts *)

(** A to-one embedded resource [name:table(cols)]: the referenced row, or
    [null] when there is none. *)
Definition embed (db : Store) (t : string) (cols : list string)
    (key : option scalar) : json :=
  match List.find (Db.eq "id" key) (Db.from t db) with
  | Some r => of_row (Db.columns cols r)
  | None => JVal SNull
  end.

Definition author_columns : list string :=
  ["display_name"; "username"; "avatar_url"; "is_verified"; "is_premium"].

Definition with_author (db : Store) (post : row) : gmap string json :=
  <["user" := embed db "users" author_columns (post !! "user_id")]> (JVal <$> post).

Definition get_posts (env : Env) (req : Request) : Handler := fun db =>
  let posts := reverse (Db.from "posts" db) in   (* created_at, newest first *)
  let formattedPosts :=
    (fun post =>
       let count :=
         Z.of_nat (length (List.filter (Db.eq "post_id" (post !! "id"))
                             (Db.from "likes" db))) in
       JObj (<["likes_count" := JVal (SNum count)]>
               (<["likes" := JArr [jobject [("count", JVal (SNum count))]]]>
                  (with_author db post)))) <$> posts in
  (res_json (JArr formattedPosts), db).

(** *** POST /api/posts *)

Definition create_post_checks : list check :=
  [ mkCheck "content" (isLength 1 (Some 280%nat)) ].

Definition create_post (env : Env) (req : Request) : Handler :=
  gate (authenticateToken env req) (fun user =>
  unless (handleValidationErrors create_post_checks req) (fun db =>
    let content := body req !! "content" in
    let userId := user !! "id" in
    match content with
    | Some (SStr text) =>
        match
          Db.insert (Date_now env) "posts"
            (object [("user_id", userId);
                     ("content", Some (SStr (Js.trim text)))])
            db
        with
        | (inl message, db') => caught message db'
        | (inr post, db') => (res_json (JObj (with_author db' post)), db')
        end
    | _ => caught (no_method "content" "trim" content) db
    end)).

(** *** POST and DELETE /api/posts/:id/like *)

Definition like_post (env : Env) (req : Request) : Handler :=
  gate (authenticateToken env req) (fun user db =>
    let postId := params req !! "id" in
    let userId := user !! "id" in
    match
      Db.insert (Date_now env) "likes"
        (object [("user_id", userId); ("post_id", postId)]) db
    with
    | (inl message, db') => caught message db'
    | (inr like, db') =>
        (res_json (jobject [("liked", JVal (SBool true)); ("like", of_row like)]),
         db')
    end).

Definition unlike_post (env : Env) (req : Request) : Handler :=
  gate (authenticateToken env req) (fun user db =>
    let postId := params req !! "id" in
    let userId := user !! "id" in
    (res_json (jobject [("liked", JVal (SBool false))]),
     Db.delete "likes"
       (fun r => Db.eq "user_id" userId r && Db.eq "post_id" postId r) db)).

(** *** GET /api/users/:username *)

Definition profile_columns : list string :=
  ["id"; "display_name"; "username"; "avatar_url"; "banner_url"; "bio";
   "website"; "location"; "is_verified"; "is_premium"; "created_at"].

Definition count_where (t : string) (col : string) (v : option scalar)
    (db : Store) : scalar :=
  SNum (Z.of_nat (length (List.filter (Db.eq col v) (Db.from t db)))).

Definition get_user (env : Env) (req : Request) : Handler := fun db =>
  let username := params req !! "username" in
  match List.filter (Db.eq "username" username) (Db.from "users" db) with
  | [found] =>
      let user := Db.columns profile_columns found in
      (res_json
         (of_row
            (<["posts_count" := count_where "posts" "user_id" (user !! "id") db]>
               (<["followers_count" :=
                    count_where "follows" "following_id" (user !! "id") db]>
                  (<["following_count" :=
                       count_where "follows" "follower_id" (user !! "id") db]>
                     user)))),
       db)
  | _ => (res_status_json 404 (error_body "User not found"), db)
  end.

(** *** POST and DELETE /api/users/:username/follow *)

Definition follow_user (env : Env) (req : Request) : Handler :=
  gate (authenticateToken env req) (fun user db =>
    let targetUsername := params req !! "username" in
    let followerId := user !! "id" in
    match List.filter (Db.eq "username" targetUsername) (Db.from "users" db) with
    | [targetUser] =>
        match
          Db.insert (Date_now env) "follows"
            (object [("follower_id", followerId);
                     ("following_id", targetUser !! "id")]) db
        with
        | (inl message, db') => caught message db'
        | (inr follow, db') =>
            (res_json (jobject [("following", JVal (SBool true));
                                ("follow", of_row follow)]),
             db')
        end
    | _ => (res_status_json 404 (error_body "User not found"), db)
    end).

Definition unfollow_user (env : Env) (req : Request) : Handler :=
  gate (authenticateToken env req) (fun user db =>
    let targetUsername := params req !! "username" in
    let followerId := user !! "id" in
    match List.filter (Db.eq "username" targetUsername) (Db.from "users" db) with
    | [targetUser] =>
        (res_json (jobject [("following", JVal (SBool false))]),
         Db.delete "follows"
           (fun r => Db.eq "follower_id" followerId r
                     && Db.eq "following_id" (targetUser !! "id") r) db)
    | _ => (res_status_json 404 (error_body "User not found"), db)
    end).

(** *** GET /api/admin/users *)

(** ToNumber on the integer texts pagination is meant for: an optional
    sign and decimal digits, and the empty text, which is zero.  Any other
    text is read as NaN ([None]); fractional, exponent and radix literals
    are not covered. *)
Definition to_number (v : scalar) : option Z :=
  match v with
  | SNull => Some 0
  | SBool b => Some (if b then 1 else 0)
  | SNum n => Some n
  | SStr s => if bool_decide (s = "") then Some 0 else Js.parse_int s
  end.

(** [parseInt(v)] on the same texts; the empty text gives NaN. *)
Definition parseInt (v : scalar) : option Z := Js.parse_int (to_text (Some v)).

(** [a + b], [a - b] and [a * b] on numbers *)
Definition js_add (a b : option Z) : option Z :=
  x ← a; y ← b; Some (x + y).
Definition js_sub (a b : option Z) : option Z :=
  x ← a; y ← b; Some (x - y).
Definition js_mul (a b : option Z) : option Z :=
  x ← a; y ← b; Some (x * y).

(** [n + v] for a number [n]: addition when [v] is a number, and
    concatenation of the two texts, read back as a number by the
    subtraction that follows, when [v] is a string. *)
Definition js_add_then_number (n : option Z) (v : scalar) : option Z :=
  match v with
  | SStr s =>
      match n with
      | Some x => to_number (SStr (pretty x +:+ s))
      | None => None
      end
  | _ => x ← n; y ← to_number v; Some (x + y)
  end.

(** A number as a JSON value: NaN and the infinities are written [null]. *)
Definition number_json (n : option Z) : json :=
  match n with Some x => JVal (SNum x) | None => JVal SNull end.

(** [Math.ceil(count / limit)] *)
Definition ceil_div (count : Z) (limit : option Z) : option Z :=
  match limit with
  | Some l => if l =? 0 then None else Some (- ((- count) / l))
  | None => None
  end.

Definition bad_range : string := "Requested range not satisfiable".

Definition admin_users (env : Env) (req : Request) : Handler :=
  gate (authenticateToken env req) (fun user =>
  unless (requireAdmin (Some user)) (fun db =>
    let page := default (SNum 1) (SStr <$> query req !! "page") in
    let limit := default (SNum 50) (SStr <$> query req !! "limit") in
    let search := default "" (query req !! "search") in
    let offset := js_mul (js_sub (to_number page) (Some 1)) (to_number limit) in
    let last := js_sub (js_add_then_number offset limit) (Some 1) in
    let matching :=
      if truthy (Some (SStr search)) then
        let pattern := "%" +:+ search +:+ "%" in
        List.filter
          (fun r => Db.ilike_text env "username" pattern r
                    || Db.ilike_text env "display_name" pattern r
                    || Db.ilike_text env "email" pattern r)
          (Db.from "users" db)
      else Db.from "users" db in
    match offset, last with
    | Some lo, Some hi =>
        if (lo <? 0) || (hi - lo + 1 <? 0) then caught bad_range db
        else
          let users := Db.range lo hi (reverse matching) in
          let count := Z.of_nat (length matching) in
          (res_json
             (jobject
                [("users", JArr (of_row <$> users));
                 ("pagination",
                  jobject
                    [("page", number_json (parseInt page));
                     ("limit", number_json (parseInt limit));
                     ("total", JVal (SNum count));
                     ("pages", number_json (ceil_div count (to_number limit)))])]),
           db)
    | _, _ => caught bad_range db
    end)).

(** *** POST /api/admin/users/:id/ban *)

Definition ban_checks : list check :=
  [ mkCheck "reason" notEmpty; mkCheck "duration_hours" (isInt 1) ].

Definition invalid_time : string := "Invalid time value".

Definition ban_user (env : Env) (req : Request) : Handler :=
  gate (authenticateToken env req) (fun user =>
  unless (requireAdmin (Some user)) (
  unless (handleValidationErrors ban_checks req) (fun db =>
    let userId := params req !! "id" in
    let reason := body req !! "reason" in
    let duration_hours := body req !! "duration_hours" in
    let adminId := user !! "id" in
    match
      until ← js_add (Some (Date_now env))
                (js_mul (duration_hours ≫= to_number) (Some 3600000));
      Date.toISOString until
    with
    | Some banned_until =>
        (* Update user *)
        let db1 :=
          Db.update "users"
            (object [("is_banned", Some (SBool true));
                     ("banned_until", Some (SStr banned_until))])
            (Db.eq "id" userId) db in
        (* Log admin action *)
        let db2 :=
          snd (Db.insert (Date_now env) "admin_actions"
                 (object [("admin_id", adminId);
                          ("target_user_id", userId);
                          ("action_type", Some (SStr "ban"));
                          ("reason", reason);
                          ("duration_hours", duration_hours)])
                 db1) in
        (res_json (message_body "User banned successfully"), db2)
    | None => caught invalid_time db
    end))).

(** *** POST /api/admin/users/:id/unban *)

Definition unban_user (env : Env) (req : Request) : Handler :=
  gate (authenticateToken env req) (fun user =>
  unless (requireAdmin (Some user)) (fun db =>
    let userId := params req !! "id" in
    let adminId := user !! "id" in
    let db1 :=
      Db.update "users"
        (object [("is_banned", Some (SBool false)); ("banned_until", Some SNull)])
        (Db.eq "id" userId) db in
    (* Log admin action *)
    let db2 :=
      snd (Db.insert (Date_now env) "admin_actions"
             (object [("admin_id", adminId);
                      ("target_user_id", userId);
                      ("action_type", Some (SStr "unban"));
                      ("reason", Some (SStr "Manual unban by admin"))])
             db1) in
    (res_json (message_body "User unbanned successfully"), db2))).

(** *** DELETE /api/admin/posts/:id *)

Definition delete_post (env : Env) (req : Request) : Handler :=
  gate (authenticateToken env req) (fun user =>
  unless (requireModerator (Some user)) (fun db =>
    let postId := params req !! "id" in
    let moderatorId := user !! "id" in
    let db1 := Db.delete "posts" (Db.eq "id" postId) db in
    (* Log moderation action *)
    let reason :=
      if truthy (body req !! "reason") then body req !! "reason"
      else Some (SStr "Violation of community guidelines") in
    let db2 :=
      snd (Db.insert (Date_now env) "moderation_actions"
             (object [("moderator_id", moderatorId);
                      ("target_post_id", postId);
                      ("action_type", Some (SStr "delete_post"));
                      ("reason", reason)])
             db1) in
    (res_json (message_body "Post deleted successfully"), db2))).

(** *** GET /api/admin/analytics *)

Definition analytics (env : Env) (req : Request) : Handler :=
  gate (authenticateToken env req) (fun user =>
  unless (requireAdmin (Some user)) (fun db =>
    let period := default "7d" (query req !! "period") in
    (* User growth *)
    let userStats := Db.columns ["created_at"] <$> Db.from "users" db in
    (* Post statistics *)
    let postStats := Db.columns ["created_at"] <$> Db.from "posts" db in
    (* Revenue (placeholder) *)
    let revenueStats :=
      jobject [("total_revenue", JVal (SNum 0));
               ("premium_users", JVal (SNum 0));
               ("conversion_rate", JVal (SNum 0))] in
    (res_json
       (jobject
          [("user_growth", JVal (SNum (Z.of_nat (length userStats))));
           ("total_posts", JVal (SNum (Z.of_nat (length postStats))));
           ("active_today", JVal (SNum (Math_random_100 env + 50)));
           ("revenue", revenueStats)]),
     db))).

(** *** GET /api/moderation/reports *)

Definition get_reports (env : Env) (req : Request) : Handler :=
  gate (authenticateToken env req) (fun user =>
  unless (requireModerator (Some user)) (fun db =>
    let status := default "pending" (query req !! "status") in
    let reports :=
      (fun r =>
         JObj (<["reporter" :=
                   embed db "users" ["display_name"; "username"] (r !! "reporter_id")]>
                 (<["reported_user" :=
                      embed db "users" ["display_name"; "username"]
                        (r !! "reported_user_id")]>
                    (<["reported_post" :=
                         embed db "posts" ["content"; "user_id"]
                           (r !! "reported_post_id")]>
                       (JVal <$> r))))) <$>
        reverse (List.filter (Db.eq_text "status" status) (Db.from "reports" db)) in
    (res_json (JArr reports), db))).

(** *** POST /api/moderation/reports/:id/resolve *)

Definition resolve_checks : list check :=
  [ mkCheck "action" (isIn ["dismiss"; "warn"; "ban"; "delete"]) ].

Definition resolve_report (env : Env) (req : Request) : Handler :=
  gate (authenticateToken env req) (fun user =>
  unless (requireModerator (Some user)) (
  unless (handleValidationErrors resolve_checks req) (fun db =>
    let reportId := params req !! "id" in
    let action := body req !! "action" in
    let notes := body req !! "notes" in
    let moderatorId := user !! "id" in
    match Date.toISOString (Date_now env) with
    | Some resolved_at =>
        (* Update report status *)
        let db1 :=
          Db.update "reports"
            (object [("status", Some (SStr "resolved"));
                     ("resolved_by", moderatorId);
                     ("resolved_at", Some (SStr resolved_at));
                     ("resolution_notes", notes)])
            (Db.eq "id" reportId) db in
        (* Take action based on resolution *)
        let db2 :=
          if bool_decide (action = Some (SStr "ban")) then db1      (* nothing *)
          else if bool_decide (action = Some (SStr "delete")) then db1 (* nothing *)
          else db1 in
        (res_json (message_body "Report resolved successfully"), db2)
    | None => caught invalid_time db
    end))).

(** *** GET /api/health *)

Definition health (env : Env) (req : Request) : Handler := fun db =>
  match Date.toISOString (Date_now env) with
  | Some timestamp =>
      (res_json
         (jobject [("status", JVal (SStr "OK"));
                   ("database", JVal (SStr "Connected"));
                   ("timestamp", JVal (SStr timestamp))]),
       db)
  | None =>
      (res_status_json 500
         (jobject [("status", JVal (SStr "Error"));
                   ("error", JVal (SStr invalid_time))]),
       db)
  end.

(** *** Routing *)

Inductive Route : Type :=
  | POST_auth_register
  | POST_auth_login
  | GET_posts
  | POST_posts
  | POST_posts_like
  | DELETE_posts_like
  | GET_users
  | POST_users_follow
  | DELETE_users_follow
  | GET_admin_users
  | POST_admin_users_ban
  | POST_admin_users_unban
  | DELETE_admin_posts
  | GET_admin_analytics
  | GET_moderation_reports
  | POST_moderation_reports_resolve
  | GET_health.

Definition app (route : Route) : Env -> Request -> Handler :=
  match route with
  | POST_auth_register => register
  | POST_auth_login => login
  | GET_posts => get_posts
  | POST_posts => create_post
  | POST_posts_like => like_post
  | DELETE_posts_like => unlike_post
  | GET_users => get_user
  | POST_users_follow => follow_user
  | DELETE_users_follow => unfollow_user
  | GET_admin_users => admin_users
  | POST_admin_users_ban => ban_user
  | POST_admin_users_unban => unban_user
  | DELETE_admin_posts => delete_post
  | GET_admin_analytics => analytics
  | GET_moderation_reports => get_reports
  | POST_moderation_reports_resolve => resolve_report
  | GET_health => health
  end.

End Server.

(** ** Browser client: session handling and sign-up (js/auth.js) *)

(** A member of a JSON object that is a scalar; the user objects and the
    error bodies the server sends have only such members. *)
Definition scalar_member (k : string) (j : json) : option scalar :=
  match property k j with
  | Some (JVal v) => Some v
  | _ => None
  end.

(** [response.ok] *)
Definition response_ok (res : Response) : bool :=
  (200 <=? status res) && (status res <=? 299).

(** The message of [new Error(data.error || fallback)], for an [error]
    member that is absent or a scalar. *)
Definition error_or (fallback : string) (data : json) : string :=
  if truthy (scalar_member "error" data)
  then to_text (scalar_member "error" data)
  else fallback.

Module AuthSystem.

(** [localStorage] under the two keys of the application.  The user item is
    the JSON text of a user object, or the text [undefined] that
    [JSON.stringify(undefined)] leaves there ([Some None]). *)
Record storage : Type := mkStorage {
  social_currentUser : option (option json);
  social_token : option jwt
}.

(** The value of [this.currentUser]. *)
Inductive slot : Type :=
  | Null
  | Undefined
  | User (user : json).

Record state : Type := mkState {
  currentUser : slot;
  token : option jwt;
  localStorage : storage
}.

(** [getCurrentUser()]: parsing the text [undefined] throws, and the method
    answers [null]. *)
Definition getCurrentUser (stored : storage) : option json :=
  match social_currentUser stored with
  | Some (Some user) => Some user
  | _ => None
  end.

Definition getToken (stored : storage) : option jwt := social_token stored.

(** [new AuthSystem()] *)
Definition constructor (stored : storage) : state :=
  mkState (match getCurrentUser stored with Some user => User user | None => Null end)
    (getToken stored) stored.

Definition token_truthy (token : option jwt) : bool :=
  match token with
  | Some t => negb (Jwt.falsy t)
  | None => false
  end.

(** [setCurrentUser(user, token)]; the log line that reads [user.username]
    comes last, so a missing [user] fails only after everything was set. *)
Definition setCurrentUser (user : option json) (token : option jwt) (st : state)
    : state :=
  mkState (match user with Some u => User u | None => Undefined end)
    token
    (mkStorage (Some user)
       (if token_truthy token then token else social_token (localStorage st))).




(** [/^[^\s@]+@[^\s@]+\.[^\s@]+$/]: no white space, exactly one [@] that is
    not the first character, and after it a dot that is neither the first
    nor the last character of what follows. *)
Definition plain (c : ascii) : bool :=
  negb (Js.is_space c) && negb (bool_decide (c = "@"%char)).

Fixpoint inner_dot (s : string) : bool :=
  match s with
  | String _ (String "." (String _ _)) => true
  | String _ rest => inner_dot rest
  | EmptyString => false
  end.

Fixpoint after_at (s : string) : option string :=
  match s with
  | EmptyString => None
  | String c rest => if bool_decide (c = "@"%char) then Some rest else after_at rest
  end.

Fixpoint before_at (s : string) : string :=
  match s with
  | EmptyString => EmptyString
  | String c rest =>
      if bool_decide (c = "@"%char) then EmptyString else String c (before_at rest)
  end.

Definition isValidEmail (email : string) : bool :=
  match after_at email with
  | Some domain =>
      negb (bool_decide (before_at email = ""))
      && Js.all_chars plain (before_at email)
      && Js.all_chars plain domain
      && inner_dot domain
  | None => false
  end.

(** The object [handleSignup] builds from the form; [None] is [undefined]
    for the three trimmed fields and [null] for the two passwords. *)
Record userData : Type := mkUserData {
  displayName : option string;
  username : option string;
  email : option string;
  password : option string;
  confirmPassword : option string;
  privacyPolicy : bool
}.

(** [!value?.trim()] *)
Definition blank (value : option string) : bool :=
  match value with
  | Some text => bool_decide (Js.trim text = "")
  | None => true
  end.

Definition text_of (value : option string) : string := default "" value.

Definition validateRegistration (data : userData) : list string :=
  (if blank (displayName data) then ["Display name is required"] else [])
  ++ (if blank (username data) then ["Username is required"]
      else if (String.length (text_of (username data)) <? 3)%nat
      then ["Username must be at least 3 characters"]
      else if negb (Validator.matches_word (text_of (username data)))
      then ["Username can only contain letters, numbers, and underscores"]
      else [])
  ++ (if blank (email data) then ["Email is required"]
      else if negb (isValidEmail (text_of (email data)))
      then ["Please enter a valid email address"]
      else [])
  ++ (if bool_decide (text_of (password data) = "") then ["Password is required"]
      else if (String.length (text_of (password data)) <? 6)%nat
      then ["Password must be at least 6 characters"]
      else [])
  ++ (if bool_decide (password data = confirmPassword data) then []
      else ["Passwords do not match"])
  ++ (if privacyPolicy data then []
      else ["You must agree to the Privacy Policy and Terms of Service"]).

Definition validateLogin (identifier password : option string) : list string :=
  (if blank identifier then ["Username or email is required"] else [])
  ++ (if bool_decide (text_of password = "") then ["Password is required"] else []).

(** A form password in a JSON body: a missing one is sent as [null]. *)
Definition password_json (password : option string) : option scalar :=
  Some (from_option SStr SNull password).

(** The request [register(userData)] sends. *)
Definition register_request (data : userData) : Request :=
  {| authorization := None;
     params := ∅;
     query := ∅;
     body := object [("displayName", SStr <$> displayName data);
                     ("username", SStr <$> username data);
                     ("email", SStr <$> email data);
                     ("password", password_json (password data))] |}.

(** The request [login(identifier, password)] sends. *)
Definition login_request (identifier password : option string) : Request :=
  {| authorization := None;
     params := ∅;
     query := ∅;
     body := object [("identifier", SStr <$> identifier);
                     ("password", password_json password)] |}.

(** What the page does once a form was handled. *)
Inductive shown : Type :=
  | ShowError (message : string)
  | Redirect.

(** [result.token] *)
Definition token_member (data : json) : option jwt :=
  match property "token" data with
  | Some (JTok t) => Some t
  | _ => None
  end.

(** [auth.setCurrentUser(result.user, result.token)] *)
Definition store_session (data : json) (st : state) : state :=
  setCurrentUser (property "user" data) (token_member data) st.

(** The fields of the sign-up form, as [handleSignup] reads them. *)
Definition form_data (display user mail : option string)
    (pass confirm : option string) (agreed : bool) : userData :=
  mkUserData (Js.trim <$> display) (Js.trim <$> user) (Js.trim <$> mail)
    pass confirm agreed.


Definition handleLogin (env : Env) (identifier password : option string)
    (st : state) (db : Store) : shown * state * Store :=
  match validateLogin (Js.trim <$> identifier) password with
  | message :: _ => (ShowError message, st, db)
  | [] =>
      let '(response, db') :=
        Server.login env (login_request (Js.trim <$> identifier) password) db in
      if response_ok response
      then (Redirect, store_session (sent response) st, db')
      else (ShowError (error_or "Login failed" (sent response)), st, db')
  end.

End AuthSystem.

(** ** Browser client: the feed page beyond the formatters (js/feed.js) *)

Module Feed.

(** A [created_at] value as [formatTimestamp] receives it. *)
Inductive stamp : Type :=
  | Missing                 (* null, undefined or the empty text *)
  | Unparsable              (* a text [new Date] cannot read *)
  | At (ms : Z).

Inductive label : Type :=
  | JustNow                 (* 'just now' *)
  | Minutes (n : Z)         (* `${n}m` *)
  | Hours (n : Z)           (* `${n}h` *)
  | Days (n : Z)            (* `${n}d` *)
  | LocaleDate (posted : option Z).  (* postDate.toLocaleDateString() *)

(** [formatTimestamp], the same text in [FeedManager] and [ProfileManager];
    every comparison with NaN is false. *)
Definition formatTimestamp (timestamp : stamp) (now : Z) : label :=
  match timestamp with
  | Missing => JustNow
  | Unparsable => LocaleDate None
  | At posted =>
      let diffMs := now - posted in
      let diffMins := diffMs / 60000 in
      let diffHours := diffMs / 3600000 in
      let diffDays := diffMs / 86400000 in
      if diffMins <? 1 then JustNow
      else if diffMins <? 60 then Minutes diffMins
      else if diffHours <? 24 then Hours diffHours
      else if diffDays <? 7 then Days diffDays
      else LocaleDate (Some posted)
  end.

(** The character counter element. *)
Record counter : Type := mkCounter {
  textContent : string;
  classList : gset string
}.

(** The common body of [updateCharCounter] (limit 280, warning above 250)
    and [updateBioCharCounter] (limit 160, warning above 140). *)
Definition update_counter (limit warn : nat) (value : string) (c : counter) : counter :=
  let length := String.length value in
  mkCounter (pretty length +:+ "/" +:+ pretty limit)
    (if (limit <? length)%nat then classList c ∪ {["error"]}
     else if (warn <? length)%nat then classList c ∪ {["warning"]}
     else classList c ∖ ({["error"]} ∪ {["warning"]})).

Definition updateCharCounter : string -> counter -> counter :=
  update_counter 280 250.



(** The outcome of [createPost]: the value returned, the message shown and
    the [posts] array afterwards. *)
Record created : Type := mkCreated {
  returned : option json;
  message : string;
  posts : list json
}.



End Feed.

(** ** Browser client: the profile page beyond the formatter *)

Module Profile.

Record profile : Type := mkProfile {
  display_name : string;
  username : string;
  avatar_url : string;
  posts_count : Z;
  followers_count : Z;
  is_following : bool
}.

(** [toggleFollow]: the profile afterwards and the message shown. *)
Definition toggleFollow (p : profile) : profile * string :=
  let isCurrentlyFollowing := is_following p in
  (mkProfile (display_name p) (username p) (avatar_url p) (posts_count p)
     (followers_count p + (if isCurrentlyFollowing then -1 else 1))
     (negb isCurrentlyFollowing),
   if isCurrentlyFollowing then "Unfollowed" else "Followed!").

Record mock_post : Type := mkMock {
  id : string;
  content : string;
  created_at : Z;
  likes_count : Z;
  comments_count : Z;
  user : string * string * string
}.

(** The loop of [generateMockPosts] from index [i], with [n] posts to go;
    [random i] gives the two draws of the [i]-th post. *)
Fixpoint mock_posts (now : Z) (random : nat -> Z * Z) (p : profile)
    (i : nat) (n : nat) : list mock_post :=
  match n with
  | O => []
  | S n' =>
      mkMock ("post-" +:+ pretty i)
        ("This is post " +:+ pretty (S i) +:+ " from " +:+ display_name p
         +:+ ". Lorem ipsum dolor sit amet, consectetur adipiscing elit. #demo #post")
        (now - Z.of_nat i * 3600000)
        (fst (random i)) (snd (random i))
        (display_name p, username p, avatar_url p)
      :: mock_posts now random p (S i) n'
  end.

Definition generateMockPosts (now : Z) (random : nat -> Z * Z) (p : profile)
    : list mock_post :=
  let postCount := if posts_count p =? 0 then 5 else posts_count p in
  mock_posts now random p 0 (Z.to_nat postCount).

Record rendered : Type := mkRendered {
  post_id : string;
  html : string;
  likes : Z;
  comments : Z;
  time : Feed.label
}.

(** [renderProfilePosts]: [None] is the empty state. *)
Definition renderProfilePosts (now : Z) (posts : list mock_post)
    : option (list rendered) :=
  match posts with
  | [] => None
  | _ =>
      Some ((fun post =>
               mkRendered (id post) (ProfileManager.formatPostContent (content post))
                 (likes_count post) (comments_count post)
                 (Feed.formatTimestamp (Feed.At (created_at post)) now)) <$> posts)
  end.

(** [loadProfilePosts]; the clock is read when the posts are made up and
    again when they are rendered. *)
Definition loadProfilePosts (generated_at rendered_at : Z) (random : nat -> Z * Z)
    (p : profile) : option (list rendered) :=
  renderProfilePosts rendered_at (generateMockPosts generated_at random p).

Definition updateBioCharCounter : string -> Feed.counter -> Feed.counter :=
  Feed.update_counter 160 140.

End Profile.

(** ** Notions used by the statements *)

(** The word of the Authorization header that the gate reads as the token. *)
Definition bearer (req : Request) : option jwt :=
  authorization req ≫= fun words => words !! 1%nat.

(** A claim carried by a token, whether or not the token verifies. *)
Definition claim (k : string) (token : jwt) : option scalar :=
  match token with
  | Signed _ payload _ _ => payload !! k
  | Opaque _ => None
  end.

(** The ways a presented token fails verification. *)
Inductive invalid_token (env : Env) : jwt -> Prop :=
  | token_malformed text :
      invalid_token env (Opaque text)
  | token_wrongly_signed key payload iat exp :
      key ≠ JWT_SECRET env ->
      invalid_token env (Signed key payload iat exp)
  | token_expired key payload iat exp :
      exp <= Date_now env / 1000 ->
      invalid_token env (Signed key payload iat exp).

Definition unprivileged (user : row) : Prop :=
  user !! "is_admin" = Some (SBool false)
  ∧ user !! "is_moderator" = Some (SBool false)
  ∧ user !! "is_verified" = Some (SBool false)
  ∧ user !! "is_premium" = Some (SBool false).

(** No usable token in the Authorization header. *)
Definition token_missing (req : Request) : Prop :=
  match bearer req with
  | None => True
  | Some token => Jwt.falsy token = true
  end.

(** The change a ban or an unban makes to the rows of the target user. *)
Definition set_ban (target : scalar) (flag until : scalar) (u : row) : row :=
  if bool_decide (u !! "id" = Some target)
  then <["is_banned" := flag]> (<["banned_until" := until]> u)
  else u.

(** The routes that go through [authenticateToken]. *)
Definition protected (route : Server.Route) : bool :=
  match route with
  | Server.POST_auth_register | Server.POST_auth_login | Server.GET_posts
  | Server.GET_users | Server.GET_health => false
  | _ => true
  end.

(** The routes behind [requireAdmin] and behind [requireModerator]. *)
Definition admin_only (route : Server.Route) : bool :=
  match route with
  | Server.GET_admin_users | Server.POST_admin_users_ban
  | Server.POST_admin_users_unban | Server.GET_admin_analytics => true
  | _ => false
  end.

Definition moderator_only (route : Server.Route) : bool :=
  match route with
  | Server.DELETE_admin_posts | Server.GET_moderation_reports
  | Server.POST_moderation_reports_resolve => true
  | _ => false
  end.

(** The routes that only read. *)
Definition read_only (route : Server.Route) : bool :=
  match route with
  | Server.POST_auth_login | Server.GET_posts | Server.GET_users
  | Server.GET_admin_users | Server.GET_admin_analytics
  | Server.GET_moderation_reports | Server.GET_health => true
  | _ => false
  end.

(** Every stored username and e-mail address is in lower case. *)
Definition lowercase_users (db : Store) : Prop :=
  ∀ u col text,
    u ∈ Db.from "users" db ->
    col = "username" ∨ col = "email" ->
    u !! col = Some (SStr text) ->
    Js.toLowerCase text = text.

(** The same request under another Authorization header. *)
Definition with_authorization (header : option (list jwt)) (req : Request) : Request :=
  mkRequest header (params req) (query req) (body req).

(** Is the row the like of a post by a user, or the follow of one user by
    another. *)
Definition like_of (user_id post_id : scalar) (r : row) : bool :=
  bool_decide (r !! "user_id" = Some user_id) && bool_decide (r !! "post_id" = Some post_id).

Definition follow_of (follower_id following_id : scalar) (r : row) : bool :=
  bool_decide (r !! "follower_id" = Some follower_id)
  && bool_decide (r !! "following_id" = Some following_id).

(** The [likes_count] members of the posts in a feed response, and the
    number of like rows that name a post. *)
Definition shown_likes (res : Response) : list (option json) :=
  match sent res with
  | JArr posts => property "likes_count" <$> posts
  | _ => []
  end.

Definition likes_of (db : Store) (post : row) : Z :=
  Z.of_nat (length (List.filter (λ like, bool_decide (like !! "post_id" = post !! "id"))
                      (Db.from "likes" db))).

(** The text that replaces one character when a post is escaped, and a text
    rewritten character by character. *)
Definition escaped (c : ascii) : string :=
  if bool_decide (c = "&"%char) then "&amp;"
  else if bool_decide (c = "<"%char) then "&lt;"
  else if bool_decide (c = ">"%char) then "&gt;"
  else if bool_decide (c = "034"%char) then "&quot;"
  else if bool_decide (c = "039"%char) then "&#039;"
  else String c "".

Fixpoint flat_map_string (f : ascii -> string) (s : string) : string :=
  match s with
  | EmptyString => EmptyString
  | String c s' => f c +:+ flat_map_string f s'
  end.

(** A text that begins with a decimal digit. *)
Definition starts_with_digit (s : string) : Prop :=
  match s with
  | String c _ => Js.is_digit c = true
  | EmptyString => False
  end.

(** ** Sample data for the concrete runs *)

Module Sample.

Definition env : Env :=
  {| JWT_SECRET := "test-secret";
     Date_now := 1700000000000;
     Math_random_100 := 42;
     bcrypt_hash := fun password _ => "$2a$12$" +:+ password;
     bcrypt_compare := fun password h => bool_decide (h = "$2a$12$" +:+ password);
     isEmail := fun s => Js.has_char "@" s && Js.has_char "." s;
     ilike := fun _ _ => true |}.

Definition later (ms : Z) : Env :=
  {| JWT_SECRET := JWT_SECRET env;
     Date_now := Date_now env + ms;
     Math_random_100 := 7;
     bcrypt_hash := bcrypt_hash env;
     bcrypt_compare := bcrypt_compare env;
     isEmail := isEmail env;
     ilike := ilike env |}.

Definition empty (unique : bool) : Store :=
  {| tables := ∅; next_id := 1; unique_users := unique |}.

Definition root : row :=
  object [("id", Some (SNum 1)); ("username", Some (SStr "root"));
          ("email", Some (SStr "root@example.com"));
          ("display_name", Some (SStr "Root"));
          ("password_hash", Some (SStr "$2a$12$hunter22"));
          ("is_admin", Some (SBool true)); ("is_moderator", Some (SBool false))].

Definition carol : row :=
  object [("id", Some (SNum 2)); ("username", Some (SStr "carol"));
          ("email", Some (SStr "carol@example.com"));
          ("display_name", Some (SStr "Carol"));
          ("password_hash", Some (SStr "$2a$12$opensesame"));
          ("is_admin", Some (SBool false)); ("is_moderator", Some (SBool false))].

Definition post7 : row :=
  object [("id", Some (SNum 7)); ("user_id", Some (SNum 2));
          ("content", Some (SStr "hello"))].

Definition report9 : row :=
  object [("id", Some (SNum 9)); ("reporter_id", Some (SNum 1));
          ("reported_user_id", Some (SNum 2)); ("reported_post_id", Some (SNum 7));
          ("status", Some (SStr "pending"))].

(** A store with an administrator, a member, one post and one report. *)
Definition db : Store :=
  {| tables := <["users" := [root; carol]]>
                 (<["posts" := [post7]]> (<["reports" := [report9]]> ∅));
     next_id := 10;
     unique_users := true |}.

Definition json_body (fields : list (string * scalar)) : row := list_to_map fields.

Definition post_json (token : option jwt) (id : option scalar)
    (fields : list (string * scalar)) : Request :=
  {| authorization := (fun t => [Opaque "Bearer"; t]) <$> token;
     params := object [("id", id)];
     query := ∅;
     body := json_body fields |}.

Definition get (token : option jwt) (q : list (string * string)) : Request :=
  {| authorization := (fun t => [Opaque "Bearer"; t]) <$> token;
     params := ∅;
     query := list_to_map q;
     body := ∅ |}.

Definition root_token : jwt := Server.token_for env root.
Definition carol_token : jwt := Server.token_for env carol.

Definition signup (username email : string) : Request :=
  post_json None None
    [("displayName", SStr "Someone"); ("username", SStr username);
     ("email", SStr email); ("password", SStr "correct horse")].

(** Two registrations in a row on an empty store, a minute apart. *)
Definition register_twice (unique : bool) (first second : Request)
    : Response * (Response * Store) :=
  let '(res1, db1) := Server.register env first (empty unique) in
  (res1, Server.register (later 60000) second db1).

Definition usernames (db : Store) : list (option scalar) :=
  (fun u : row => u !! "username") <$> Db.from "users" db.

Definition emails (db : Store) : list (option scalar) :=
  (fun u : row => u !! "email") <$> Db.from "users" db.

Definition contents (db : Store) : list (option scalar) :=
  (fun p : row => p !! "content") <$> Db.from "posts" db.

(** The member [k] of each element of the array [res.users]. *)
Definition listed (k : string) (res : Response) : list (option json) :=
  match property "users" (sent res) with
  | Some (JArr users) => property k <$> users
  | _ => []
  end.

(** A request that names a user in its path. *)
Definition visit (token : option jwt) (username : string) : Request :=
  {| authorization := (fun t => [Opaque "Bearer"; t]) <$> token;
     params := object [("username", Some (SStr username))];
     query := ∅;
     body := ∅ |}.

(** The claims the gate reads from a token it accepts. *)
Definition claims (e : Env) (token : jwt) : row :=
  default ∅ (Jwt.verify token (JWT_SECRET e) (Date_now e)).


(** A moderator's token. *)
Definition mod_token : jwt :=
  Server.token_for env (<["is_moderator" := SBool true]> carol).

(** A text of [n] letters. *)
Fixpoint letters (n : nat) : string :=
  match n with
  | O => ""
  | S n' => String "a" (letters n')
  end.

End Sample.

(** * Properties *)

Section StoreFacts.
Implicit Types (db : Store) (t : string) (r values : row).

Lemma from_insert now t values db out db' :
  Db.insert now t values db = (out, db') ->
  match out with
  | inr r =>
      Db.from t db' = (Db.from t db ++ [r])%list
      ∧ (∀ k, k ≠ "id" -> k ≠ "created_at" -> r !! k = values !! k)
      ∧ (∀ t', t' ≠ t -> tables db' !! t' = tables db !! t')
  | inl _ => db' = db
  end.
Proof.
  unfold Db.insert. destruct (Db.violates_unique t values db).
  - intros [= <- <-]. reflexivity.
  - intros [= <- <-]. split_and!.
    + unfold Db.from at 1. simpl. by rewrite lookup_insert_eq.
    + intros k Hid Hcr. by rewrite !lookup_insert_ne.
    + intros t' Hne. simpl. by rewrite lookup_insert_ne.
Qed.

Lemma from_update t values p db :
  Db.from t (Db.update t values p db)
  = (fun r => if p r then values ∪ r else r) <$> Db.from t db.
Proof.
  unfold Db.from, Db.update. simpl. rewrite lookup_alter_eq.
  by destruct (tables db !! t).
Qed.

Lemma tables_update_other t t' values p db :
  t' ≠ t -> tables (Db.update t values p db) !! t' = tables db !! t'.
Proof. intros Hne. unfold Db.update. simpl. by rewrite lookup_alter_ne. Qed.

Lemma from_other db db' t :
  tables db' !! t = tables db !! t -> Db.from t db' = Db.from t db.
Proof. unfold Db.from. by intros ->. Qed.
End StoreFacts.

Section Gate.
Lemma authenticate_inr env req user :
  Server.authenticateToken env req = inr user ->
  ∃ token, bearer req = Some token
    ∧ Jwt.verify token (JWT_SECRET env) (Date_now env) = Some user.
Proof.
  unfold Server.authenticateToken, bearer.
  destruct (authorization req) as [words|]; simpl; [|done].
  destruct (words !! 1%nat) as [token|]; [|done].
  destruct (Jwt.falsy token); [done|].
  destruct (Jwt.verify _ _ _) eqn:Hv; [|done].
  intros [= <-]. eauto.
Qed.

Lemma verify_claim token secret now user k :
  Jwt.verify token secret now = Some user ->
  k ≠ "iat" -> k ≠ "exp" -> user !! k = claim k token.
Proof.
  destruct token as [text|key payload iat exp]; simpl; [done|].
  case_match; [|done]. intros [= <-] ? ?.
  by rewrite !lookup_insert_ne.
Qed.
End Gate.

Lemma create_post_ext env db req1 req2 :
  authorization req1 = authorization req2 ->
  body req1 !! "content" = body req2 !! "content" ->
  Server.create_post env req1 db = Server.create_post env req2 db.
Proof.
  intros Ha Hc.
  unfold Server.create_post, Server.authenticateToken, Server.handleValidationErrors,
    Validator.validationResult, Server.create_post_checks, Validator.error_of.
  simpl. rewrite Ha, Hc. destruct (negb _); simpl; rewrite ?Hc; done.
Qed.

(** C2.  A post created through POST /api/posts is owned by the [id] claim of
    the bearer token.  The handler reads nothing of the request but the
    Authorization header and the [content] member of the body: two requests
    that agree on these (whatever [userId] their bodies carry) get the same
    response and leave the same store. *)
Theorem create_post_owner_is_token_id env db req1 req2 res db' :
  authorization req1 = authorization req2 ->
  body req1 !! "content" = body req2 !! "content" ->
  Server.create_post env req1 db = (res, db') ->
  status res = 200 ->
  Server.create_post env req2 db = (res, db')
  ∧ ∃ token post,
      bearer req1 = Some token
      ∧ Db.from "posts" db' = (Db.from "posts" db ++ [post])%list
      ∧ post !! "user_id" = claim "id" token.
Proof.
  intros Ha Hc Hrun Hok. split.
  { by rewrite <- (create_post_ext env db req1 req2). }
  revert Hrun. unfold Server.create_post, Server.gate, Server.unless.
  destruct (Server.authenticateToken env req1) as [r|user] eqn:Hauth.
  { intros [= <- <-]. revert Hauth Hok. unfold Server.authenticateToken.
    repeat case_match; intros [= <-]; done. }
  destruct (authenticate_inr _ _ _ Hauth) as (token & Hb & Hv).
  destruct (Server.handleValidationErrors _ _) as [r|] eqn:Hval.
  { intros [= <- <-]. revert Hval Hok. unfold Server.handleValidationErrors.
    case_match; [done|]. by intros [= <-]. }
  destruct (body req1 !! "content") as [[| | |text]|] eqn:Hcontent;
    try (intros [= <- <-]; done).
  destruct (Db.insert _ _ _ _) as [[msg|post] db1] eqn:Hins.
  { intros [= <- <-]. done. }
  intros [= <- <-]. apply from_insert in Hins as (Hposts & Hcols & _).
  exists token, post. split_and!; [done|done|].
  rewrite Hcols by done. rewrite <- (verify_claim _ _ _ _ "id" Hv) by done.
  destruct (user !! "id"); simpl.
  - by rewrite lookup_insert_eq.
  - by rewrite lookup_insert_ne.
Qed.

Lemma validation_rejects checks req res :
  Server.handleValidationErrors checks req = Some res -> status res = 400.
Proof.
  unfold Server.handleValidationErrors. case_match; [done|]. by intros [= <-].
Qed.

(** C9.  Whatever the request body holds, a registration adds at most one
    user row, exactly one when it answers 200, and a row it adds has
    [is_admin], [is_moderator], [is_verified] and [is_premium] all false. *)
Theorem register_creates_unprivileged env req db res db' :
  Server.register env req db = (res, db') ->
  ∃ created,
    Db.from "users" db' = (Db.from "users" db ++ created)%list
    ∧ Forall unprivileged created
    ∧ (status res = 200 -> length created = 1%nat).
Proof.
  unfold Server.register, Server.unless, Server.caught.
  destruct (Server.handleValidationErrors _ _) as [r|] eqn:Hval.
  { intros [= <- <-]. apply validation_rejects in Hval.
    exists []. rewrite app_nil_r. split_and!; [done|done|]. by rewrite Hval. }
  repeat (case_match; try (intros [= <- <-]; exists []; rewrite app_nil_r;
                           split_and!; [done|done|done])).
  all: try match goal with
       | H : Db.insert _ _ _ _ = (inl _, _) |- _ =>
           apply from_insert in H as ->; intros [= <- <-]; exists [];
           rewrite app_nil_r; split_and!; done
       end.
  match goal with H : Db.insert _ _ _ _ = (inr ?u, _) |- _ =>
    apply from_insert in H as (Husers & Hcols & _); intros [= <- <-]; exists [u] end.
  split_and!; [done| |done].
  apply Forall_singleton. unfold unprivileged.
  rewrite !Hcols by done.
  destruct (body req !! "displayName"); split_and!; reflexivity.
Qed.

Lemma lookup_object_None fields k :
  (∀ v, (k, v) ∉ fields) -> object fields !! k = None.
Proof.
  induction fields as [|[k' [v|]] fields IH]; intros Hk; simpl; [done| |].
  - rewrite lookup_insert_ne.
    + apply IH. intros v' Hin. apply (Hk v'). by right.
    + intros ->. apply (Hk (Some v)). by left.
  - apply IH. intros v' Hin. apply (Hk v'). by right.
Qed.

Lemma lookup_columns cols r k :
  Db.columns cols r !! k = if decide (k ∈ cols) then r !! k else None.
Proof.
  unfold Db.columns. induction cols as [|c cols IH]; [done|].
  rewrite fmap_cons.
  assert (object ((c, r !! c) :: ((λ c0, (c0, r !! c0)) <$> cols)) !! k
          = if decide (k = c) then r !! c
            else object ((λ c0, (c0, r !! c0)) <$> cols) !! k) as ->.
  { destruct (r !! c) eqn:Hc; cbn [object].
    - rewrite lookup_insert. by destruct (decide (c = k)), (decide (k = c)).
    - destruct (decide (k = c)) as [->|]; [|done]. rewrite IH, Hc. by case_decide. }
  rewrite IH. destruct (decide (k = c)) as [->|Hk].
  - rewrite (decide_True (P := c ∈ c :: cols)) by apply list_elem_of_here.
    by case_decide.
  - destruct (decide (k ∈ cols)), (decide (k ∈ c :: cols)); try done; exfalso; set_solver.
Qed.

Lemma existsb_true {A} (p : A -> bool) (l : list A) x :
  x ∈ l -> p x = true -> existsb p l = true.
Proof.
  intros Hin Hp. apply existsb_exists. exists x. split; [|done].
  by apply list_elem_of_In.
Qed.

Lemma elem_of_filter {A} (p : A -> bool) (l : list A) x :
  x ∈ List.filter p l ↔ x ∈ l ∧ p x = true.
Proof. rewrite !list_elem_of_In. apply filter_In. Qed.

Lemma register_duplicate_username env req db u r :
  Server.handleValidationErrors (Server.register_checks env) req = None ->
  body req !! "username" = Some (SStr u) ->
  r ∈ Db.from "users" db ->
  r !! "username" = Some (SStr u) ->
  Server.register env req db
  = (res_status_json 400 (error_body "Username already exists"), db).
Proof.
  intros Hval Hu Hin Hr. unfold Server.register, Server.unless.
  rewrite Hval, Hu. simpl.
  rewrite (existsb_true _ _ (Db.columns ["id"; "username"; "email"] r)); [done| |].
  - apply list_elem_of_fmap. exists r. split; [done|].
    apply elem_of_filter. split; [done|].
    unfold Db.eq_text. rewrite Hr. by rewrite bool_decide_eq_true_2.
  - rewrite lookup_columns. rewrite decide_True by set_solver.
    by apply bool_decide_eq_true_2.
Qed.

Lemma register_duplicate_email env req db e r :
  Server.handleValidationErrors (Server.register_checks env) req = None ->
  body req !! "email" = Some (SStr e) ->
  r ∈ Db.from "users" db ->
  r !! "email" = Some (SStr e) ->
  (∀ r', r' ∈ Db.from "users" db -> r' !! "username" ≠ body req !! "username") ->
  Server.register env req db
  = (res_status_json 400 (error_body "Email already exists"), db).
Proof.
  intros Hval He Hin Hr Hfree. unfold Server.register, Server.unless.
  rewrite Hval, He. simpl.
  destruct (existsb _ _) eqn:Hname.
  { exfalso. apply existsb_exists in Hname as (c & Hc & Heq).
    apply list_elem_of_In, list_elem_of_fmap in Hc as (r' & -> & Hr').
    apply elem_of_filter in Hr' as [Hr' _].
    apply bool_decide_eq_true_1 in Heq.
    rewrite lookup_columns, decide_True in Heq by set_solver.
    by apply (Hfree r'). }
  rewrite (existsb_true _ _ (Db.columns ["id"; "username"; "email"] r)); [done| |].
  - apply list_elem_of_fmap. exists r. split; [done|].
    apply elem_of_filter. split; [done|].
    unfold Db.eq_text. rewrite Hr. rewrite (bool_decide_eq_true_2 (Some _ = Some _)) by done.
    apply orb_true_r.
  - rewrite lookup_columns. rewrite decide_True by set_solver.
    by apply bool_decide_eq_true_2.
Qed.

(** What a registration does to the store. *)
Lemma register_outcome env req db res db' :
  Server.register env req db = (res, db') ->
  (db' = db ∧ status res ≠ 200
   ∧ (Server.handleValidationErrors (Server.register_checks env) req = Some res
      ∨ ∃ message, sent res = error_body message))
  ∨ ∃ u e pw user,
      body req !! "username" = Some (SStr u)
      ∧ body req !! "email" = Some (SStr e)
      ∧ body req !! "password" = Some (SStr pw)
      ∧ status res = 200
      ∧ Db.from "users" db' = (Db.from "users" db ++ [user])%list
      ∧ (∀ t, t ≠ "users" -> tables db' !! t = tables db !! t)
      ∧ user !! "username" = Some (SStr (Js.toLowerCase u))
      ∧ user !! "email" = Some (SStr (Js.toLowerCase e))
      ∧ user !! "password_hash" = Some (SStr (bcrypt_hash env pw 12))
      ∧ unprivileged user
      ∧ sent res = jobject [("user", of_row (delete "password_hash" user));
                            ("token", JTok (Server.token_for env user));
                            ("message", JVal (SStr "User created successfully"))].
Proof.
  unfold Server.register, Server.unless, Server.caught.
  destruct (Server.handleValidationErrors _ _) as [r|] eqn:Hval.
  { intros [= <- <-]. left. split_and!; [done| |by left].
    by rewrite (validation_rejects _ _ _ Hval). }
  assert (∀ code message,
            code ≠ 200 ->
            (res_status_json code (error_body message), db) = (res, db') ->
            db' = db ∧ status res ≠ 200
            ∧ (None = Some res ∨ ∃ message, sent res = error_body message)) as Hfail.
  { intros code message Hcode [= <- <-]. split_and!; [done|done|]. right. by eexists. }
  destruct (existsb _ _); [intros Hrun; left; by apply Hfail in Hrun|].
  destruct (existsb _ _); [intros Hrun; left; by apply Hfail in Hrun|].
  destruct (body req !! "password") as [[| | |pw]|];
    try (intros Hrun; left; by apply Hfail in Hrun).
  destruct (body req !! "username") as [[| | |u]|];
    try (intros Hrun; left; by apply Hfail in Hrun).
  all: destruct (body req !! "email") as [[| | |e]|];
    try (intros Hrun; left; by apply Hfail in Hrun).
  destruct (Db.insert _ _ _ _) as [[msg|user] db1] eqn:Hins.
  { apply from_insert in Hins as ->. intros Hrun; left; by apply Hfail in Hrun. }
  apply from_insert in Hins as (Husers & Hcols & Hframe). intros [= <- <-].
  right. exists u, e, pw, user. unfold unprivileged. rewrite !Hcols by done.
  split_and!; try done; destruct (body req !! "displayName"); reflexivity.
Qed.

Lemma register_twice_same_username env1 env2 req1 req2 db res1 db1 u :
  Server.register env1 req1 db = (res1, db1) ->
  status res1 = 200 ->
  body req1 !! "username" = Some (SStr u) ->
  Js.toLowerCase u = u ->
  body req2 !! "username" = Some (SStr u) ->
  Server.handleValidationErrors (Server.register_checks env2) req2 = None ->
  Server.register env2 req2 db1
  = (res_status_json 400 (error_body "Username already exists"), db1).
Proof.
  intros Hrun Hok Hu Hlow Hu2 Hval.
  apply register_outcome in Hrun as [(_ & Hbad & _)|Hgood]; [done|].
  destruct Hgood as (u' & e & pw & user & Hu' & _ & _ & _ & Husers & _ & Hname & _).
  rewrite Hu in Hu'. injection Hu' as <-. rewrite Hlow in Hname.
  apply (register_duplicate_username env2 req2 db1 u user); try done.
  rewrite Husers. set_solver.
Qed.

Lemma verify_invalid env token :
  invalid_token env token ->
  Jwt.verify token (JWT_SECRET env) (Date_now env) = None.
Proof.
  intros [text|key payload iat exp Hkey|key payload iat exp Hexp]; simpl; [done| |].
  - by rewrite bool_decide_eq_false_2.
  - assert ((Date_now env / 1000 <? exp) = false) as -> by (apply Z.ltb_ge; lia).
    by rewrite andb_false_r.
Qed.

Lemma requireAdmin_403 user res :
  Server.requireAdmin user = Some res -> status res = 403.
Proof. destruct user as [u|]; simpl; [case_match|]; by intros [= <-]. Qed.

Lemma requireModerator_403 user res :
  Server.requireModerator user = Some res -> status res = 403.
Proof. destruct user as [u|]; simpl; [case_match|]; by intros [= <-]. Qed.

(** C5, as amended.  The authenticate gate answers 401 when the header
    carries no token and 403 when the token it carries is malformed, wrongly
    signed or expired, whatever claims that token holds; the role gates
    answer 403 as well. *)
Theorem gate_status_codes env req :
  (token_missing req ->
     Server.authenticateToken env req
     = inl (res_status_json 401 (error_body "Access token required")))
  ∧ (∀ token,
       bearer req = Some token -> Jwt.falsy token = false ->
       invalid_token env token ->
       Server.authenticateToken env req
       = inl (res_status_json 403 (error_body "Invalid token")))
  ∧ (∀ user res, Server.requireAdmin user = Some res -> status res = 403)
  ∧ (∀ user res, Server.requireModerator user = Some res -> status res = 403).
Proof.
  unfold token_missing, bearer, Server.authenticateToken. split_and!.
  - destruct (authorization req) as [words|]; simpl; [|done].
    destruct (words !! 1%nat) as [token|]; [|done]. by intros ->.
  - intros token Hb Hfalsy Hinv.
    destruct (authorization req) as [words|]; simpl in *; [|done].
    rewrite Hb, Hfalsy. by rewrite verify_invalid.
  - apply requireAdmin_403.
  - apply requireModerator_403.
Qed.

Lemma insert_plain now t values db :
  t ≠ "users" ->
  ∃ r, Db.insert now t values db
       = (inr r,
          {| tables := <[t := (Db.from t db ++ [r])%list]> (tables db);
             next_id := next_id db + 1;
             unique_users := unique_users db |})
       ∧ ∀ k, k ≠ "id" -> k ≠ "created_at" -> r !! k = values !! k.
Proof.
  intros Hne. unfold Db.insert, Db.violates_unique.
  rewrite (bool_decide_eq_false_2 (t = "users")) by done.
  rewrite andb_false_r. simpl. eexists. split; [done|].
  intros k ? ?. by rewrite !lookup_insert_ne.
Qed.

Lemma gate_passed env req (k : row -> Server.Handler) db res db' :
  Server.gate (Server.authenticateToken env req) k db = (res, db') ->
  status res = 200 ->
  ∃ user token,
    Server.authenticateToken env req = inr user
    ∧ bearer req = Some token
    ∧ Jwt.verify token (JWT_SECRET env) (Date_now env) = Some user
    ∧ k user db = (res, db').
Proof.
  unfold Server.gate.
  destruct (Server.authenticateToken env req) as [r|user] eqn:Hauth.
  - intros [= <- <-] Hok. revert Hauth Hok. unfold Server.authenticateToken.
    repeat case_match; intros [= <-]; done.
  - intros Hk _. destruct (authenticate_inr _ _ _ Hauth) as (token & ? & ?).
    by exists user, token.
Qed.

Lemma unless_passed (m : option Response) (k : Server.Handler) db res db' :
  Server.unless m k db = (res, db') ->
  (∀ r, m = Some r -> status r ≠ 200) ->
  status res = 200 ->
  m = None ∧ k db = (res, db').
Proof.
  unfold Server.unless. destruct m as [r|]; [|done].
  intros [= <- <-] Hr Hok. by destruct (Hr r).
Qed.

Lemma requireAdmin_not_ok user r :
  Server.requireAdmin user = Some r -> status r ≠ 200.
Proof. intros H. by rewrite (requireAdmin_403 _ _ H). Qed.

Lemma requireModerator_not_ok user r :
  Server.requireModerator user = Some r -> status r ≠ 200.
Proof. intros H. by rewrite (requireModerator_403 _ _ H). Qed.

Lemma validation_not_ok checks req r :
  Server.handleValidationErrors checks req = Some r -> status r ≠ 200.
Proof. intros H. by rewrite (validation_rejects _ _ _ H). Qed.

Lemma update_values_2 k1 v1 k2 v2 (r : row) :
  object [(k1, Some v1); (k2, Some v2)] ∪ r = <[k1 := v1]> (<[k2 := v2]> r).
Proof.
  cbn [object]. rewrite <- !insert_union_l. by rewrite (left_id ∅ (∪)).
Qed.

Lemma from_ban_update target flag until db :
  Db.from "users"
    (Db.update "users" (object [("is_banned", Some flag); ("banned_until", Some until)])
       (Db.eq "id" (Some target)) db)
  = set_ban target flag until <$> Db.from "users" db.
Proof.
  rewrite from_update. apply list_fmap_ext. intros _ u _.
  unfold set_ban, Db.eq. case_bool_decide; [|done]. apply update_values_2.
Qed.

(** The audit insert that follows an update: it cannot fail, appends one row
    to its table and leaves every other table as the update left it. *)
Lemma audit_insert now t values db :
  t ≠ "users" ->
  ∃ audit,
    Db.from t (Db.insert now t values db).2 = (Db.from t db ++ [audit])%list
    ∧ (∀ t', t' ≠ t -> Db.from t' (Db.insert now t values db).2 = Db.from t' db)
    ∧ (∀ k, k ≠ "id" -> k ≠ "created_at" -> audit !! k = values !! k).
Proof.
  intros Hne. destruct (insert_plain now t values db Hne) as (audit & Hins & Hcols).
  exists audit. pose proof (from_insert _ _ _ _ _ _ Hins) as (Hsame & _ & Hother).
  rewrite Hins. split_and!; [done| |done].
  intros t' Hne'. apply from_other. by apply Hother.
Qed.

Lemma ban_expiry now (hours : option Z) :
  (until ← Server.js_add (Some now) (Server.js_mul hours (Some 3600000));
   Date.toISOString until)
  = (d ← hours; Date.toISOString (now + d * 3600000)).
Proof. by destruct hours. Qed.

(** C6.  A ban answered with 200 sets [is_banned] to true and [banned_until]
    to the ISO time of the request time plus [duration_hours] hours on the
    rows of the target user, leaves the other users as they were and appends
    one [ban] row to [admin_actions]; an unban answered with 200 sets
    [is_banned] to false and [banned_until] to null and appends one [unban]
    row whose reason is [Manual unban by admin]. *)
Theorem ban_and_unban_effects env req db res db' target :
  params req !! "id" = Some target ->
  status res = 200 ->
  (Server.ban_user env req db = (res, db') ->
   ∃ d until audit,
     body req !! "duration_hours" ≫= Server.to_number = Some d
     ∧ Date.toISOString (Date_now env + d * 3600000) = Some until
     ∧ Db.from "users" db'
       = set_ban target (SBool true) (SStr until) <$> Db.from "users" db
     ∧ Db.from "admin_actions" db' = (Db.from "admin_actions" db ++ [audit])%list
     ∧ audit !! "action_type" = Some (SStr "ban")
     ∧ audit !! "target_user_id" = Some target
     ∧ audit !! "reason" = body req !! "reason"
     ∧ audit !! "duration_hours" = body req !! "duration_hours")
  ∧ (Server.unban_user env req db = (res, db') ->
     ∃ audit,
       Db.from "users" db'
       = set_ban target (SBool false) SNull <$> Db.from "users" db
       ∧ Db.from "admin_actions" db' = (Db.from "admin_actions" db ++ [audit])%list
       ∧ audit !! "action_type" = Some (SStr "unban")
       ∧ audit !! "target_user_id" = Some target
       ∧ audit !! "reason" = Some (SStr "Manual unban by admin")).
Proof.
  intros Hid Hok. split; intros Hrun.
  - unfold Server.ban_user in Hrun.
    apply gate_passed in Hrun as (user & token & _ & _ & _ & Hrun); [|done].
    apply unless_passed in Hrun as [_ Hrun]; [|apply requireAdmin_not_ok|done].
    apply unless_passed in Hrun as [_ Hrun]; [|apply validation_not_ok|done].
    rewrite Hid, ban_expiry in Hrun.
    destruct (body req !! "duration_hours" ≫= Server.to_number) as [d|] eqn:Hd;
      [|injection Hrun as <- <-; done].
    cbn [mbind option_bind] in Hrun.
    destruct (Date.toISOString (Date_now env + d * 3600000)) as [until|] eqn:Hiso;
      [|injection Hrun as <- <-; done].
    apply (f_equal snd) in Hrun. cbn [snd] in Hrun. subst db'.
    match goal with |- context [Db.insert ?n ?t ?v ?d0] =>
      destruct (audit_insert n t v d0) as (audit & Hlog & Hframe & Hcols); [done|] end.
    exists d, until, audit. rewrite !Hcols by done.
    rewrite Hlog, Hframe by done. rewrite from_ban_update.
    rewrite (from_other db _ "admin_actions") by (by apply tables_update_other).
    split_and!; try done.
    all: by destruct (user !! "id"), (body req !! "reason"), (body req !! "duration_hours").
  - unfold Server.unban_user in Hrun.
    apply gate_passed in Hrun as (user & token & _ & _ & _ & Hrun); [|done].
    apply unless_passed in Hrun as [_ Hrun]; [|apply requireAdmin_not_ok|done].
    rewrite Hid in Hrun. apply (f_equal snd) in Hrun. cbn [snd] in Hrun. subst db'.
    match goal with |- context [Db.insert ?n ?t ?v ?d0] =>
      destruct (audit_insert n t v d0) as (audit & Hlog & Hframe & Hcols); [done|] end.
    exists audit. rewrite !Hcols by done.
    rewrite Hlog, Hframe by done. rewrite from_ban_update.
    rewrite (from_other db _ "admin_actions") by (by apply tables_update_other).
    split_and!; try done.
    all: by destruct (user !! "id").
Qed.

Lemma lookup_update_row (values r : row) k :
  (values ∪ r) !! k = match values !! k with Some v => Some v | None => r !! k end.
Proof. rewrite lookup_union. by destruct (values !! k), (r !! k). Qed.

Lemma lookup_object_key fields k :
  k ∉ fields.*1 -> object fields !! k = None.
Proof.
  intros Hk. apply lookup_object_None. intros v Hin. apply Hk.
  apply list_elem_of_fmap. by exists (k, v).
Qed.

(** C7.  Resolving a report changes no table but [reports], for every
    accepted action; a request that is not answered with 200 changes nothing
    at all.  In [reports] only the rows with the requested id change: their
    status becomes [resolved], [resolved_at] the request time, [resolved_by]
    the moderator's id and [resolution_notes] the notes sent, and every other
    column keeps its value. *)
Theorem resolve_touches_only_the_report env req db res db' :
  Server.resolve_report env req db = (res, db') ->
  (∀ t, t ≠ "reports" -> Db.from t db' = Db.from t db)
  ∧ (status res ≠ 200 -> db' = db)
  ∧ (status res = 200 ->
     ∃ (resolved_at : string) (resolve : row -> row),
       Date.toISOString (Date_now env) = Some resolved_at
       ∧ Db.from "reports" db'
         = (λ r, if Db.eq "id" (params req !! "id") r then resolve r else r)
             <$> Db.from "reports" db
       ∧ ∀ r,
           resolve r !! "status" = Some (SStr "resolved")
           ∧ resolve r !! "resolved_at" = Some (SStr resolved_at)
           ∧ (∀ token by_id, bearer req = Some token ->
                claim "id" token = Some by_id ->
                resolve r !! "resolved_by" = Some by_id)
           ∧ (∀ notes, body req !! "notes" = Some notes ->
                resolve r !! "resolution_notes" = Some notes)
           ∧ (∀ k, k ∉ ["status"; "resolved_by"; "resolved_at"; "resolution_notes"] ->
                resolve r !! k = r !! k)).
Proof.
  unfold Server.resolve_report, Server.gate, Server.unless, Server.caught.
  destruct (Server.authenticateToken env req) as [r0|user] eqn:Hauth.
  { intros [= <- <-]. split_and!; [done|done|]. revert Hauth.
    unfold Server.authenticateToken. repeat case_match; intros [= <-]; done. }
  destruct (authenticate_inr _ _ _ Hauth) as (token & Hb & Hv).
  destruct (Server.requireModerator (Some user)) as [r0|] eqn:Hmod.
  { intros [= <- <-]. split_and!; [done|done|].
    by rewrite (requireModerator_403 _ _ Hmod). }
  destruct (Server.handleValidationErrors _ req) as [r0|] eqn:Hval.
  { intros [= <- <-]. split_and!; [done|done|].
    by rewrite (validation_rejects _ _ _ Hval). }
  destruct (Date.toISOString (Date_now env)) as [resolved_at|] eqn:Hiso;
    [|intros [= <- <-]; split_and!; done].
  intros Hrun. apply (f_equal fst) in Hrun as Hres. apply (f_equal snd) in Hrun.
  cbn [fst snd] in Hres, Hrun. subst res.
  match type of Hrun with context [Db.update ?t ?v ?p db] =>
    assert (db' = Db.update t v p db) as -> by (by repeat case_bool_decide);
    set (values := v) end.
  clear Hrun. split_and!.
  - intros t Hne. apply from_other. by apply tables_update_other.
  - done.
  - intros _. exists resolved_at, (λ r, values ∪ r). split; [done|].
    split; [apply from_update|].
    intros r. rewrite !lookup_update_row. subst values. split_and!.
    + by destruct (user !! "id"), (body req !! "notes").
    + by destruct (user !! "id"), (body req !! "notes").
    + intros token' by_id Hb' Hclaim. rewrite Hb in Hb'. injection Hb' as <-.
      rewrite (verify_claim _ _ _ _ "id" Hv), Hclaim by done.
      by destruct (body req !! "notes").
    + intros notes ->. by destruct (user !! "id").
    + intros k Hk. rewrite lookup_update_row, lookup_object_key; [done|].
      intros Hin. apply Hk.
      destruct (user !! "id"), (body req !! "notes"); set_solver.
Qed.

Lemma authenticate_ext env1 env2 req1 req2 :
  JWT_SECRET env1 = JWT_SECRET env2 ->
  Date_now env1 = Date_now env2 ->
  authorization req1 = authorization req2 ->
  Server.authenticateToken env1 req1 = Server.authenticateToken env2 req2.
Proof. unfold Server.authenticateToken. by intros -> -> ->. Qed.

(** C8.  Two analytics requests with the same credentials on the same store
    that differ in their [period] parameter (and in the random draw) get the
    same status and the same [user_growth], [total_posts] and [revenue];
    when answered with 200 the two counts are the sizes of the [users] and
    [posts] tables. *)
Theorem analytics_ignores_period env1 env2 req1 req2 db :
  JWT_SECRET env1 = JWT_SECRET env2 ->
  Date_now env1 = Date_now env2 ->
  authorization req1 = authorization req2 ->
  (∀ k, k ≠ "period" -> query req1 !! k = query req2 !! k) ->
  let res1 := (Server.analytics env1 req1 db).1 in
  let res2 := (Server.analytics env2 req2 db).1 in
  status res1 = status res2
  ∧ property "user_growth" (sent res1) = property "user_growth" (sent res2)
  ∧ property "total_posts" (sent res1) = property "total_posts" (sent res2)
  ∧ property "revenue" (sent res1) = property "revenue" (sent res2)
  ∧ (status res1 = 200 ->
     property "user_growth" (sent res1)
     = Some (JVal (SNum (Z.of_nat (length (Db.from "users" db)))))
     ∧ property "total_posts" (sent res1)
       = Some (JVal (SNum (Z.of_nat (length (Db.from "posts" db)))))).
Proof.
  intros Hsecret Hnow Hauth _. unfold Server.analytics, Server.gate, Server.unless.
  rewrite (authenticate_ext env1 env2 req1 req2) by done.
  destruct (Server.authenticateToken env2 req2) as [r|user] eqn:Hgate.
  { cbn [fst]. split_and!; try done. revert Hgate.
    unfold Server.authenticateToken. repeat case_match; intros [= <-]; done. }
  destruct (Server.requireAdmin (Some user)) as [r|] eqn:Hadmin.
  { cbn [fst]. split_and!; try done. by rewrite (requireAdmin_403 _ _ Hadmin). }
  cbn [fst]. rewrite !length_fmap. split_and!; try reflexivity.
  intros _. split; reflexivity.
Qed.

Lemma create_post_validation req :
  Server.handleValidationErrors Server.create_post_checks req = None
  ↔ Validator.isLength 1 (Some 280%nat) (to_text (body req !! "content")) = true.
Proof.
  unfold Server.handleValidationErrors, Validator.validationResult,
    Server.create_post_checks. cbn [List.filter Validator.test Validator.field].
  destruct (Validator.isLength _ _ _); simpl; split; done.
Qed.

Lemma isLength_spec lo hi s :
  Validator.isLength lo (Some hi) s = true ↔ (lo ≤ String.length s ≤ hi)%nat.
Proof.
  unfold Validator.isLength. rewrite andb_true_iff, !Nat.leb_le. done.
Qed.

(** What the server accepts as a new post, and what it stores. *)
Lemma create_post_accepted env req db res db' :
  Server.create_post env req db = (res, db') ->
  (status res = 200
   ↔ (∃ user, Server.authenticateToken env req = inr user)
     ∧ ∃ text, body req !! "content" = Some (SStr text)
               ∧ (1 ≤ String.length text ≤ 280)%nat)
  ∧ (status res = 200 ->
     ∃ text post,
       body req !! "content" = Some (SStr text)
       ∧ Db.from "posts" db' = (Db.from "posts" db ++ [post])%list
       ∧ post !! "content" = Some (SStr (Js.trim text))).
Proof.
  unfold Server.create_post, Server.gate, Server.unless, Server.caught.
  destruct (Server.authenticateToken env req) as [r|user] eqn:Hauth.
  { intros [= <- <-].
    assert (status r ≠ 200) as Hr.
    { revert Hauth. unfold Server.authenticateToken.
      repeat case_match; intros [= <-]; done. }
    split; [split; [done|]|done]. by intros [[user [=]] _]. }
  destruct (Server.handleValidationErrors _ req) as [r|] eqn:Hval.
  { intros [= <- <-]. pose proof (validation_rejects _ _ _ Hval) as Hr.
    split; [split|]; [by rewrite Hr| |by rewrite Hr].
    intros [_ (text & Htext & Hlen)]. exfalso.
    assert (Server.handleValidationErrors Server.create_post_checks req = None) as Hnone.
    { apply create_post_validation. rewrite Htext. by apply isLength_spec. }
    by rewrite Hnone in Hval. }
  apply create_post_validation in Hval.
  destruct (body req !! "content") as [[| | |text]|] eqn:Hcontent;
    try (intros [= <- <-]; split; [split; [done|]|done];
         by intros [_ (text & [=] & _)]).
  destruct (insert_plain (Date_now env) "posts"
              (object [("user_id", user !! "id"); ("content", Some (SStr (Js.trim text)))])
              db) as (post & Hins & Hcols); [done|].
  rewrite Hins. intros [= <- <-].
  pose proof (from_insert _ _ _ _ _ _ Hins) as (Hposts & _ & _).
  split; [split; [intros _|done]|intros _].
  - split; [by exists user|]. exists text. split; [done|]. by apply isLength_spec.
  - exists text, post. split_and!; [done|done|].
    rewrite Hcols by done. by destruct (user !! "id").
Qed.

(** ** What a response can mention *)

Ltac fresh_key :=
  cbn [fmap list_fmap fst];
  repeat (apply not_elem_of_cons; split; [done|]); apply not_elem_of_nil.

Section HasKey.
Lemma has_key_fold k (m : gmap string json) :
  map_fold (λ _ v found, has_key k v || found) false m = false
  ↔ ∀ k' v, m !! k' = Some v -> has_key k v = false.
Proof.
  apply (map_fold_weak_ind
    (λ b (m : gmap string json), b = false ↔ ∀ k' v, m !! k' = Some v -> has_key k v = false)).
  - split; [|done]. by intros _ k' v.
  - intros i x m0 r Hfresh IH. rewrite orb_false_iff, IH. split.
    + intros [Hx Hm] k' v. rewrite lookup_insert. case_decide.
      * by intros [= <-].
      * apply Hm.
    + intros Hall. split.
      * apply (Hall i). by rewrite lookup_insert_eq.
      * intros k' v Hv. apply (Hall k'). rewrite lookup_insert_ne; [done|].
        intros ->. by rewrite Hfresh in Hv.
Qed.

Lemma has_key_object k (m : gmap string json) :
  has_key k (JObj m) = false
  ↔ m !! k = None ∧ ∀ k' v, m !! k' = Some v -> has_key k v = false.
Proof.
  cbn [has_key]. rewrite orb_false_iff, has_key_fold.
  rewrite bool_decide_eq_false, <- eq_None_not_Some. done.
Qed.

Lemma has_key_of_row k (r : row) :
  has_key k (of_row r) = false ↔ r !! k = None.
Proof.
  unfold of_row. rewrite has_key_object, lookup_fmap, fmap_None.
  split; [by intros [? _]|]. intros Hk. split; [done|].
  intros k' v. rewrite lookup_fmap. destruct (r !! k'); [|done].
  by intros [= <-].
Qed.

Lemma has_key_jobject k (fields : list (string * json)) :
  k ∉ fields.*1 ->
  Forall (λ kv, has_key k kv.2 = false) fields ->
  has_key k (jobject fields) = false.
Proof.
  intros Hk Hall. unfold jobject. apply has_key_object. split.
  - by apply not_elem_of_list_to_map_1.
  - intros k' v Hv. apply elem_of_list_to_map_2 in Hv.
    by apply (proj1 (Forall_forall _ _) Hall (k', v)).
Qed.

Lemma has_key_error k message :
  k ≠ "error" -> has_key k (error_body message) = false.
Proof.
  intros Hk. apply has_key_jobject; [fresh_key|]. by repeat constructor.
Qed.

Lemma has_key_array k (items : list json) :
  has_key k (JArr items) = false ↔ Forall (λ j, has_key k j = false) items.
Proof.
  cbn [has_key]. induction items as [|j items IH]; simpl.
  - split; [constructor|done].
  - rewrite orb_false_iff, IH, Forall_cons. done.
Qed.

Lemma has_key_validation k checks req res :
  k ∉ ["errors"; "value"; "type"; "msg"; "path"; "location"] ->
  Server.handleValidationErrors checks req = Some res ->
  has_key k (sent res) = false.
Proof.
  intros Hk. unfold Server.handleValidationErrors.
  destruct (Validator.validationResult _ _) as [|e errors] eqn:Herr; [done|].
  intros [= <-]. cbn [sent res_status_json].
  do 6 (apply not_elem_of_cons in Hk as [? Hk]).
  apply has_key_jobject; [fresh_key|]. repeat constructor. cbn [snd].
  apply has_key_array. rewrite <- Herr. unfold Validator.validationResult.
  apply Forall_fmap, Forall_forall. intros c _. cbn. unfold Validator.error_of.
  destruct (body req !! Validator.field c);
    (apply has_key_jobject; [fresh_key|by repeat constructor]).
Qed.
End HasKey.

Lemma has_key_message k message :
  k ≠ "message" -> has_key k (message_body message) = false.
Proof.
  intros Hk. apply has_key_jobject; [fresh_key|]. by repeat constructor.
Qed.

Lemma has_key_session k env (shown user : row) message :
  k ∉ ["user"; "token"; "message"] ->
  shown !! k = None ->
  has_key k (jobject [("user", of_row shown);
                      ("token", JTok (Server.token_for env user));
                      ("message", JVal (SStr message))]) = false.
Proof.
  intros Hk Hu. do 3 (apply not_elem_of_cons in Hk as [? Hk]).
  apply has_key_jobject; [fresh_key|].
  repeat constructor; cbn [snd has_key]; try reflexivity.
  by apply has_key_of_row.
Qed.

Lemma register_response_omits_password_hash env req db :
  has_key "password_hash" (sent (Server.register env req db).1) = false.
Proof.
  destruct (Server.register env req db) as [res db'] eqn:Hrun. cbn [fst].
  apply register_outcome in Hrun as [(_ & _ & [Hval|[message ->]])|Hgood].
  - apply (has_key_validation "password_hash" _ _ _ ltac:(fresh_key) Hval).
  - by apply has_key_error.
  - destruct Hgood as (u & e & pw & user & _ & _ & _ & _ & _ & _ & _ & _ & _ & _ & ->).
    apply has_key_session; [fresh_key|apply lookup_delete_eq].
Qed.

Lemma login_response_omits_password_hash env req db :
  has_key "password_hash" (sent (Server.login env req db).1) = false.
Proof.
  unfold Server.login, Server.unless, Server.caught.
  destruct (Server.handleValidationErrors _ _) as [r|] eqn:Hval.
  { apply (has_key_validation "password_hash" _ _ _ ltac:(fresh_key) Hval). }
  destruct (List.filter _ _) as [|user [|]]; try (by apply has_key_error).
  destruct (body req !! "password") as [[| | |pw]|]; try (by apply has_key_error).
  destruct (user !! "password_hash") as [[| | |h]|]; try (by apply has_key_error).
  destruct (bcrypt_compare env pw h); [|by apply has_key_error].
  cbn [fst sent res_json].
  apply has_key_session; [fresh_key|apply lookup_delete_eq].
Qed.

Lemma profile_response_omits_password_hash env req db :
  has_key "password_hash" (sent (Server.get_user env req db).1) = false.
Proof.
  unfold Server.get_user.
  destruct (List.filter _ _) as [|found [|]]; try (by apply has_key_error).
  cbn [fst sent res_json]. apply has_key_of_row.
  rewrite !lookup_insert_ne by done. rewrite lookup_columns.
  rewrite decide_False; [done|]. unfold Server.profile_columns. fresh_key.
Qed.

(** ** Concrete runs *)

(** C1, at the input where the code departs from it.  After a registration,
    the administrator's user listing (GET /api/admin/users) answers 200 with
    every column of every user row: its body names [password_hash], and the
    values are the stored hashes, that of the fresh registration included. *)
Theorem admin_listing_returns_password_hash :
  let db1 :=
    (Server.register Sample.env (Sample.signup "dave" "dave@example.com") Sample.db).2 in
  let res :=
    (Server.admin_users Sample.env (Sample.get (Some Sample.root_token) []) db1).1 in
  status res = 200
  ∧ has_key "password_hash" (sent res) = true
  ∧ Sample.listed "username" res
    = [Some (JVal (SStr "dave")); Some (JVal (SStr "carol")); Some (JVal (SStr "root"))]
  ∧ Sample.listed "password_hash" res
    = [Some (JVal (SStr (bcrypt_hash Sample.env "correct horse" 12)));
       Some (JVal (SStr "$2a$12$opensesame"));
       Some (JVal (SStr "$2a$12$hunter22"))].
Proof. cbv zeta. split_and!; vm_compute; reflexivity. Qed.

(** C3, at the inputs where the code departs from it.  The username
    [Alice] is stored as [alice], and the check for an existing user
    compares the text as sent.  A second registration of [Alice] (or of the
    e-mail [Bob@Example.com]) therefore passes the check: where the schema
    has unique constraints the insert fails and the answer is 500 with the
    store's message, and where it has none a second row with the same
    username (e-mail) is stored.  In neither case is the answer 400. *)
Theorem mixed_case_duplicate_registration :
  let alice1 := Sample.signup "Alice" "a@example.com" in
  let alice2 := Sample.signup "Alice" "b@example.com" in
  let bob := Sample.signup "bob" "Bob@Example.com" in
  let rob := Sample.signup "rob" "Bob@Example.com" in
  (* unique constraints in the schema *)
  status (Sample.register_twice true alice1 alice2).1 = 200
  ∧ (Sample.register_twice true alice1 alice2).2.1
    = res_status_json 500 (error_body Db.duplicate_key)
  ∧ status (Sample.register_twice true bob rob).1 = 200
  ∧ (Sample.register_twice true bob rob).2.1
    = res_status_json 500 (error_body Db.duplicate_key)
  (* no unique constraints *)
  ∧ status (Sample.register_twice false alice1 alice2).1 = 200
  ∧ status (Sample.register_twice false alice1 alice2).2.1 = 200
  ∧ Sample.usernames (Sample.register_twice false alice1 alice2).2.2
    = [Some (SStr "alice"); Some (SStr "alice")]
  ∧ status (Sample.register_twice false bob rob).1 = 200
  ∧ status (Sample.register_twice false bob rob).2.1 = 200
  ∧ Sample.emails (Sample.register_twice false bob rob).2.2
    = [Some (SStr "bob@example.com"); Some (SStr "bob@example.com")].
Proof. cbv zeta. split_and!; vm_compute; reflexivity. Qed.

(** C4, at the input where the code departs from it.  Content made of one
    space passes the length check, which sees the text before trimming; the
    request is answered 200 and a post with empty content is stored. *)
Theorem whitespace_post_is_stored_empty :
  let req := Sample.post_json (Some Sample.carol_token) None [("content", SStr " ")] in
  let run := Server.create_post Sample.env req Sample.db in
  status run.1 = 200
  ∧ Sample.contents Sample.db = [Some (SStr "hello")]
  ∧ Sample.contents run.2 = [Some (SStr "hello"); Some (SStr "")].
Proof. cbv zeta. split_and!; vm_compute; reflexivity. Qed.

(** C10, at the inputs where the code departs from it.  The feed formatter
    escapes the double and the single quote, the profile formatter leaves
    them as they are: the two differ on a lone double quote and on [it's]. *)
Theorem formatters_differ_on_quotes :
  FeedManager.formatPostContent Html.dq = "&quot;"
  ∧ ProfileManager.formatPostContent Html.dq = Html.dq
  ∧ FeedManager.formatPostContent Html.dq ≠ ProfileManager.formatPostContent Html.dq
  ∧ FeedManager.formatPostContent "it's" ≠ ProfileManager.formatPostContent "it's".
Proof. vm_compute. split_and!; done. Qed.

(** C5 as stated fails: a malformed token, and an expired token issued to an
    administrator, are answered with 403, not 401. *)
Lemma invalid_token_answered_403 :
  Server.authenticateToken Sample.env (Sample.get (Some (Opaque "not.a.token")) [])
  = inl (res_status_json 403 (error_body "Invalid token"))
  ∧ Server.authenticateToken (Sample.later (8 * 86400000))
      (Sample.get (Some Sample.root_token) [])
    = inl (res_status_json 403 (error_body "Invalid token"))
  ∧ status (res_status_json 403 (error_body "Invalid token")) ≠ 401.
Proof. vm_compute. split_and!; done. Qed.

(** ** Instances of the general statements *)

Lemma create_post_owner_is_token_id_witness :
  let req1 := Sample.post_json (Some Sample.carol_token) None
                [("content", SStr "hello"); ("userId", SNum 1)] in
  let req2 := Sample.post_json (Some Sample.carol_token) None
                [("content", SStr "hello"); ("userId", SNum 2)] in
  let run := Server.create_post Sample.env req1 Sample.db in
  Server.create_post Sample.env req2 Sample.db = (run.1, run.2)
  ∧ ∃ token post,
      bearer req1 = Some token
      ∧ Db.from "posts" run.2 = (Db.from "posts" Sample.db ++ [post])%list
      ∧ post !! "user_id" = claim "id" token.
Proof.
  intros req1 req2 run.
  apply (create_post_owner_is_token_id Sample.env Sample.db req1 req2 run.1 run.2);
    vm_compute; reflexivity.
Defined.

Lemma register_creates_unprivileged_witness :
  let req := Sample.post_json None None
               [("displayName", SStr "Mallory"); ("username", SStr "mallory");
                ("email", SStr "mallory@example.com"); ("password", SStr "letmein");
                ("is_admin", SBool true); ("is_moderator", SBool true)] in
  let run := Server.register Sample.env req Sample.db in
  ∃ created,
    Db.from "users" run.2 = (Db.from "users" Sample.db ++ created)%list
    ∧ Forall unprivileged created
    ∧ (status run.1 = 200 -> length created = 1%nat).
Proof.
  intros req run.
  apply (register_creates_unprivileged Sample.env req Sample.db run.1 run.2).
  vm_compute; reflexivity.
Defined.

Lemma gate_status_codes_witness :
  Server.authenticateToken Sample.env (Sample.get None [])
  = inl (res_status_json 401 (error_body "Access token required"))
  ∧ Server.authenticateToken (Sample.later (8 * 86400000))
      (Sample.get (Some Sample.root_token) [])
    = inl (res_status_json 403 (error_body "Invalid token")).
Proof.
  split.
  - apply (proj1 (gate_status_codes Sample.env (Sample.get None []))).
    vm_compute. exact I.
  - apply (proj1 (proj2 (gate_status_codes (Sample.later (8 * 86400000))
                           (Sample.get (Some Sample.root_token) [])))
             Sample.root_token).
    + vm_compute; reflexivity.
    + vm_compute; reflexivity.
    + apply token_expired. vm_compute. discriminate.
Defined.

Lemma ban_and_unban_effects_witness :
  let ban := Sample.post_json (Some Sample.root_token) (Some (SNum 2))
               [("reason", SStr "spam"); ("duration_hours", SNum 24)] in
  let unban := Sample.post_json (Some Sample.root_token) (Some (SNum 2)) [] in
  let banned := Server.ban_user Sample.env ban Sample.db in
  let unbanned := Server.unban_user (Sample.later 1000) unban banned.2 in
  (∃ d until audit,
     body ban !! "duration_hours" ≫= Server.to_number = Some d
     ∧ Date.toISOString (Date_now Sample.env + d * 3600000) = Some until
     ∧ Db.from "users" banned.2
       = set_ban (SNum 2) (SBool true) (SStr until) <$> Db.from "users" Sample.db
     ∧ Db.from "admin_actions" banned.2
       = (Db.from "admin_actions" Sample.db ++ [audit])%list
     ∧ audit !! "action_type" = Some (SStr "ban")
     ∧ audit !! "target_user_id" = Some (SNum 2)
     ∧ audit !! "reason" = body ban !! "reason"
     ∧ audit !! "duration_hours" = body ban !! "duration_hours")
  ∧ (∃ audit,
       Db.from "users" unbanned.2
       = set_ban (SNum 2) (SBool false) SNull <$> Db.from "users" banned.2
       ∧ Db.from "admin_actions" unbanned.2
         = (Db.from "admin_actions" banned.2 ++ [audit])%list
       ∧ audit !! "action_type" = Some (SStr "unban")
       ∧ audit !! "target_user_id" = Some (SNum 2)
       ∧ audit !! "reason" = Some (SStr "Manual unban by admin")).
Proof.
  intros ban unban banned unbanned. split.
  - apply (proj1 (ban_and_unban_effects Sample.env ban Sample.db
                    banned.1 banned.2 (SNum 2)
                    ltac:(vm_compute; reflexivity) ltac:(vm_compute; reflexivity))).
    vm_compute; reflexivity.
  - apply (proj2 (ban_and_unban_effects (Sample.later 1000) unban banned.2
                    unbanned.1 unbanned.2 (SNum 2)
                    ltac:(vm_compute; reflexivity) ltac:(vm_compute; reflexivity))).
    vm_compute; reflexivity.
Defined.

Lemma resolve_touches_only_the_report_witness :
  let req := Sample.post_json (Some Sample.root_token) (Some (SNum 9))
               [("action", SStr "ban"); ("notes", SStr "repeat offender")] in
  let run := Server.resolve_report Sample.env req Sample.db in
  status run.1 = 200
  ∧ Db.from "users" run.2 = Db.from "users" Sample.db
  ∧ Db.from "posts" run.2 = Db.from "posts" Sample.db.
Proof.
  intros req run. split; [vm_compute; reflexivity|].
  pose proof (resolve_touches_only_the_report Sample.env req Sample.db run.1 run.2
                ltac:(vm_compute; reflexivity)) as (Hframe & _ & _).
  split; apply Hframe; discriminate.
Defined.

Lemma analytics_ignores_period_witness :
  let week := Sample.get (Some Sample.root_token) [("period", "7d")] in
  let quarter := Sample.get (Some Sample.root_token) [("period", "90d")] in
  let res1 := (Server.analytics Sample.env week Sample.db).1 in
  let res2 := (Server.analytics (Sample.later 0) quarter Sample.db).1 in
  status res1 = status res2
  ∧ property "user_growth" (sent res1) = property "user_growth" (sent res2)
  ∧ property "total_posts" (sent res1) = property "total_posts" (sent res2)
  ∧ property "revenue" (sent res1) = property "revenue" (sent res2)
  ∧ (status res1 = 200 ->
     property "user_growth" (sent res1)
     = Some (JVal (SNum (Z.of_nat (length (Db.from "users" Sample.db)))))
     ∧ property "total_posts" (sent res1)
       = Some (JVal (SNum (Z.of_nat (length (Db.from "posts" Sample.db)))))).
Proof.
  intros week quarter.
  apply (analytics_ignores_period Sample.env (Sample.later 0) week quarter Sample.db).
  - reflexivity.
  - vm_compute; reflexivity.
  - reflexivity.
  - intros k Hk. unfold week, quarter, Sample.get. cbn [query list_to_map foldr].
    by rewrite !lookup_insert_ne.
Defined.

(** * Further properties of the server and of the client *)


(** ** Properties of the routes taken together *)

Lemma authenticate_rejection env req res :
  Server.authenticateToken env req = inl res -> status res = 401 ∨ status res = 403.
Proof.
  unfold Server.authenticateToken. repeat case_match; intros [= <-]; auto.
Qed.

Lemma insert_failed now t values db message db' :
  Db.insert now t values db = (inl message, db') -> db' = db.
Proof. intros H. by apply from_insert in H. Qed.

Ltac store_kept :=
  repeat first
    [ case_match
    | progress match goal with
      | H : Db.insert _ _ _ _ = (inl _, _) |- _ => apply insert_failed in H; subst
      end ];
  try done.


(** Logging in, reading the feed, a profile, the user listing, the
    analytics, the reports or the health check never changes the store,
    whatever the request and the answer. *)
Theorem read_only_routes_keep_the_store route env req db :
  read_only route = true ->
  (Server.app route env req db).2 = db.
Proof.
  destruct route; try discriminate; intros _; cbn [Server.app].
  - unfold Server.login, Server.unless, Server.caught. store_kept.
  - done.
  - unfold Server.get_user. store_kept.
  - unfold Server.admin_users, Server.gate, Server.unless, Server.caught. store_kept.
  - unfold Server.analytics, Server.gate, Server.unless. store_kept.
  - unfold Server.get_reports, Server.gate, Server.unless. store_kept.
  - unfold Server.health. store_kept.
Qed.

(** On every route behind [authenticateToken] a request the gate
    rejects gets the gate's answer and changes nothing; the five open
    routes answer the same whatever the Authorization header holds. *)
Theorem gate_guards_protected_routes route env req db :
  (protected route = true ->
   ∀ res, Server.authenticateToken env req = inl res ->
          Server.app route env req db = (res, db))
  ∧ (protected route = false ->
     ∀ header, Server.app route env (with_authorization header req) db
               = Server.app route env req db).
Proof.
  split.
  - destruct route; try discriminate; intros _ res Hgate; cbn [Server.app];
      unfold Server.create_post, Server.like_post, Server.unlike_post,
        Server.follow_user, Server.unfollow_user, Server.admin_users,
        Server.ban_user, Server.unban_user, Server.delete_post, Server.analytics,
        Server.get_reports, Server.resolve_report, Server.gate;
      by rewrite Hgate.
  - destruct route; try discriminate; intros _ header; reflexivity.
Qed.

(** With a verified token, the administrator's routes answer 403
    [Admin access required] unless the [is_admin] claim is truthy, and the
    moderation routes answer 403 [Moderator access required] when neither
    role claim is; in both cases nothing is changed.  A token with the
    moderator claim is never answered 403 on the moderation routes. *)
Theorem role_gates route env req db user :
  Server.authenticateToken env req = inr user ->
  (admin_only route = true -> truthy (user !! "is_admin") = false ->
   Server.app route env req db
   = (res_status_json 403 (error_body "Admin access required"), db))
  ∧ (moderator_only route = true ->
     truthy (user !! "is_admin") = false ->
     truthy (user !! "is_moderator") = false ->
     Server.app route env req db
     = (res_status_json 403 (error_body "Moderator access required"), db))
  ∧ (moderator_only route = true ->
     truthy (user !! "is_moderator") = true ->
     status (Server.app route env req db).1 ≠ 403).
Proof.
  intros Hgate. split_and!.
  - destruct route; try discriminate; intros _ Hadmin; cbn [Server.app];
      unfold Server.admin_users, Server.ban_user, Server.unban_user,
        Server.analytics, Server.gate, Server.unless, Server.requireAdmin;
      by rewrite Hgate, Hadmin.
  - destruct route; try discriminate; intros _ Hadmin Hmod; cbn [Server.app];
      unfold Server.delete_post, Server.get_reports, Server.resolve_report,
        Server.gate, Server.unless, Server.requireModerator;
      by rewrite Hgate, Hadmin, Hmod.
  - destruct route; try discriminate; intros _ Hmod; cbn [Server.app];
      unfold Server.delete_post, Server.get_reports, Server.resolve_report,
        Server.gate, Server.unless, Server.requireModerator, Server.caught;
      rewrite Hgate, Hmod, orb_true_r; try done.
    destruct (Server.handleValidationErrors _ _) as [r|] eqn:Hval; cbn [fst].
    + by rewrite (validation_rejects _ _ _ Hval).
    + by case_match.
Qed.


(** ** Logging in *)

Ltac listed_key :=
  repeat first [apply list_elem_of_here | apply list_elem_of_further].


Lemma token_for_verifies env (user : row) secret now :
  Jwt.verify (Server.token_for env user) secret now
  = if bool_decide (JWT_SECRET env = secret)
       && (now / 1000 <? Date_now env / 1000 + Jwt.seven_days)
    then Some (<["iat" := SNum (Date_now env / 1000)]>
                 (<["exp" := SNum (Date_now env / 1000 + Jwt.seven_days)]>
                    (object [("id", user !! "id"); ("username", user !! "username");
                             ("is_admin", user !! "is_admin");
                             ("is_moderator", user !! "is_moderator")])))
    else None.
Proof. reflexivity. Qed.





(** ** The users table across the routes *)

Lemma lower_idempotent c : Js.lower (Js.lower c) = Js.lower c.
Proof. by destruct c as [[] [] [] [] [] [] [] []]. Qed.

Lemma toLowerCase_idempotent s : Js.toLowerCase (Js.toLowerCase s) = Js.toLowerCase s.
Proof. induction s as [|c s IH]; [done|]. cbn. by rewrite lower_idempotent, IH. Qed.

Lemma from_insert_other now t t' values db :
  t' ≠ t -> Db.from t' (Db.insert now t values db).2 = Db.from t' db.
Proof.
  intros Hne. destruct (Db.insert now t values db) as [[msg|r] db'] eqn:Hins.
  - by rewrite (insert_failed _ _ _ _ _ _ Hins).
  - apply from_insert in Hins as (_ & _ & Hframe). apply from_other. by apply Hframe.
Qed.

Lemma from_update_other t t' values p db :
  t' ≠ t -> Db.from t' (Db.update t values p db) = Db.from t' db.
Proof. intros Hne. apply from_other. by apply tables_update_other. Qed.

Lemma from_delete t p db :
  Db.from t (Db.delete t p db) = List.filter (λ r, negb (p r)) (Db.from t db).
Proof.
  unfold Db.from, Db.delete. cbn [tables]. rewrite lookup_alter_eq.
  by destruct (tables db !! t).
Qed.

Lemma from_delete_other t t' p db :
  t' ≠ t -> Db.from t' (Db.delete t p db) = Db.from t' db.
Proof.
  intros Hne. unfold Db.from, Db.delete. cbn [tables]. by rewrite lookup_alter_ne.
Qed.

Ltac table_kept :=
  repeat first
    [ case_match
    | progress cbn [fst snd]
    | progress match goal with
      | H : Db.insert ?n ?t ?v ?d = (_, ?d') |- context [Db.from ?t' ?d'] =>
          replace d' with (Db.insert n t v d).2 by (by rewrite H);
          rewrite (from_insert_other n t t') by done; clear H
      end
    | rewrite from_insert_other by done
    | rewrite from_update_other by done
    | rewrite from_delete_other by done ];
  try done.

(** The routes other than registration, ban and unban leave the users table
    as it is. *)
Lemma users_kept route env req db :
  route ≠ Server.POST_auth_register ->
  route ≠ Server.POST_admin_users_ban ->
  route ≠ Server.POST_admin_users_unban ->
  Db.from "users" (Server.app route env req db).2 = Db.from "users" db.
Proof.
  intros H1 H2 H3. destruct route; try done; cbn [Server.app].
  - unfold Server.login, Server.unless, Server.caught. table_kept.
  - unfold Server.create_post, Server.gate, Server.unless, Server.caught. table_kept.
  - unfold Server.like_post, Server.gate, Server.caught. table_kept.
  - unfold Server.unlike_post, Server.gate. table_kept.
  - unfold Server.get_user. table_kept.
  - unfold Server.follow_user, Server.gate, Server.caught. table_kept.
  - unfold Server.unfollow_user, Server.gate. table_kept.
  - unfold Server.admin_users, Server.gate, Server.unless, Server.caught. table_kept.
  - unfold Server.delete_post, Server.gate, Server.unless. table_kept.
  - unfold Server.analytics, Server.gate, Server.unless. table_kept.
  - unfold Server.get_reports, Server.gate, Server.unless. table_kept.
  - unfold Server.resolve_report, Server.gate, Server.unless, Server.caught. table_kept.
  - unfold Server.health. table_kept.
Qed.

Lemma lowercase_ext db db' :
  Db.from "users" db' = Db.from "users" db ->
  lowercase_users db -> lowercase_users db'.
Proof. unfold lowercase_users. by intros ->. Qed.

Lemma lowercase_update (values : row) p db :
  values !! "username" = None -> values !! "email" = None ->
  lowercase_users db -> lowercase_users (Db.update "users" values p db).
Proof.
  intros Hu He Hlow u col text Hin Hcol Htext. rewrite from_update in Hin.
  apply list_elem_of_fmap in Hin as (r & -> & Hr).
  apply (Hlow r col text Hr Hcol).
  destruct (p r); [|done]. rewrite lookup_update_row in Htext.
  by destruct Hcol as [->| ->]; rewrite ?Hu, ?He in Htext.
Qed.

(** Every route keeps the stored usernames and e-mail addresses in lower
    case. *)
Theorem routes_keep_usernames_lowercase route env req db :
  lowercase_users db -> lowercase_users (Server.app route env req db).2.
Proof.
  intros Hlow.
  destruct route;
    try (eapply lowercase_ext; [by apply users_kept|done]); cbn [Server.app].
  - destruct (Server.register env req db) as [res db'] eqn:Hrun. cbn [snd].
    apply register_outcome in Hrun as [(-> & _)|Hgood]; [done|].
    destruct Hgood as (u & e & pw & user & _ & _ & _ & _ & Husers & _ & Hu & He & _).
    intros r col text Hin Hcol Htext. rewrite Husers in Hin.
    apply elem_of_app in Hin as [Hin|Hin]; [by apply (Hlow r col text)|].
    apply list_elem_of_singleton in Hin as ->.
    destruct Hcol as [->| ->]; rewrite ?Hu, ?He in Htext;
      injection Htext as <-; apply toLowerCase_idempotent.
  - unfold Server.ban_user, Server.gate, Server.unless, Server.caught.
    repeat first [case_match | progress cbn [fst snd]]; try done.
    eapply lowercase_ext; [by apply from_insert_other|].
    by apply lowercase_update.
  - unfold Server.unban_user, Server.gate, Server.unless.
    repeat first [case_match | progress cbn [fst snd]]; try done.
    eapply lowercase_ext; [by apply from_insert_other|].
    by apply lowercase_update.
Qed.



(** ** Registration followed by other requests *)


(** The token a registration returns opens the authenticate gate for seven
    days, as the new user and without any role. *)
Theorem registered_token_authenticates env env' req db res db' req' :
  Server.register env req db = (res, db') ->
  status res = 200 ->
  JWT_SECRET env' = JWT_SECRET env ->
  ∃ token user,
    property "token" (sent res) = Some (JTok token)
    ∧ last (Db.from "users" db') = Some user
    ∧ (bearer req' = Some token ->
       (Date_now env' / 1000 < Date_now env / 1000 + 604800 ->
        ∃ claims,
          Server.authenticateToken env' req' = inr claims
          ∧ claims !! "id" = user !! "id"
          ∧ Server.requireAdmin (Some claims)
            = Some (res_status_json 403 (error_body "Admin access required"))
          ∧ Server.requireModerator (Some claims)
            = Some (res_status_json 403 (error_body "Moderator access required")))
       ∧ (Date_now env / 1000 + 604800 <= Date_now env' / 1000 ->
          Server.authenticateToken env' req'
          = inl (res_status_json 403 (error_body "Invalid token")))).
Proof.
  intros Hrun Hok Hsecret.
  apply register_outcome in Hrun as [(_ & Hbad & _)|Hgood]; [done|].
  destruct Hgood as (u & e & pw & user & _ & _ & _ & _ & Husers & _ & _ & _ & _
                     & (Hadmin & Hmod & _) & ->).
  exists (Server.token_for env user), user. split_and!; [done| |].
  { rewrite Husers. apply last_snoc. }
  intros Hbearer.
  assert (Server.authenticateToken env' req'
          = match Jwt.verify (Server.token_for env user) (JWT_SECRET env') (Date_now env') with
            | Some claims => inr claims
            | None => inl (res_status_json 403 (error_body "Invalid token"))
            end) as ->.
  { unfold Server.authenticateToken. unfold bearer in Hbearer.
    destruct (authorization req') as [words|]; [|done]. cbn in Hbearer.
    by rewrite Hbearer. }
  rewrite token_for_verifies, Hsecret, bool_decide_eq_true_2 by done.
  change Jwt.seven_days with 604800. split.
  - intros Hfresh. rewrite (proj2 (Z.ltb_lt _ _) Hfresh). cbn [andb].
    eexists. split; [done|].
    unfold Server.requireAdmin, Server.requireModerator.
    rewrite !lookup_insert_ne by done.
    rewrite Hadmin, Hmod.
    by destruct (user !! "id"), (user !! "username").
  - intros Hold. by rewrite (proj2 (Z.ltb_ge _ _) Hold).
Qed.



(** ** Likes, follows, profiles and post removal *)

Lemma filter_everything {A} (p : A -> bool) (l : list A) :
  (∀ x, x ∈ l -> p x = true) -> List.filter p l = l.
Proof.
  induction l as [|x l IH]; intros Hall; [done|]. cbn [List.filter].
  rewrite (Hall x) by apply list_elem_of_here. f_equal.
  apply IH. intros y Hy. apply Hall. by apply list_elem_of_further.
Qed.

(** Liking a post and then unliking it leaves in the likes table the rows
    that were there before, minus any earlier like of that post by the same
    user.  (The store is taken without a uniqueness constraint on likes and
    on follows; the source declares none.) *)
Theorem like_then_unlike env env' req db user uid pid :
  Server.authenticateToken env req = inr user ->
  Server.authenticateToken env' req = inr user ->
  user !! "id" = Some uid ->
  params req !! "id" = Some pid ->
  let liked := Server.like_post env req db in
  let unliked := Server.unlike_post env' req liked.2 in
  status liked.1 = 200
  ∧ length (Db.from "likes" liked.2) = S (length (Db.from "likes" db))
  ∧ unliked.1 = res_json (jobject [("liked", JVal (SBool false))])
  ∧ Db.from "likes" unliked.2
    = List.filter (λ r, negb (like_of uid pid r)) (Db.from "likes" db)
  ∧ ((∀ r, r ∈ Db.from "likes" db -> like_of uid pid r = false) ->
     Db.from "likes" unliked.2 = Db.from "likes" db).
Proof.
  intros Hgate Hgate' Hid Hpid liked unliked.
  subst liked unliked. unfold Server.like_post, Server.unlike_post, Server.gate.
  rewrite Hgate, Hid, Hpid.
  destruct (insert_plain (Date_now env) "likes"
              (object [("user_id", Some uid); ("post_id", Some pid)]) db)
    as (like & Hins & Hcols); [done|].
  rewrite Hins. cbn [fst snd]. rewrite Hgate'. cbn [fst snd]. rewrite ?Hid, ?Hpid.
  pose proof (from_insert _ _ _ _ _ _ Hins) as (Hlikes & _ & _).
  assert (Db.from "likes"
            (Db.delete "likes" (λ r, Db.eq "user_id" (Some uid) r && Db.eq "post_id" (Some pid) r)
               {| tables := <["likes" := (Db.from "likes" db ++ [like])%list]> (tables db);
                  next_id := next_id db + 1; unique_users := unique_users db |})
          = List.filter (λ r, negb (like_of uid pid r)) (Db.from "likes" db)) as Hafter.
  { rewrite from_delete, Hlikes, List.filter_app. cbn [List.filter].
    unfold Db.eq. rewrite !Hcols by done. cbn [object].
    rewrite lookup_insert_eq, lookup_insert_ne, lookup_insert_eq by done.
    rewrite !bool_decide_eq_true_2 by done. cbn. by rewrite app_nil_r. }
  split_and!; [done| |done|done|].
  - rewrite Hlikes, length_app. cbn. lia.
  - intros Hnone. rewrite Hafter. apply filter_everything.
    intros r Hr. by rewrite (Hnone r Hr).
Qed.


Lemma get_user_found env req db found :
  List.filter (Db.eq "username" (params req !! "username")) (Db.from "users" db)
  = [found] ->
  Server.get_user env req db
  = (res_json
       (of_row
          (<["posts_count" := Server.count_where "posts" "user_id" (found !! "id") db]>
             (<["followers_count" :=
                  Server.count_where "follows" "following_id" (found !! "id") db]>
                (<["following_count" :=
                     Server.count_where "follows" "follower_id" (found !! "id") db]>
                   (Db.columns Server.profile_columns found))))),
     db).
Proof.
  intros Hfound. unfold Server.get_user. rewrite Hfound.
  assert (Db.columns Server.profile_columns found !! "id" = found !! "id") as ->; [|done].
  rewrite lookup_columns.
  by rewrite decide_True by (unfold Server.profile_columns; listed_key).
Qed.

Lemma not_a_profile_column k :
  k ∈ Server.profile_columns ->
  k ≠ "posts_count" ∧ k ≠ "followers_count" ∧ k ≠ "following_count".
Proof.
  unfold Server.profile_columns. rewrite !elem_of_cons, elem_of_nil.
  intros Hk. split_and!; intros ->;
    repeat (destruct Hk as [Hk|Hk]; [discriminate|]); done.
Qed.

(** The profile route answers 404 unless exactly one user has the requested
    name, and otherwise sends the eleven public columns and three counts
    and nothing else. *)
Theorem profile_read env req db :
  ((∀ found, List.filter (Db.eq "username" (params req !! "username"))
               (Db.from "users" db) ≠ [found]) ->
   Server.get_user env req db
   = (res_status_json 404 (error_body "User not found"), db))
  ∧ (∀ found,
       List.filter (Db.eq "username" (params req !! "username")) (Db.from "users" db)
       = [found] ->
       ∃ shown : row,
         Server.get_user env req db = (res_json (of_row shown), db)
         ∧ (∀ k, k ∈ Server.profile_columns -> shown !! k = found !! k)
         ∧ shown !! "posts_count"
           = Some (Server.count_where "posts" "user_id" (found !! "id") db)
         ∧ shown !! "followers_count"
           = Some (Server.count_where "follows" "following_id" (found !! "id") db)
         ∧ shown !! "following_count"
           = Some (Server.count_where "follows" "follower_id" (found !! "id") db)
         ∧ (∀ k, k ∉ Server.profile_columns ->
                 k ∉ ["posts_count"; "followers_count"; "following_count"] ->
                 shown !! k = None)).
Proof.
  split.
  - intros Hnot. unfold Server.get_user.
    destruct (List.filter _ _) as [|found [|]] eqn:Hfound; try done.
    by destruct (Hnot found).
  - intros found Hfound. eexists. split; [by apply get_user_found|]. split_and!.
    + intros k Hk. destruct (not_a_profile_column k Hk) as (? & ? & ?).
      rewrite !lookup_insert_ne by done.
      rewrite lookup_columns. by rewrite decide_True.
    + by rewrite lookup_insert_eq.
    + rewrite lookup_insert_ne by done. by rewrite lookup_insert_eq.
    + rewrite !lookup_insert_ne by done. by rewrite lookup_insert_eq.
    + intros k Hk Hcount. rewrite !not_elem_of_cons in Hcount.
      destruct Hcount as (? & ? & ? & _).
      rewrite !lookup_insert_ne by done. rewrite lookup_columns.
      by rewrite decide_False.
Qed.

(** Following a user stores one row from the caller to that user, and the
    profile of that user then shows one follower more; following oneself,
    or a second time, is not refused. *)
Theorem follow_adds_a_follower env env' req db user target tid :
  Server.authenticateToken env req = inr user ->
  List.filter (Db.eq "username" (params req !! "username")) (Db.from "users" db)
  = [target] ->
  target !! "id" = Some tid ->
  let followed := Server.follow_user env req db in
  status followed.1 = 200
  ∧ (∃ row,
       Db.from "follows" followed.2 = (Db.from "follows" db ++ [row])%list
       ∧ row !! "follower_id" = user !! "id"
       ∧ row !! "following_id" = Some tid)
  ∧ ∃ n,
      property "followers_count" (sent (Server.get_user env' req db).1)
      = Some (JVal (SNum n))
      ∧ property "followers_count" (sent (Server.get_user env' req followed.2).1)
        = Some (JVal (SNum (n + 1))).
Proof.
  intros Hgate Hfound Hid followed. subst followed.
  unfold Server.follow_user, Server.gate. rewrite Hgate, Hfound, Hid.
  destruct (insert_plain (Date_now env) "follows"
              (object [("follower_id", user !! "id"); ("following_id", Some tid)]) db)
    as (row & Hins & Hcols); [done|].
  rewrite Hins. cbn [fst snd].
  pose proof (from_insert _ _ _ _ _ _ Hins) as (Hfollows & _ & Hframe).
  split_and!; [done| |].
  - exists row. split_and!; [done| |]; rewrite Hcols by done;
      by destruct (user !! "id"); cbn [object];
         rewrite ?lookup_insert_eq, ?lookup_insert_ne by done.
  - assert (List.filter (Db.eq "username" (params req !! "username"))
              (Db.from "users"
                 {| tables := <["follows" := (Db.from "follows" db ++ [row])%list]> (tables db);
                    next_id := next_id db + 1; unique_users := unique_users db |})
            = [target]) as Hfound'.
    { rewrite <- Hfound. f_equal. apply from_other. by apply Hframe. }
    rewrite (get_user_found env' req db target Hfound).
    rewrite (get_user_found env' req _ target Hfound'). cbn [fst sent res_json].
    unfold of_row, property. rewrite !lookup_fmap.
    rewrite !(lookup_insert_ne _ "posts_count") by done. rewrite !lookup_insert_eq.
    unfold Server.count_where. rewrite Hfollows, List.filter_app, length_app.
    eexists. split; [done|]. cbn [fmap option_fmap option_map]. do 3 f_equal.
    cbn [List.filter]. unfold Db.eq at 2. rewrite Hid, Hcols by done.
    assert (object [("follower_id", user !! "id"); ("following_id", Some tid)]
              !! "following_id" = Some tid) as ->.
    { by destruct (user !! "id"); cbn [object];
        rewrite ?lookup_insert_eq, ?lookup_insert_ne by done. }
    rewrite bool_decide_eq_true_2 by done. cbn [length]. lia.
Qed.


(** Removing a post deletes the posts with the requested id, keeps the
    others in their order, and logs the removal with the reason sent, or the
    stock reason when none was sent; the answer is 200 even when no post
    had that id. *)
Theorem delete_post_effects env req db user pid :
  Server.authenticateToken env req = inr user ->
  truthy (user !! "is_admin") || truthy (user !! "is_moderator") = true ->
  params req !! "id" = Some pid ->
  let run := Server.delete_post env req db in
  run.1 = res_json (message_body "Post deleted successfully")
  ∧ Db.from "posts" run.2
    = List.filter (λ p, negb (bool_decide (p !! "id" = Some pid))) (Db.from "posts" db)
  ∧ ∃ audit,
      Db.from "moderation_actions" run.2
      = (Db.from "moderation_actions" db ++ [audit])%list
      ∧ audit !! "action_type" = Some (SStr "delete_post")
      ∧ audit !! "target_post_id" = Some pid
      ∧ audit !! "moderator_id" = user !! "id"
      ∧ audit !! "reason"
        = if truthy (body req !! "reason") then body req !! "reason"
          else Some (SStr "Violation of community guidelines").
Proof.
  intros Hgate Hrole Hpid run. subst run.
  unfold Server.delete_post, Server.gate, Server.unless, Server.requireModerator.
  rewrite Hgate, Hrole, Hpid.
  match goal with |- context [Db.insert ?n ?t ?v ?d0] =>
    destruct (audit_insert n t v d0) as (audit & Hlog & Hframe & Hcols); [done|] end.
  cbn [fst snd]. split_and!; [done| |].
  - rewrite Hframe by done. by rewrite from_delete.
  - exists audit. rewrite Hlog, from_delete_other by done.
    rewrite !Hcols by done. split_and!; [done|..].
    all: destruct (user !! "id"), (truthy (body req !! "reason")) eqn:Hreason;
      try destruct (body req !! "reason"); try done.
Qed.

(** ** Numbers read back from their decimal text *)

Lemma digit_char d : (d < 10)%N ->
  Js.is_digit (pretty_N_char d) = true
  ∧ Z.of_N (Js.code (pretty_N_char d)) - 48 = Z.of_N d.
Proof.
  intros Hd.
  assert (d = 0 ∨ d = 1 ∨ d = 2 ∨ d = 3 ∨ d = 4 ∨ d = 5 ∨ d = 6 ∨ d = 7
          ∨ d = 8 ∨ d = 9)%N as Hcases by lia.
  by repeat (destruct Hcases as [->|Hcases]; [done|]); subst.
Qed.

Lemma digits_value_go x s :
  Js.digits_value 0 (pretty_N_go x s) = Js.digits_value (Z.of_N x) s.
Proof.
  revert s. induction (N.lt_wf_0 x) as [x _ IH]; intros s.
  assert (x = 0 ∨ 0 < x)%N as [->|Hpos] by lia; [by rewrite pretty_N_go_0|].
  rewrite pretty_N_go_step by done. rewrite IH by (by apply N.div_lt).
  cbn [Js.digits_value].
  destruct (digit_char (x `mod` 10)%N) as [-> ->]; [by apply N.mod_lt|].
  f_equal. pose proof (N.div_mod x 10). lia.
Qed.

Lemma starts_with_digit_go x s :
  starts_with_digit s -> starts_with_digit (pretty_N_go x s).
Proof.
  revert s. induction (N.lt_wf_0 x) as [x _ IH]; intros s Hs.
  assert (x = 0 ∨ 0 < x)%N as [->|Hpos] by lia; [by rewrite pretty_N_go_0|].
  rewrite pretty_N_go_step by done. apply IH; [by apply N.div_lt|].
  by apply digit_char, N.mod_lt.
Qed.

Lemma starts_with_digit_pretty (x : N) : starts_with_digit (pretty x).
Proof.
  unfold pretty, pretty_N. case_decide; [done|].
  rewrite pretty_N_go_step by lia. apply starts_with_digit_go.
  by apply digit_char, N.mod_lt.
Qed.

Lemma parse_digits_pretty (x : N) : Js.parse_digits (pretty x) = Some (Z.of_N x).
Proof.
  pose proof (starts_with_digit_pretty x) as Hd.
  unfold Js.parse_digits. rewrite bool_decide_eq_false_2.
  - unfold pretty, pretty_N. case_decide as Hx; [by subst|].
    by rewrite digits_value_go.
  - intros Heq. by rewrite Heq in Hd.
Qed.

Lemma parse_int_digits s :
  starts_with_digit s -> Js.parse_int s = Js.parse_digits s.
Proof.
  destruct s as [|c s]; [done|]. cbn. intros Hc.
  unfold Js.parse_int.
  destruct c as [[] [] [] [] [] [] [] []]; try done.
Qed.

(** [parseInt] and the integer validator read a number back from the text
    JavaScript writes for it. *)
Lemma parse_int_pretty (z : Z) : Js.parse_int (pretty z) = Some z.
Proof.
  destruct z as [|p|p].
  - done.
  - change (pretty (Z.pos p)) with (pretty (N.pos p)).
    rewrite parse_int_digits by apply starts_with_digit_pretty.
    by rewrite parse_digits_pretty.
  - change (pretty (Z.neg p)) with ("-" +:+ pretty (N.pos p)).
    change (Js.parse_int ("-" +:+ pretty (N.pos p)))
      with (Z.opp <$> Js.parse_digits (pretty (N.pos p))).
    by rewrite parse_digits_pretty.
Qed.

(** ** Bans *)

Lemma ban_validation req :
  Server.handleValidationErrors Server.ban_checks req = None
  ↔ Validator.notEmpty (to_text (body req !! "reason")) = true
    ∧ Validator.isInt 1 (to_text (body req !! "duration_hours")) = true.
Proof.
  unfold Server.handleValidationErrors, Validator.validationResult, Server.ban_checks.
  cbn [List.filter Validator.test Validator.field].
  destruct (Validator.notEmpty _), (Validator.isInt _ _); cbn; split; try done;
    by intros [? ?].
Qed.

Lemma isInt_to_number (v : option scalar) :
  Validator.isInt 1 (to_text v) = true ->
  ∃ d, v ≫= Server.to_number = Some d ∧ 1 <= d.
Proof.
  unfold Validator.isInt. destruct v as [[|[]|n|s]|]; cbn [to_text]; try done.
  - rewrite parse_int_pretty. intros Hn%Z.leb_le. by exists n.
  - destruct (Js.parse_int s) as [n|] eqn:Hs; [|done]. intros Hn%Z.leb_le.
    exists n. split; [|done]. cbn. rewrite bool_decide_eq_false_2; [done|].
    by intros ->.
Qed.

Lemma to_number_isInt (v : option scalar) d :
  v ≫= Server.to_number = Some d -> d < 1 ->
  Validator.isInt 1 (to_text v) = false.
Proof.
  unfold Validator.isInt. destruct v as [[|[]|n|s]|]; cbn; try done.
  - intros [= ->] Hd. rewrite parse_int_pretty. by apply Z.leb_gt.
  - case_bool_decide as Hs; [by subst|]. intros -> Hd. by apply Z.leb_gt.
Qed.

(** A ban goes through only with a reason and a whole number of hours that
    is at least one, so that it ends at least an hour after the request; a
    shorter or negative duration is answered 400 and changes nothing. *)
Theorem ban_lasts_at_least_an_hour env req db :
  (status (Server.ban_user env req db).1 = 200 ->
   to_text (body req !! "reason") ≠ ""
   ∧ ∃ d until,
       body req !! "duration_hours" ≫= Server.to_number = Some d
       ∧ 1 <= d
       ∧ Date.toISOString (Date_now env + d * 3600000) = Some until
       ∧ Date_now env + 3600000 <= Date_now env + d * 3600000)
  ∧ (∀ user d,
       Server.authenticateToken env req = inr user ->
       truthy (user !! "is_admin") = true ->
       body req !! "duration_hours" ≫= Server.to_number = Some d ->
       d < 1 ->
       status (Server.ban_user env req db).1 = 400
       ∧ (Server.ban_user env req db).2 = db).
Proof.
  split.
  - destruct (Server.ban_user env req db) as [res db'] eqn:Hrun. cbn [fst].
    intros Hok. unfold Server.ban_user in Hrun.
    apply gate_passed in Hrun as (user & token & _ & _ & _ & Hrun); [|done].
    apply unless_passed in Hrun as [_ Hrun]; [|apply requireAdmin_not_ok|done].
    apply unless_passed in Hrun as [Hval Hrun]; [|apply validation_not_ok|done].
    apply ban_validation in Hval as [Hreason Hhours].
    split.
    { unfold Validator.notEmpty in Hreason. apply negb_true_iff in Hreason.
      by apply bool_decide_eq_false_1 in Hreason. }
    apply isInt_to_number in Hhours as (d & Hd & Hpos).
    rewrite ban_expiry, Hd in Hrun. cbn [mbind option_bind] in Hrun.
    destruct (Date.toISOString (Date_now env + d * 3600000)) as [until|] eqn:Hiso;
      [|injection Hrun as <- <-; done].
    exists d, until. split_and!; [done|done|done|lia].
  - intros user d Hgate Hadmin Hd Hsmall.
    unfold Server.ban_user, Server.gate, Server.unless, Server.requireAdmin.
    rewrite Hgate, Hadmin.
    destruct (Server.handleValidationErrors Server.ban_checks req) as [r|] eqn:Hval.
    + cbn [fst snd]. by rewrite (validation_rejects _ _ _ Hval).
    + apply ban_validation in Hval as [_ Hhours].
      by rewrite (to_number_isInt _ _ Hd Hsmall) in Hhours.
Qed.

(** ** The administrator's user listing *)








(** ** Where the password hash can appear *)

Lemma has_key_insert k k' v (m : gmap string json) :
  k ≠ k' -> has_key k v = false -> has_key k (JObj m) = false ->
  has_key k (JObj (<[k' := v]> m)) = false.
Proof.
  intros Hk Hv Hm. apply has_key_object in Hm as [Hnone Hall].
  apply has_key_object. split; [by rewrite lookup_insert_ne|].
  intros k'' v'. rewrite lookup_insert. case_decide; [by intros [= <-]|apply Hall].
Qed.

Lemma has_key_embed k db t cols key :
  k ∉ cols -> has_key k (Server.embed db t cols key) = false.
Proof.
  intros Hk. unfold Server.embed. destruct (List.find _ _); [|done].
  apply has_key_of_row. rewrite lookup_columns. by rewrite decide_False.
Qed.

Lemma has_key_gate k env req res :
  k ≠ "error" ->
  Server.authenticateToken env req = inl res -> has_key k (sent res) = false.
Proof.
  intros Hk. unfold Server.authenticateToken.
  repeat case_match; intros [= <-]; by apply has_key_error.
Qed.

Lemma has_key_admin k user res :
  k ≠ "error" -> Server.requireAdmin user = Some res -> has_key k (sent res) = false.
Proof.
  intros Hk. unfold Server.requireAdmin.
  repeat case_match; intros [= <-]; by apply has_key_error.
Qed.

Lemma has_key_moderator k user res :
  k ≠ "error" -> Server.requireModerator user = Some res -> has_key k (sent res) = false.
Proof.
  intros Hk. unfold Server.requireModerator.
  repeat case_match; intros [= <-]; by apply has_key_error.
Qed.

Lemma has_key_with_author k db (post : row) :
  k ≠ "user" -> k ∉ Server.author_columns -> post !! k = None ->
  has_key k (JObj (Server.with_author db post)) = false.
Proof.
  intros Hk Hcols Hpost. unfold Server.with_author.
  apply has_key_insert; [done|by apply has_key_embed|by apply has_key_of_row].
Qed.

Lemma hash_free_insert now t values db r db' :
  Db.insert now t values db = (inr r, db') ->
  values !! "password_hash" = None -> r !! "password_hash" = None.
Proof.
  intros Hins Hvalues. apply from_insert in Hins as (_ & Hcols & _).
  by rewrite Hcols.
Qed.

Ltac hash_free :=
  lazymatch goal with
  | |- has_key _ (error_body _) = false => by apply has_key_error
  | |- has_key _ (message_body _) = false => by apply has_key_message
  | H : Server.authenticateToken _ _ = inl ?r |- has_key _ (sent ?r) = false =>
      by eapply has_key_gate; [|exact H]
  | H : Server.requireAdmin _ = Some ?r |- has_key _ (sent ?r) = false =>
      by eapply has_key_admin; [|exact H]
  | H : Server.requireModerator _ = Some ?r |- has_key _ (sent ?r) = false =>
      by eapply has_key_moderator; [|exact H]
  | H : Server.handleValidationErrors _ _ = Some ?r |- has_key _ (sent ?r) = false =>
      by apply (has_key_validation "password_hash" _ _ _ ltac:(fresh_key) H)
  | |- _ => idtac
  end.

(** No route but the administrator's user listing sends a [password_hash]
    member, whatever the request and the outcome, as long as the column
    exists in the users table only. *)
Theorem only_the_admin_listing_sends_password_hash route env req db :
  route ≠ Server.GET_admin_users ->
  (∀ t r, t ≠ "users" -> r ∈ Db.from t db -> r !! "password_hash" = None) ->
  has_key "password_hash" (sent (Server.app route env req db).1) = false.
Proof.
  intros Hroute Hschema. destruct route; try done; cbn [Server.app].
  - apply register_response_omits_password_hash.
  - apply login_response_omits_password_hash.
  - unfold Server.get_posts. cbn [fst sent res_json].
    apply has_key_array, Forall_fmap, Forall_forall. intros post Hpost. cbn beta.
    rewrite elem_of_reverse in Hpost.
    apply has_key_insert; [done|done|].
    apply has_key_insert; [done| |].
    { apply has_key_array. by repeat constructor. }
    apply has_key_with_author; [done|unfold Server.author_columns; fresh_key|].
    by apply (Hschema "posts").
  - unfold Server.create_post, Server.gate, Server.unless, Server.caught.
    repeat case_match; cbn [fst sent res_json res_status_json]; hash_free.
    apply has_key_with_author; [done|unfold Server.author_columns; fresh_key|].
    eapply hash_free_insert; [eassumption|].
    by destruct (_ !! "id"); cbn [object];
      rewrite ?lookup_insert_ne by done.
  - unfold Server.like_post, Server.gate, Server.caught.
    repeat case_match; cbn [fst sent res_json res_status_json]; hash_free.
    apply has_key_jobject; [fresh_key|]. repeat constructor. cbn [snd].
    apply has_key_of_row. eapply hash_free_insert; [eassumption|].
    by destruct (_ !! "id"), (params req !! "id"); cbn [object];
      rewrite ?lookup_insert_ne by done.
  - unfold Server.unlike_post, Server.gate.
    repeat case_match; cbn [fst sent res_json res_status_json]; hash_free.
    apply has_key_jobject; [fresh_key|]. by repeat constructor.
  - apply profile_response_omits_password_hash.
  - unfold Server.follow_user, Server.gate, Server.caught.
    repeat case_match; cbn [fst sent res_json res_status_json]; hash_free.
    apply has_key_jobject; [fresh_key|]. repeat constructor. cbn [snd].
    apply has_key_of_row. eapply hash_free_insert; [eassumption|].
    by repeat (destruct (_ !! "id")); cbn [object];
      rewrite ?lookup_insert_ne by done.
  - unfold Server.unfollow_user, Server.gate.
    repeat case_match; cbn [fst sent res_json res_status_json]; hash_free.
    apply has_key_jobject; [fresh_key|]. by repeat constructor.
  - unfold Server.ban_user, Server.gate, Server.unless, Server.caught.
    repeat case_match; cbn [fst sent res_json res_status_json]; hash_free.
  - unfold Server.unban_user, Server.gate, Server.unless.
    repeat case_match; cbn [fst sent res_json res_status_json]; hash_free.
  - unfold Server.delete_post, Server.gate, Server.unless.
    repeat case_match; cbn [fst sent res_json res_status_json]; hash_free.
  - unfold Server.analytics, Server.gate, Server.unless.
    repeat case_match; cbn [fst sent res_json res_status_json]; hash_free.
    apply has_key_jobject; [fresh_key|]. by repeat constructor.
  - unfold Server.get_reports, Server.gate, Server.unless.
    repeat case_match; cbn [fst sent res_json res_status_json]; hash_free.
    apply has_key_array, Forall_fmap, Forall_forall. intros r Hr. cbn beta.
    rewrite elem_of_reverse in Hr. apply elem_of_filter in Hr as [Hr _].
    repeat (apply has_key_insert; [done|by (apply has_key_embed; fresh_key)|]).
    apply has_key_of_row. by apply (Hschema "reports").
  - unfold Server.resolve_report, Server.gate, Server.unless, Server.caught.
    repeat case_match; cbn [fst sent res_json res_status_json]; hash_free.
  - unfold Server.health.
    repeat case_match; cbn [fst sent res_json res_status_json];
      (apply has_key_jobject; [fresh_key|by repeat constructor]).
Qed.

(** ** Following and unfollowing *)

Lemma get_user_ext env req db1 db2 :
  (∀ t, Db.from t db1 = Db.from t db2) ->
  (Server.get_user env req db1).1 = (Server.get_user env req db2).1.
Proof.
  intros Hsame. unfold Server.get_user, Server.count_where. rewrite !Hsame.
  by destruct (List.filter _ _) as [|found [|]].
Qed.

(** Unfollowing after following removes every follow row from the caller
    to the target, the new one and any older one; when the caller did not
    follow the target before, all tables are as they were and the target's
    profile reads as before. *)
Theorem follow_then_unfollow env env' env'' req db user uid target tid :
  Server.authenticateToken env req = inr user ->
  Server.authenticateToken env' req = inr user ->
  user !! "id" = Some uid ->
  List.filter (Db.eq "username" (params req !! "username")) (Db.from "users" db)
  = [target] ->
  target !! "id" = Some tid ->
  let followed := Server.follow_user env req db in
  let unfollowed := Server.unfollow_user env' req followed.2 in
  unfollowed.1 = res_json (jobject [("following", JVal (SBool false))])
  ∧ Db.from "follows" unfollowed.2
    = List.filter (λ r, negb (follow_of uid tid r)) (Db.from "follows" db)
  ∧ ((∀ r, r ∈ Db.from "follows" db -> follow_of uid tid r = false) ->
     (∀ t, Db.from t unfollowed.2 = Db.from t db)
     ∧ (Server.get_user env'' req unfollowed.2).1 = (Server.get_user env'' req db).1).
Proof.
  intros Hgate Hgate' Huid Hfound Htid followed unfollowed. subst followed unfollowed.
  unfold Server.follow_user, Server.unfollow_user, Server.gate.
  rewrite Hgate, Hfound, Htid, Huid.
  destruct (insert_plain (Date_now env) "follows"
              (object [("follower_id", Some uid); ("following_id", Some tid)]) db)
    as (row & Hins & Hcols); [done|].
  rewrite Hins. cbn [fst snd]. rewrite Hgate'.
  pose proof (from_insert _ _ _ _ _ _ Hins) as (Hfollows & _ & Hframe).
  rewrite (from_other db _ "users") by (by apply Hframe).
  rewrite Hfound, Htid, Huid. cbn [fst snd].
  assert (Db.from "follows"
            (Db.delete "follows"
               (λ r, Db.eq "follower_id" (Some uid) r && Db.eq "following_id" (Some tid) r)
               {| tables := <["follows" := (Db.from "follows" db ++ [row])%list]> (tables db);
                  next_id := next_id db + 1; unique_users := unique_users db |})
          = List.filter (λ r, negb (follow_of uid tid r)) (Db.from "follows" db)) as Hafter.
  { rewrite from_delete, Hfollows, List.filter_app. cbn [List.filter].
    unfold Db.eq. rewrite !Hcols by done. cbn [object].
    rewrite lookup_insert_eq, lookup_insert_ne, lookup_insert_eq by done.
    rewrite !bool_decide_eq_true_2 by done. cbn. by rewrite app_nil_r. }
  split_and!; [done|done|].
  intros Hnone.
  assert (∀ t, Db.from t
            (Db.delete "follows"
               (λ r, Db.eq "follower_id" (Some uid) r && Db.eq "following_id" (Some tid) r)
               {| tables := <["follows" := (Db.from "follows" db ++ [row])%list]> (tables db);
                  next_id := next_id db + 1; unique_users := unique_users db |})
          = Db.from t db) as Hsame.
  { intros t. destruct (decide (t = "follows")) as [->|Hne].
    - rewrite Hafter. apply filter_everything. intros r Hr. by rewrite (Hnone r Hr).
    - rewrite from_delete_other by done. apply from_other. by apply Hframe. }
  split; [done|]. by apply get_user_ext.
Qed.

(** ** Registering a name or an address that is taken *)

(** After a registration under a lower-case username and e-mail address, a
    second registration with the same username is answered 400 with
    [Username already exists], and one with the same address and a username
    nobody has with [Email already exists]; neither stores anything. *)
Theorem duplicate_registration_rejected env1 env2 req1 req2 db res1 db1 u e :
  Server.register env1 req1 db = (res1, db1) ->
  status res1 = 200 ->
  body req1 !! "username" = Some (SStr u) ->
  body req1 !! "email" = Some (SStr e) ->
  Js.toLowerCase u = u ->
  Js.toLowerCase e = e ->
  Server.handleValidationErrors (Server.register_checks env2) req2 = None ->
  (body req2 !! "username" = Some (SStr u) ->
   Server.register env2 req2 db1
   = (res_status_json 400 (error_body "Username already exists"), db1))
  ∧ (body req2 !! "email" = Some (SStr e) ->
     (∀ r, r ∈ Db.from "users" db1 -> r !! "username" ≠ body req2 !! "username") ->
     Server.register env2 req2 db1
     = (res_status_json 400 (error_body "Email already exists"), db1)).
Proof.
  intros Hrun Hok Hu He Hlow Hlow' Hval.
  apply register_outcome in Hrun as [(_ & Hbad & _)|Hgood]; [done|].
  destruct Hgood as (u' & e' & pw & user & Hu' & He' & _ & _ & Husers & _
                     & Hname & Hmail & _).
  rewrite Hu in Hu'. injection Hu' as <-. rewrite He in He'. injection He' as <-.
  rewrite Hlow in Hname. rewrite Hlow' in Hmail.
  assert (user ∈ Db.from "users" db1) as Hin.
  { rewrite Husers. apply elem_of_app. right. apply list_elem_of_here. }
  split.
  - intros Hu2. by apply (register_duplicate_username env2 req2 db1 u user).
  - intros He2 Hfree. by apply (register_duplicate_email env2 req2 db1 e user).
Qed.

(** ** The feed after a like *)

Lemma get_posts_likes env req db :
  (∀ post, post ∈ Db.from "posts" db -> is_Some (post !! "id")) ->
  shown_likes (Server.get_posts env req db).1
  = (λ post, Some (JVal (SNum (likes_of db post)))) <$> reverse (Db.from "posts" db).
Proof.
  intros Hids. unfold Server.get_posts, shown_likes. cbn [fst sent res_json].
  rewrite <- list_fmap_compose. apply list_fmap_ext. intros i post Hpost.
  apply list_elem_of_lookup_2 in Hpost. rewrite elem_of_reverse in Hpost.
  destruct (Hids post Hpost) as [pid Hpid]. cbn [compose property].
  rewrite lookup_insert_eq. unfold likes_of, Db.eq. by rewrite Hpid.
Qed.

(** The feed shows each post, newest first, with the number of like rows
    that name it; a like raises the number shown for the post liked by one,
    also when the same user liked it before, and leaves the other numbers
    as they were. *)
Theorem like_raises_the_feed_count env env' req req' db user pid :
  Server.authenticateToken env req = inr user ->
  params req !! "id" = Some pid ->
  (∀ post, post ∈ Db.from "posts" db -> is_Some (post !! "id")) ->
  let liked := Server.like_post env req db in
  shown_likes (Server.get_posts env' req' db).1
  = (λ post, Some (JVal (SNum (likes_of db post)))) <$> reverse (Db.from "posts" db)
  ∧ shown_likes (Server.get_posts env' req' liked.2).1
    = (λ post, Some (JVal (SNum (likes_of db post
                                   + if bool_decide (post !! "id" = Some pid)
                                     then 1 else 0))))
        <$> reverse (Db.from "posts" db).
Proof.
  intros Hgate Hpid Hids liked. subst liked. split; [by apply get_posts_likes|].
  unfold Server.like_post, Server.gate. rewrite Hgate, Hpid.
  destruct (insert_plain (Date_now env) "likes"
              (object [("user_id", user !! "id"); ("post_id", Some pid)]) db)
    as (like & Hins & Hcols); [done|].
  rewrite Hins. cbn [fst snd].
  pose proof (from_insert _ _ _ _ _ _ Hins) as (Hlikes & _ & Hframe).
  rewrite get_posts_likes.
  2: { intros post. rewrite (from_other db _ "posts") by (by apply Hframe). apply Hids. }
  rewrite (from_other db _ "posts") by (by apply Hframe).
  apply list_fmap_ext. intros i post _. do 3 f_equal.
  unfold likes_of. rewrite Hlikes, List.filter_app, length_app. cbn [List.filter].
  rewrite Hcols by done.
  assert (object [("user_id", user !! "id"); ("post_id", Some pid)] !! "post_id"
          = Some pid) as ->.
  { by destruct (user !! "id"); cbn [object];
      rewrite ?lookup_insert_eq, ?lookup_insert_ne by done. }
  rewrite (bool_decide_ext (Some pid = post !! "id") (post !! "id" = Some pid)) by done.
  case_bool_decide; cbn [length]; lia.
Qed.

(** ** Escaping *)

Lemma app_cons_string x (a b : string) : String x a +:+ b = String x (a +:+ b).
Proof. reflexivity. Qed.

Lemma app_assoc_string (a b c : string) : (a +:+ b) +:+ c = a +:+ (b +:+ c).
Proof. induction a as [|x a IH]; [done|]. by rewrite !app_cons_string, IH. Qed.

Lemma replace_char_app c r a b :
  Js.replace_char c r (a +:+ b) = Js.replace_char c r a +:+ Js.replace_char c r b.
Proof.
  induction a as [|x a IH]; [done|]. rewrite app_cons_string.
  cbn [Js.replace_char]. rewrite IH.
  case_bool_decide; [by rewrite app_assoc_string|done].
Qed.

Lemma replace_char_flat c r f s :
  Js.replace_char c r (flat_map_string f s)
  = flat_map_string (λ d, Js.replace_char c r (f d)) s.
Proof.
  induction s as [|x s IH]; [done|]. cbn. by rewrite replace_char_app, IH.
Qed.

Lemma flat_map_string_ext f g s :
  (∀ c, f c = g c) -> flat_map_string f s = flat_map_string g s.
Proof. intros Hfg. induction s as [|x s IH]; [done|]. cbn. by rewrite Hfg, IH. Qed.

Lemma flat_map_string_id s : flat_map_string (λ c, String c "") s = s.
Proof. induction s as [|x s IH]; [done|]. cbn. by rewrite IH. Qed.

Lemma escapeHtml_flat s : FeedManager.escapeHtml s = flat_map_string escaped s.
Proof.
  unfold FeedManager.escapeHtml. rewrite <- (flat_map_string_id s) at 1.
  rewrite !replace_char_flat. apply flat_map_string_ext.
  intros c. unfold escaped.
  repeat (cbn [Js.replace_char]; case_bool_decide; [subst; reflexivity|]).
  reflexivity.
Qed.

Lemma has_char_app c a b :
  Js.has_char c (a +:+ b) = Js.has_char c a || Js.has_char c b.
Proof.
  induction a as [|x a IH]; [done|]. rewrite app_cons_string.
  cbn [Js.has_char]. by rewrite IH, orb_assoc.
Qed.

Lemma has_char_flat c f s :
  (∀ d, Js.has_char c (f d) = false) -> Js.has_char c (flat_map_string f s) = false.
Proof.
  intros Hf. induction s as [|x s IH]; [done|]. cbn. by rewrite has_char_app, Hf, IH.
Qed.

Lemma escaped_cases c :
  (escaped c = String c "" ∧ c ≠ "&"%char ∧ c ≠ "<"%char ∧ c ≠ ">"%char
   ∧ c ≠ "034"%char ∧ c ≠ "039"%char)
  ∨ (c = "&"%char ∧ escaped c = "&amp;")
  ∨ (c = "<"%char ∧ escaped c = "&lt;")
  ∨ (c = ">"%char ∧ escaped c = "&gt;")
  ∨ (c = "034"%char ∧ escaped c = "&quot;")
  ∨ (c = "039"%char ∧ escaped c = "&#039;").
Proof.
  unfold escaped. repeat case_bool_decide; subst; auto 10.
Qed.

Lemma escaped_inj c1 c2 r1 r2 :
  escaped c1 +:+ r1 = escaped c2 +:+ r2 -> c1 = c2 ∧ r1 = r2.
Proof.
  destruct (escaped_cases c1) as [(-> & ? & ? & ? & ? & ?)|[[-> ->]|[[-> ->]|[[-> ->]|[[-> ->]|[-> ->]]]]]];
  destruct (escaped_cases c2) as [(-> & ? & ? & ? & ? & ?)|[[-> ->]|[[-> ->]|[[-> ->]|[[-> ->]|[-> ->]]]]]];
  cbn; intros [=]; subst; done.
Qed.

Lemma flat_escaped_inj s1 s2 :
  flat_map_string escaped s1 = flat_map_string escaped s2 -> s1 = s2.
Proof.
  revert s2. induction s1 as [|x s1 IH]; intros [|y s2]; cbn [flat_map_string].
  - done.
  - destruct (escaped_cases y) as [(-> & _)|[[_ ->]|[[_ ->]|[[_ ->]|[[_ ->]|[_ ->]]]]]];
      discriminate.
  - destruct (escaped_cases x) as [(-> & _)|[[_ ->]|[[_ ->]|[[_ ->]|[[_ ->]|[_ ->]]]]]];
      discriminate.
  - intros Heq. apply escaped_inj in Heq as [-> Heq]. by rewrite (IH s2 Heq).
Qed.

(** What [escapeHtml] guarantees: the escaped text holds none of the
    characters [<], [>], double quote and single quote; a text without the
    five special characters is left as it is; and no two texts are escaped
    to the same text. *)
Theorem escapeHtml_is_safe_and_faithful :
  (∀ s c, c ∈ ["<"; ">"; "034"; "039"]%char ->
          Js.has_char c (FeedManager.escapeHtml s) = false)
  ∧ (∀ s, (∀ c, c ∈ ["&"; "<"; ">"; "034"; "039"]%char -> Js.has_char c s = false) ->
          FeedManager.escapeHtml s = s)
  ∧ (∀ s1 s2, FeedManager.escapeHtml s1 = FeedManager.escapeHtml s2 -> s1 = s2).
Proof.
  split_and!.
  - intros s c Hc. rewrite escapeHtml_flat. apply has_char_flat. intros d.
    rewrite !elem_of_cons, elem_of_nil in Hc.
    destruct (escaped_cases d) as [(-> & ? & ? & ? & ? & ?)|[[-> ->]|[[-> ->]|[[-> ->]|[[-> ->]|[-> ->]]]]]];
      destruct Hc as [->|[->|[->|[->|[]]]]]; cbn; try done;
      by rewrite bool_decide_eq_false_2.
  - intros s Hs. rewrite escapeHtml_flat. induction s as [|x s IH]; [done|].
    cbn [flat_map_string]. rewrite IH.
    + destruct (escaped_cases x) as [(-> & _)|Hx]; [done|]. exfalso.
      assert (∀ c, c ∈ ["&"; "<"; ">"; "034"; "039"]%char -> x ≠ c) as Hne.
      { intros c Hc ->. specialize (Hs c Hc). cbn in Hs.
        by rewrite bool_decide_eq_true_2 in Hs. }
      destruct Hx as [[-> _]|[[-> _]|[[-> _]|[[-> _]|[-> _]]]]];
        (eapply Hne; [|reflexivity]; listed_key).
    + intros c Hc. specialize (Hs c Hc). cbn in Hs.
      by apply orb_false_iff in Hs as [_ ?].
  - intros s1 s2. rewrite !escapeHtml_flat. apply flat_escaped_inj.
Qed.

Lemma replace_char_absent c r s :
  Js.has_char c s = false -> Js.replace_char c r s = s.
Proof.
  induction s as [|x s IH]; [done|].
  cbn [Js.has_char Js.replace_char]. intros [Hx Hs]%orb_false_iff.
  by rewrite Hx, IH.
Qed.

Lemma has_char_replace c d r s :
  Js.has_char c r = false -> Js.has_char c s = false ->
  Js.has_char c (Js.replace_char d r s) = false.
Proof.
  intros Hr. induction s as [|x s IH]; [done|].
  cbn [Js.has_char Js.replace_char]. intros [Hx Hs]%orb_false_iff.
  destruct (bool_decide (x = d)).
  - by rewrite has_char_app, Hr, IH.
  - cbn [Js.has_char]. by rewrite Hx, IH.
Qed.

(** The feed's and the profile page's formatter produce the same markup for
    every post that holds neither a double nor a single quote. *)
Theorem formatters_agree_without_quotes content :
  Js.has_char "034" content = false ->
  Js.has_char "039" content = false ->
  ProfileManager.formatPostContent content = FeedManager.formatPostContent content.
Proof.
  intros Hdq Hsq.
  unfold ProfileManager.formatPostContent, FeedManager.formatPostContent,
    FeedManager.escapeHtml.
  case_bool_decide; [done|]. f_equal.
  rewrite (replace_char_absent "039"), (replace_char_absent "034"); [done| |];
    repeat (apply has_char_replace; [done|]); done.
Qed.

(** ** The feed page against the server *)






Lemma length_trimEnd s : (String.length (Js.trimEnd s) ≤ String.length s)%nat.
Proof.
  induction s as [|c s IH]; [done|]. cbn [Js.trimEnd].
  destruct (Js.trimEnd s); [destruct (Js.is_space c)|]; cbn in *; lia.
Qed.

Lemma length_trimStart s : (String.length (Js.trimStart s) ≤ String.length s)%nat.
Proof.
  induction s as [|c s IH]; [done|]. cbn [Js.trimStart].
  destruct (Js.is_space c); cbn in *; lia.
Qed.

Lemma length_trim s : (String.length (Js.trim s) ≤ String.length s)%nat.
Proof.
  unfold Js.trim. etrans; [apply length_trimEnd|apply length_trimStart].
Qed.



(** ** The sign-up and login forms against the server *)

Lemma trim_nonempty_length s : Js.trim s ≠ "" -> (1 ≤ String.length s)%nat.
Proof. destruct s; [done|]. cbn. lia. Qed.

(** What passes the checks of the two forms passes the validators of the
    server, except that the server alone caps the display name at 50 and
    the username at 30 characters and has its own notion of an e-mail
    address. *)
Theorem client_checks_imply_server_checks env :
  (∀ data,
     AuthSystem.validateRegistration data = [] ->
     (String.length (AuthSystem.text_of (AuthSystem.displayName data)) ≤ 50)%nat ->
     (String.length (AuthSystem.text_of (AuthSystem.username data)) ≤ 30)%nat ->
     isEmail env (AuthSystem.text_of (AuthSystem.email data)) = true ->
     Server.handleValidationErrors (Server.register_checks env)
       (AuthSystem.register_request data) = None)
  ∧ (∀ identifier password,
       AuthSystem.validateLogin identifier password = [] ->
       Server.handleValidationErrors Server.login_checks
         (AuthSystem.login_request identifier password) = None).
Proof.
  split.
  - intros [display user mail pass confirm agreed]. unfold AuthSystem.validateRegistration.
    cbn [AuthSystem.displayName AuthSystem.username AuthSystem.email
         AuthSystem.password AuthSystem.confirmPassword AuthSystem.privacyPolicy].
    intros Hchecks Hdisplay Huser Hmail.
    destruct (AuthSystem.blank display) eqn:Hd; [done|].
    destruct (AuthSystem.blank user) eqn:Hu; [done|].
    destruct (String.length (AuthSystem.text_of user) <? 3)%nat eqn:Hu3; [done|].
    destruct (Validator.matches_word (AuthSystem.text_of user)) eqn:Hword; [|done].
    destruct (AuthSystem.blank mail) eqn:Hm; [done|].
    destruct (AuthSystem.isValidEmail (AuthSystem.text_of mail)); [|done].
    destruct (bool_decide (AuthSystem.text_of pass = "")) eqn:Hp; [done|].
    destruct (String.length (AuthSystem.text_of pass) <? 6)%nat eqn:Hp6; [done|].
    clear Hchecks.
    destruct display as [display|]; [|done]. destruct user as [user|]; [|done].
    destruct mail as [mail|]; [|done]. destruct pass as [pass|]; [|done].
    cbn [AuthSystem.text_of default from_option id AuthSystem.blank] in *.
    apply bool_decide_eq_false_1, trim_nonempty_length in Hd.
    apply Nat.ltb_ge in Hu3. apply Nat.ltb_ge in Hp6.
    unfold Server.handleValidationErrors, Validator.validationResult,
      Server.register_checks, AuthSystem.register_request.
    cbn [body List.filter Validator.field Validator.test fmap option_fmap option_map
         AuthSystem.displayName AuthSystem.username AuthSystem.email AuthSystem.password
         AuthSystem.password_json from_option object].
    rewrite !lookup_insert_eq.
    repeat (rewrite lookup_insert_ne by done; rewrite ?lookup_insert_eq).
    cbn [to_text]. rewrite Hword, Hmail.
    rewrite (proj2 (isLength_spec 1 50 display)) by lia.
    rewrite (proj2 (isLength_spec 3 30 user)) by lia.
    unfold Validator.isLength. rewrite (proj2 (Nat.leb_le _ _) Hp6). done.
  - intros identifier password. unfold AuthSystem.validateLogin.
    destruct (AuthSystem.blank identifier) eqn:Hi; [done|].
    destruct (bool_decide (AuthSystem.text_of password = "")) eqn:Hp; [done|].
    intros _. destruct identifier as [identifier|]; [|done].
    destruct password as [password|]; [|done].
    cbn [AuthSystem.text_of default from_option id AuthSystem.blank] in *.
    apply bool_decide_eq_false_1 in Hi. apply bool_decide_eq_false_1 in Hp.
    assert (identifier ≠ "") as Hne by (by intros ->).
    unfold Server.handleValidationErrors, Validator.validationResult,
      Server.login_checks, AuthSystem.login_request.
    cbn [body List.filter Validator.field Validator.test fmap option_fmap option_map
         AuthSystem.password_json from_option object].
    rewrite lookup_insert_eq, lookup_insert_ne, lookup_insert_eq by done.
    cbn [to_text]. unfold Validator.notEmpty.
    by rewrite !bool_decide_eq_false_2.
Qed.




(** ** Time labels, counters and the stored session *)

(** The label of a post's time: a post less than a minute old, or dated in
    the future, reads [just now]; then whole minutes up to 59, whole hours
    up to 23 and whole days up to 6, each rounded down; from seven days on
    the date is shown. *)
Theorem formatTimestamp_labels posted now :
  let age := now - posted in
  match Feed.formatTimestamp (Feed.At posted) now with
  | Feed.JustNow => age < 60000
  | Feed.Minutes n => 1 <= n <= 59 ∧ n * 60000 <= age < (n + 1) * 60000
  | Feed.Hours n => 1 <= n <= 23 ∧ n * 3600000 <= age < (n + 1) * 3600000
  | Feed.Days n => 1 <= n <= 6 ∧ n * 86400000 <= age < (n + 1) * 86400000
  | Feed.LocaleDate shown => shown = Some posted ∧ 7 * 86400000 <= age
  end.
Proof.
  cbn zeta. unfold Feed.formatTimestamp.
  pose proof (Z.div_mod (now - posted) 60000 ltac:(done)).
  pose proof (Z.mod_pos_bound (now - posted) 60000 ltac:(done)).
  pose proof (Z.div_mod (now - posted) 3600000 ltac:(done)).
  pose proof (Z.mod_pos_bound (now - posted) 3600000 ltac:(done)).
  pose proof (Z.div_mod (now - posted) 86400000 ltac:(done)).
  pose proof (Z.mod_pos_bound (now - posted) 86400000 ltac:(done)).
  destruct (Z.ltb_spec ((now - posted) / 60000) 1); [lia|].
  destruct (Z.ltb_spec ((now - posted) / 60000) 60); [lia|].
  destruct (Z.ltb_spec ((now - posted) / 3600000) 24); [lia|].
  destruct (Z.ltb_spec ((now - posted) / 86400000) 7); [lia|].
  split; [done|lia].
Qed.

(** The classes of a character counter after an update, for a limit and a
    warning mark below it.  The counter is marked as in error exactly when
    the text is over the limit, or was in error before and is still over the
    warning mark: the error mark stays while the text shrinks back under the
    limit, until it is down to the warning mark. *)
Theorem counter_classes limit warn value c :
  (warn ≤ limit)%nat ->
  let n := String.length value in
  let c' := Feed.update_counter limit warn value c in
  Feed.textContent c' = pretty n +:+ "/" +:+ pretty limit
  ∧ ("error" ∈ Feed.classList c'
     ↔ (limit < n)%nat ∨ ((warn < n)%nat ∧ "error" ∈ Feed.classList c))
  ∧ ("warning" ∈ Feed.classList c'
     ↔ ((warn < n)%nat ∧ (n ≤ limit)%nat)
       ∨ ((warn < n)%nat ∧ "warning" ∈ Feed.classList c))
  ∧ (∀ class, class ≠ "error" -> class ≠ "warning" ->
              class ∈ Feed.classList c' ↔ class ∈ Feed.classList c).
Proof.
  intros Hmarks n c'. subst n c'. unfold Feed.update_counter.
  cbn [Feed.textContent Feed.classList].
  destruct (limit <? String.length value)%nat eqn:Hover;
    [apply Nat.ltb_lt in Hover|apply Nat.ltb_ge in Hover];
    (destruct (warn <? String.length value)%nat eqn:Hwarn;
     [apply Nat.ltb_lt in Hwarn|apply Nat.ltb_ge in Hwarn]);
    (split_and!; [done| | |intros class ? ?]);
    rewrite ?elem_of_union, ?elem_of_difference, ?elem_of_union, ?elem_of_singleton;
    try (intuition (try done; try lia)).
Qed.


(** ** The posts of the profile page *)

Lemma mock_posts_length now random p i n :
  length (Profile.mock_posts now random p i n) = n.
Proof. revert i. induction n as [|n IH]; intros i; [done|]. cbn. by rewrite IH. Qed.

Lemma mock_posts_lookup now random p i n k post :
  Profile.mock_posts now random p i n !! k = Some post ->
  (k < n)%nat
  ∧ Profile.id post = "post-" +:+ pretty (i + k)%nat
  ∧ Profile.created_at post = now - Z.of_nat (i + k) * 3600000
  ∧ Profile.likes_count post = (random (i + k)%nat).1
  ∧ Profile.comments_count post = (random (i + k)%nat).2.
Proof.
  revert i k. induction n as [|n IH]; intros i k; [done|].
  cbn [Profile.mock_posts]. destruct k as [|k].
  - intros [= <-]. rewrite Nat.add_0_r. cbn. split_and!; try done. lia.
  - intros Hk. apply IH in Hk as (? & ? & ? & ? & ?).
    rewrite <- Nat.add_succ_comm. split_and!; try done. lia.
Qed.

(** The profile page shows made-up posts, not the user's: as many as the
    profile's post count says, and five when that count is zero, so that a
    profile without posts never gets the empty state.  The [k]-th of them is
    numbered [k] and dated [k] hours back, and is labelled accordingly when
    rendered at once.  The clock is taken in the range where every such
    date can be written. *)
Theorem profile_posts_are_made_up now random p :
  0 <= Profile.posts_count p ->
  - Date.max_time + (Profile.posts_count p + 5) * 3600000 <= now <= Date.max_time ->
  ∃ shown,
    Profile.loadProfilePosts now now random p = Some shown
    ∧ length shown
      = Z.to_nat (if Profile.posts_count p =? 0 then 5 else Profile.posts_count p)
    ∧ ∀ (k : nat) r,
        shown !! k = Some r ->
        Profile.post_id r = "post-" +:+ pretty k
        ∧ Profile.likes r = (random k).1
        ∧ Profile.comments r = (random k).2
        ∧ Profile.time r
          = if (k =? 0)%nat then Feed.JustNow
            else if (k <? 24)%nat then Feed.Hours (Z.of_nat k)
            else if (k <? 168)%nat then Feed.Days (Z.of_nat k / 24)
            else Feed.LocaleDate (Some (now - Z.of_nat k * 3600000)).
Proof.
  intros Hcount _. unfold Profile.loadProfilePosts, Profile.generateMockPosts,
    Profile.renderProfilePosts.
  set (n := Z.to_nat (if Profile.posts_count p =? 0 then 5 else Profile.posts_count p)).
  assert (0 < n)%nat as Hn.
  { subst n. destruct (Z.eqb_spec (Profile.posts_count p) 0); lia. }
  destruct (Profile.mock_posts now random p 0 n) as [|post posts] eqn:Hposts.
  { pose proof (mock_posts_length now random p 0 n) as Hlen.
    rewrite Hposts in Hlen. cbn in Hlen. lia. }
  rewrite <- Hposts. eexists. split; [done|]. split.
  { by rewrite length_fmap, mock_posts_length. }
  intros k r. rewrite list_lookup_fmap.
  destruct (Profile.mock_posts now random p 0 n !! k) as [mock|] eqn:Hk; [|done].
  intros [= <-]. apply mock_posts_lookup in Hk as (_ & Hid & Hat & Hlikes & Hcomments).
  cbn [Profile.post_id Profile.likes Profile.comments Profile.time].
  rewrite Hid, Hat, Hlikes, Hcomments. cbn [Nat.add]. split_and!; try done.
  unfold Feed.formatTimestamp.
  replace (now - (now - Z.of_nat k * 3600000)) with (Z.of_nat k * 3600000) by lia.
  replace (Z.of_nat k * 3600000 / 60000) with (Z.of_nat k * 60)
    by (apply Z.div_unique_exact; lia).
  rewrite Z.div_mul by done.
  replace (Z.of_nat k * 3600000 / 86400000) with (Z.of_nat k / 24).
  2: { replace 86400000 with (3600000 * 24) by done.
       rewrite <- Z.div_div by lia. by rewrite Z.div_mul. }
  destruct (Nat.eqb_spec k 0) as [->|Hk0]; [done|].
  rewrite (proj2 (Z.ltb_ge _ _)) by lia.
  destruct (Nat.ltb_spec k 24).
  { rewrite (proj2 (Z.ltb_ge _ _)) by lia. by rewrite (proj2 (Z.ltb_lt _ _)) by lia. }
  rewrite (proj2 (Z.ltb_ge (Z.of_nat k * 60) 60)) by lia.
  rewrite (proj2 (Z.ltb_ge (Z.of_nat k) 24)) by lia.
  destruct (Nat.ltb_spec k 168).
  - rewrite (proj2 (Z.ltb_lt _ _)); [done|].
    apply Z.div_lt_upper_bound; lia.
  - rewrite (proj2 (Z.ltb_ge _ _)); [done|].
    apply Z.div_le_lower_bound; lia.
Qed.

(** ** Instances of the further statements *)

Lemma sample_users : Db.from "users" Sample.db = [Sample.root; Sample.carol].
Proof. reflexivity. Qed.

Lemma sample_users_lowercase : lowercase_users Sample.db.
Proof.
  intros u col text Hu Hcol Htext. rewrite sample_users in Hu.
  rewrite !elem_of_cons, elem_of_nil in Hu.
  destruct Hu as [->|[->|[]]], Hcol as [->| ->];
    vm_compute in Htext; injection Htext as <-; reflexivity.
Qed.

(** Numbers, truth values and texts are evaluated; rows and stores are
    compared as they are. *)
Ltac evaluated := vm_compute; reflexivity.



Lemma read_only_routes_keep_the_store_witness :
  (Server.app Server.GET_users Sample.env (Sample.visit None "carol") Sample.db).2
  = Sample.db.
Proof.
  apply (read_only_routes_keep_the_store Server.GET_users Sample.env
           (Sample.visit None "carol") Sample.db).
  reflexivity.
Defined.

Lemma gate_guards_protected_routes_witness :
  Server.app Server.POST_posts_like Sample.env
    (Sample.post_json (Some (Opaque "not.a.token")) (Some (SNum 7)) []) Sample.db
  = (res_status_json 403 (error_body "Invalid token"), Sample.db)
  ∧ Server.app Server.GET_posts Sample.env
      (with_authorization (Some [Opaque "Bearer"; Opaque "not.a.token"])
         (Sample.get None []))
      Sample.db
    = Server.app Server.GET_posts Sample.env (Sample.get None []) Sample.db.
Proof.
  split.
  - apply (proj1 (gate_guards_protected_routes Server.POST_posts_like Sample.env
                    (Sample.post_json (Some (Opaque "not.a.token")) (Some (SNum 7)) [])
                    Sample.db)); reflexivity.
  - apply (proj2 (gate_guards_protected_routes Server.GET_posts Sample.env
                    (Sample.get None []) Sample.db)).
    reflexivity.
Defined.

Lemma role_gates_witness :
  Server.app Server.GET_admin_users Sample.env
    (Sample.get (Some Sample.carol_token) []) Sample.db
  = (res_status_json 403 (error_body "Admin access required"), Sample.db)
  ∧ Server.app Server.DELETE_admin_posts Sample.env
      (Sample.post_json (Some Sample.carol_token) (Some (SNum 7)) []) Sample.db
    = (res_status_json 403 (error_body "Moderator access required"), Sample.db)
  ∧ status (Server.app Server.DELETE_admin_posts Sample.env
              (Sample.post_json (Some Sample.mod_token) (Some (SNum 7)) [])
              Sample.db).1 ≠ 403.
Proof.
  split_and!.
  - apply (proj1 (role_gates Server.GET_admin_users Sample.env
                    (Sample.get (Some Sample.carol_token) []) Sample.db
                    (Sample.claims Sample.env Sample.carol_token)
                    ltac:(reflexivity))); evaluated.
  - apply (proj1 (proj2 (role_gates Server.DELETE_admin_posts Sample.env
                    (Sample.post_json (Some Sample.carol_token) (Some (SNum 7)) [])
                    Sample.db (Sample.claims Sample.env Sample.carol_token)
                    ltac:(reflexivity)))); evaluated.
  - apply (proj2 (proj2 (role_gates Server.DELETE_admin_posts Sample.env
                    (Sample.post_json (Some Sample.mod_token) (Some (SNum 7)) [])
                    Sample.db (Sample.claims Sample.env Sample.mod_token)
                    ltac:(reflexivity)))); evaluated.
Defined.



Lemma routes_keep_usernames_lowercase_witness :
  lowercase_users
    (Server.app Server.POST_auth_register Sample.env
       (Sample.signup "Dave" "Dave@Example.com") Sample.db).2.
Proof.
  apply (routes_keep_usernames_lowercase Server.POST_auth_register Sample.env
           (Sample.signup "Dave" "Dave@Example.com") Sample.db).
  apply sample_users_lowercase.
Defined.


Lemma registered_token_authenticates_witness :
  let run := Server.register Sample.env (Sample.signup "dave" "dave@example.com")
               Sample.db in
  let req := Sample.get (AuthSystem.token_member (sent run.1)) [] in
  ∃ claims,
    Server.authenticateToken (Sample.later 1000) req = inr claims
    ∧ claims !! "id" = Some (SNum 10)
    ∧ Server.requireAdmin (Some claims)
      = Some (res_status_json 403 (error_body "Admin access required"))
    ∧ Server.requireModerator (Some claims)
      = Some (res_status_json 403 (error_body "Moderator access required")).
Proof.
  intros run req.
  destruct (registered_token_authenticates Sample.env (Sample.later 1000)
              (Sample.signup "dave" "dave@example.com") Sample.db run.1 run.2 req
              (surjective_pairing _) ltac:(evaluated) ltac:(reflexivity))
    as (token & user & Htoken & Hlast & Hgate).
  assert (bearer req = Some token) as Hbearer.
  { unfold req, bearer, Sample.get, AuthSystem.token_member. by rewrite Htoken. }
  destruct (Hgate Hbearer) as [Hfresh _].
  destruct Hfresh as (claims & Hclaims & Hid & Hadmin & Hmod); [evaluated|].
  exists claims. split_and!; [exact Hclaims| |exact Hadmin|exact Hmod].
  rewrite Hid.
  assert (last (Db.from "users" run.2) ≫= (λ u : row, u !! "id") = Some (SNum 10))
    as Hten by evaluated.
  rewrite Hlast in Hten. exact Hten.
Defined.


Lemma like_then_unlike_witness :
  let req := Sample.post_json (Some Sample.carol_token) (Some (SNum 7)) [] in
  let liked := Server.like_post Sample.env req Sample.db in
  let unliked := Server.unlike_post (Sample.later 1000) req liked.2 in
  status liked.1 = 200
  ∧ length (Db.from "likes" liked.2) = S (length (Db.from "likes" Sample.db))
  ∧ unliked.1 = res_json (jobject [("liked", JVal (SBool false))])
  ∧ Db.from "likes" unliked.2 = Db.from "likes" Sample.db.
Proof.
  cbv zeta.
  destruct (like_then_unlike Sample.env (Sample.later 1000)
              (Sample.post_json (Some Sample.carol_token) (Some (SNum 7)) []) Sample.db
              (Sample.claims Sample.env Sample.carol_token) (SNum 2) (SNum 7)
              ltac:(reflexivity) ltac:(reflexivity)
              ltac:(reflexivity) ltac:(reflexivity))
    as (Hok & Hlength & Hanswer & _ & Hback).
  split_and!; [exact Hok|exact Hlength|exact Hanswer|].
  apply Hback. intros r Hr. by apply elem_of_nil in Hr.
Defined.

Lemma profile_read_witness :
  Server.get_user Sample.env (Sample.visit None "nobody") Sample.db
  = (res_status_json 404 (error_body "User not found"), Sample.db)
  ∧ ∃ shown : row,
      Server.get_user Sample.env (Sample.visit None "carol") Sample.db
      = (res_json (of_row shown), Sample.db)
      ∧ shown !! "username" = Some (SStr "carol")
      ∧ shown !! "posts_count" = Some (SNum 1)
      ∧ shown !! "followers_count" = Some (SNum 0)
      ∧ shown !! "email" = None
      ∧ shown !! "password_hash" = None
      ∧ shown !! "is_admin" = None.
Proof.
  split.
  - apply (proj1 (profile_read Sample.env (Sample.visit None "nobody") Sample.db)).
    intros found. vm_compute. discriminate.
  - destruct (proj2 (profile_read Sample.env (Sample.visit None "carol") Sample.db)
                Sample.carol ltac:(reflexivity))
      as (shown & Hanswer & Hcolumns & Hposts & Hfollowers & _ & Hrest).
    exists shown. split_and!.
    + exact Hanswer.
    + rewrite Hcolumns; [reflexivity|]. unfold Server.profile_columns. listed_key.
    + rewrite Hposts. reflexivity.
    + rewrite Hfollowers. reflexivity.
    + apply Hrest; unfold Server.profile_columns; fresh_key.
    + apply Hrest; unfold Server.profile_columns; fresh_key.
    + apply Hrest; unfold Server.profile_columns; fresh_key.
Defined.

Lemma follow_adds_a_follower_witness :
  let req := Sample.visit (Some Sample.carol_token) "root" in
  let followed := Server.follow_user Sample.env req Sample.db in
  status followed.1 = 200
  ∧ (∃ row,
       Db.from "follows" followed.2 = (Db.from "follows" Sample.db ++ [row])%list
       ∧ row !! "follower_id" = Some (SNum 2)
       ∧ row !! "following_id" = Some (SNum 1))
  ∧ ∃ n,
      property "followers_count" (sent (Server.get_user Sample.env req Sample.db).1)
      = Some (JVal (SNum n))
      ∧ property "followers_count" (sent (Server.get_user Sample.env req followed.2).1)
        = Some (JVal (SNum (n + 1))).
Proof.
  cbv zeta.
  apply (follow_adds_a_follower Sample.env Sample.env
           (Sample.visit (Some Sample.carol_token) "root") Sample.db
           (Sample.claims Sample.env Sample.carol_token) Sample.root (SNum 1));
    reflexivity.
Defined.

Lemma delete_post_effects_witness :
  let req := Sample.post_json (Some Sample.mod_token) (Some (SNum 7)) [] in
  let run := Server.delete_post Sample.env req Sample.db in
  run.1 = res_json (message_body "Post deleted successfully")
  ∧ Db.from "posts" run.2
    = List.filter (λ p, negb (bool_decide (p !! "id" = Some (SNum 7))))
        (Db.from "posts" Sample.db)
  ∧ ∃ audit,
      Db.from "moderation_actions" run.2
      = (Db.from "moderation_actions" Sample.db ++ [audit])%list
      ∧ audit !! "action_type" = Some (SStr "delete_post")
      ∧ audit !! "target_post_id" = Some (SNum 7)
      ∧ audit !! "moderator_id" = Some (SNum 2)
      ∧ audit !! "reason" = Some (SStr "Violation of community guidelines").
Proof.
  cbv zeta.
  apply (delete_post_effects Sample.env
           (Sample.post_json (Some Sample.mod_token) (Some (SNum 7)) []) Sample.db
           (Sample.claims Sample.env Sample.mod_token) (SNum 7)).
  - reflexivity.
  - evaluated.
  - reflexivity.
Defined.

Lemma ban_lasts_at_least_an_hour_witness :
  let ban hours :=
    Sample.post_json (Some Sample.root_token) (Some (SNum 2))
      [("reason", SStr "spam"); ("duration_hours", SNum hours)] in
  (∃ d until,
     body (ban 24) !! "duration_hours" ≫= Server.to_number = Some d
     ∧ 1 <= d
     ∧ Date.toISOString (Date_now Sample.env + d * 3600000) = Some until
     ∧ Date_now Sample.env + 3600000 <= Date_now Sample.env + d * 3600000)
  ∧ status (Server.ban_user Sample.env (ban 0) Sample.db).1 = 400
  ∧ (Server.ban_user Sample.env (ban 0) Sample.db).2 = Sample.db
  ∧ status (Server.ban_user Sample.env (ban (-3)) Sample.db).1 = 400.
Proof.
  intros ban. split_and!.
  - apply (proj1 (ban_lasts_at_least_an_hour Sample.env (ban 24) Sample.db)).
    evaluated.
  - apply (proj2 (ban_lasts_at_least_an_hour Sample.env (ban 0) Sample.db)
             (Sample.claims Sample.env Sample.root_token) 0
             ltac:(reflexivity) ltac:(evaluated) ltac:(reflexivity) ltac:(evaluated)).
  - apply (proj2 (ban_lasts_at_least_an_hour Sample.env (ban 0) Sample.db)
             (Sample.claims Sample.env Sample.root_token) 0
             ltac:(reflexivity) ltac:(evaluated) ltac:(reflexivity) ltac:(evaluated)).
  - apply (proj2 (ban_lasts_at_least_an_hour Sample.env (ban (-3)) Sample.db)
             (Sample.claims Sample.env Sample.root_token) (-3)
             ltac:(reflexivity) ltac:(evaluated) ltac:(reflexivity) ltac:(evaluated)).
Defined.


Lemma sample_schema t r :
  t ≠ "users" -> r ∈ Db.from t Sample.db -> r !! "password_hash" = None.
Proof.
  intros Hne. unfold Db.from, Sample.db. cbn [tables].
  rewrite lookup_insert_ne by done.
  destruct (decide (t = "posts")) as [->|Hposts].
  { rewrite lookup_insert_eq. cbn [default from_option id].
    intros ->%list_elem_of_singleton. reflexivity. }
  rewrite lookup_insert_ne by done.
  destruct (decide (t = "reports")) as [->|Hreports].
  { rewrite lookup_insert_eq. cbn [default from_option id].
    intros ->%list_elem_of_singleton. reflexivity. }
  rewrite lookup_insert_ne by done. rewrite lookup_empty. cbn.
  by intros ?%elem_of_nil.
Qed.

Lemma only_the_admin_listing_sends_password_hash_witness :
  has_key "password_hash"
    (sent (Server.app Server.GET_moderation_reports Sample.env
             (Sample.get (Some Sample.mod_token) []) Sample.db).1) = false
  ∧ has_key "password_hash"
      (sent (Server.app Server.GET_posts Sample.env (Sample.get None []) Sample.db).1)
    = false.
Proof.
  split.
  - apply (only_the_admin_listing_sends_password_hash Server.GET_moderation_reports
             Sample.env (Sample.get (Some Sample.mod_token) []) Sample.db);
      [discriminate|apply sample_schema].
  - apply (only_the_admin_listing_sends_password_hash Server.GET_posts
             Sample.env (Sample.get None []) Sample.db);
      [discriminate|apply sample_schema].
Defined.

Lemma follow_then_unfollow_witness :
  let req := Sample.visit (Some Sample.carol_token) "root" in
  let followed := Server.follow_user Sample.env req Sample.db in
  let unfollowed := Server.unfollow_user (Sample.later 1000) req followed.2 in
  unfollowed.1 = res_json (jobject [("following", JVal (SBool false))])
  ∧ (∀ t, Db.from t unfollowed.2 = Db.from t Sample.db)
  ∧ (Server.get_user (Sample.later 2000) req unfollowed.2).1
    = (Server.get_user (Sample.later 2000) req Sample.db).1.
Proof.
  cbv zeta.
  destruct (follow_then_unfollow Sample.env (Sample.later 1000) (Sample.later 2000)
              (Sample.visit (Some Sample.carol_token) "root") Sample.db
              (Sample.claims Sample.env Sample.carol_token) (SNum 2)
              Sample.root (SNum 1)
              ltac:(reflexivity) ltac:(reflexivity) ltac:(reflexivity)
              ltac:(reflexivity) ltac:(reflexivity))
    as (Hanswer & _ & Hback).
  split; [exact Hanswer|]. apply Hback.
  intros r Hr. by apply elem_of_nil in Hr.
Defined.

Lemma duplicate_registration_rejected_witness :
  let db1 := (Server.register Sample.env (Sample.signup "dave" "dave@example.com")
                Sample.db).2 in
  Server.register (Sample.later 1000) (Sample.signup "dave" "d@example.com") db1
  = (res_status_json 400 (error_body "Username already exists"), db1)
  ∧ Server.register (Sample.later 1000) (Sample.signup "david" "dave@example.com") db1
    = (res_status_json 400 (error_body "Email already exists"), db1).
Proof.
  cbv zeta. split.
  - eapply (proj1 (duplicate_registration_rejected Sample.env (Sample.later 1000)
                     (Sample.signup "dave" "dave@example.com")
                     (Sample.signup "dave" "d@example.com") Sample.db _ _
                     "dave" "dave@example.com"
                     (surjective_pairing _) ltac:(evaluated) ltac:(reflexivity)
                     ltac:(reflexivity) ltac:(reflexivity) ltac:(reflexivity)
                     ltac:(reflexivity))).
    reflexivity.
  - eapply (proj2 (duplicate_registration_rejected Sample.env (Sample.later 1000)
                     (Sample.signup "dave" "dave@example.com")
                     (Sample.signup "david" "dave@example.com") Sample.db _ _
                     "dave" "dave@example.com"
                     (surjective_pairing _) ltac:(evaluated) ltac:(reflexivity)
                     ltac:(reflexivity) ltac:(reflexivity) ltac:(reflexivity)
                     ltac:(reflexivity))).
    + reflexivity.
    + intros r Hr.
      assert (Db.from "users"
                (Server.register Sample.env (Sample.signup "dave" "dave@example.com")
                   Sample.db).2
              = [Sample.root; Sample.carol;
                 default ∅ (last (Db.from "users"
                   (Server.register Sample.env (Sample.signup "dave" "dave@example.com")
                      Sample.db).2))]) as Husers by reflexivity.
      rewrite Husers in Hr. rewrite !elem_of_cons, elem_of_nil in Hr.
      destruct Hr as [->|[->|[->|[]]]]; vm_compute; discriminate.
Defined.

Lemma like_raises_the_feed_count_witness :
  let req := Sample.post_json (Some Sample.carol_token) (Some (SNum 7)) [] in
  let liked := Server.like_post Sample.env req Sample.db in
  shown_likes (Server.get_posts Sample.env (Sample.get None []) Sample.db).1
  = [Some (JVal (SNum 0))]
  ∧ shown_likes (Server.get_posts Sample.env (Sample.get None []) liked.2).1
    = [Some (JVal (SNum 1))].
Proof.
  cbv zeta.
  destruct (like_raises_the_feed_count Sample.env Sample.env
              (Sample.post_json (Some Sample.carol_token) (Some (SNum 7)) [])
              (Sample.get None []) Sample.db
              (Sample.claims Sample.env Sample.carol_token) (SNum 7)
              ltac:(reflexivity) ltac:(reflexivity))
    as [Hbefore Hafter].
  { intros post Hpost.
    assert (Db.from "posts" Sample.db = [Sample.post7]) as Hposts by reflexivity.
    rewrite Hposts in Hpost. apply list_elem_of_singleton in Hpost as ->.
    by eexists. }
  split.
  - rewrite Hbefore. reflexivity.
  - rewrite Hafter. reflexivity.
Defined.

Lemma create_post_accepted_witness :
  let req := Sample.post_json (Some Sample.carol_token) None
               [("content", SStr "  hello again  ")] in
  let run := Server.create_post Sample.env req Sample.db in
  status run.1 = 200
  ∧ ∃ text post,
      body req !! "content" = Some (SStr text)
      ∧ Db.from "posts" run.2 = (Db.from "posts" Sample.db ++ [post])%list
      ∧ post !! "content" = Some (SStr (Js.trim text)).
Proof.
  cbv zeta.
  destruct (create_post_accepted Sample.env
              (Sample.post_json (Some Sample.carol_token) None
                 [("content", SStr "  hello again  ")])
              Sample.db _ _ (surjective_pairing _)) as [Hiff Hstored].
  assert (status (Server.create_post Sample.env
                    (Sample.post_json (Some Sample.carol_token) None
                       [("content", SStr "  hello again  ")]) Sample.db).1 = 200)
    as Hok.
  { apply Hiff. split.
    - eexists. reflexivity.
    - exists "  hello again  ". split; [reflexivity|]. vm_compute. lia. }
  split; [exact Hok|]. exact (Hstored Hok).
Defined.

Lemma escapeHtml_is_safe_and_faithful_witness :
  Js.has_char "<" (FeedManager.escapeHtml "<script>alert('x')</script>") = false
  ∧ FeedManager.escapeHtml "plain text" = "plain text"
  ∧ (FeedManager.escapeHtml "a&lt;b" = FeedManager.escapeHtml "a<b" -> False).
Proof.
  destruct escapeHtml_is_safe_and_faithful as (Hsafe & Hplain & Hinj).
  split_and!.
  - apply Hsafe. listed_key.
  - apply Hplain. intros c Hc. rewrite !elem_of_cons, elem_of_nil in Hc.
    destruct Hc as [->|[->|[->|[->|[->|[]]]]]]; reflexivity.
  - intros Heq. apply Hinj in Heq. discriminate.
Defined.

Lemma formatters_agree_without_quotes_witness :
  ProfileManager.formatPostContent "1 < 2 & see https://example.com #demo @carol"
  = FeedManager.formatPostContent "1 < 2 & see https://example.com #demo @carol".
Proof.
  apply (formatters_agree_without_quotes
           "1 < 2 & see https://example.com #demo @carol"); reflexivity.
Defined.


Lemma client_checks_imply_server_checks_witness :
  Server.handleValidationErrors (Server.register_checks Sample.env)
    (AuthSystem.register_request
       (AuthSystem.form_data (Some " Dave ") (Some "Dave") (Some "dave@example.com")
          (Some "correct horse") (Some "correct horse") true)) = None
  ∧ Server.handleValidationErrors Server.login_checks
      (AuthSystem.login_request (Some "Dave") (Some "correct horse")) = None.
Proof.
  split.
  - apply (proj1 (client_checks_imply_server_checks Sample.env)).
    + reflexivity.
    + vm_compute. lia.
    + vm_compute. lia.
    + reflexivity.
  - apply (proj2 (client_checks_imply_server_checks Sample.env)). reflexivity.
Defined.


Lemma counter_classes_witness :
  let typed := Feed.updateCharCounter (Sample.letters 281) (Feed.mkCounter "0/280" ∅) in
  let deleted := Feed.updateCharCounter (Sample.letters 270) typed in
  Feed.textContent deleted = "270/280"
  ∧ "error" ∈ Feed.classList deleted
  ∧ "warning" ∈ Feed.classList deleted.
Proof.
  cbv zeta. unfold Feed.updateCharCounter.
  destruct (counter_classes 280 250 (Sample.letters 281) (Feed.mkCounter "0/280" ∅)
              ltac:(lia)) as (_ & Hover & _).
  destruct (counter_classes 280 250 (Sample.letters 270)
              (Feed.update_counter 280 250 (Sample.letters 281)
                 (Feed.mkCounter "0/280" ∅))
              ltac:(lia)) as (Htext & Herror & Hwarning & _).
  split_and!.
  - rewrite Htext. evaluated.
  - apply Herror. right. split; [vm_compute; lia|]. apply Hover. left. vm_compute. lia.
  - apply Hwarning. left. vm_compute. lia.
Defined.


Lemma profile_posts_are_made_up_witness :
  let p := Profile.mkProfile "Carol" "carol" "" 0 0 false in
  ∃ shown,
    Profile.loadProfilePosts 1700000000000 1700000000000 (λ _, (3, 1)) p = Some shown
    ∧ length shown = 5%nat.
Proof.
  cbv zeta.
  destruct (profile_posts_are_made_up 1700000000000 (λ _, (3, 1))
              (Profile.mkProfile "Carol" "carol" "" 0 0 false)
              ltac:(vm_compute; discriminate)
              ltac:(split; vm_compute; discriminate))
    as (shown & Hshown & Hlength & _).
  exists shown. split; [exact Hshown|exact Hlength].
Defined.
